(** * adaptiveMFA.ai backend: a shallow embedding of the risk-scoring,
      session, token, validator and helper code, with the properties the
      specification states about them.

    Conventions of the embedding.
    - A Python [float] is a rational [Q]: finite values with exact
      arithmetic.  Rounding, infinities and NaN are outside the model.
      Comparisons are the boolean tests [Qltb]/[Qgtb]/[Qeqb]; Python's
      [min]/[max] builtins are [py_min]/[py_max], which keep the first
      argument unless a later one is strictly smaller/larger.
    - A Python [str] is a [string] of bytes (its UTF-8 encoding), so
      [s.encode()] is the identity.
    - A [dict] with string keys is a [gmap string pyval].
    - The body of a [try: ... except Exception] block is a computation in
      the error monad [exn]; [try_except] runs it with the value the
      handler returns.
    - Clock reads ([datetime.now], [time.time]) are an explicit argument
      [now]. *)

From Stdlib Require Import ZArith QArith Qminmax Qabs Lqa Lia.
From Stdlib Require Import Ascii String.
From stdpp Require Import base option list gmap strings finite.

Set Default Proof Using "Type".
Local Open Scope Z_scope.

(* ================================================================== *)
(** * Part I: definitions                                              *)
(* ================================================================== *)

(** ** Python values and exceptions *)

Inductive pyexc :=
| TypeError | AttributeError | KeyError | ValueError | IndexError
| OtherError.

Inductive exn (A : Type) :=
| Ok (a : A)
| Raise (e : pyexc).
Arguments Ok {A} a.
Arguments Raise {A} e.

#[global] Instance exn_ret : MRet exn := fun _ a => Ok a.
#[global] Instance exn_bind : MBind exn := fun _ _ k m =>
  match m with
  | Ok a => k a
  | Raise e => Raise e
  end.

(** [try: body except Exception: handler]. *)
Definition try_except {A} (body : exn A) (handler : A) : A :=
  match body with
  | Ok a => a
  | Raise _ => handler
  end.

(** The values that flow through event, profile and workflow-state
    dictionaries.  [VList] and [VDict] are the containers; nothing in
    the modelled code looks inside them. *)
Inductive pyval :=
| VNone
| VBool (b : bool)
| VNum (q : Q)
| VStr (s : string)
| VList
| VDict.

(** [d.get(k, default)] and [d[k]]. *)
Definition dict_get (d : gmap string pyval) (k : string) (default : pyval) : pyval :=
  match d !! k with
  | Some v => v
  | None => default
  end.

Definition dict_item (d : gmap string pyval) (k : string) : exn pyval :=
  match d !! k with
  | Some v => Ok v
  | None => Raise KeyError
  end.

(** Numeric coercion in arithmetic: [bool] is a subclass of [int]; any
    other non-number makes [-], [/] raise [TypeError]. *)
Definition as_number (v : pyval) : exn Q :=
  match v with
  | VNum q => Ok q
  | VBool true => Ok 1%Q
  | VBool false => Ok 0%Q
  | _ => Raise TypeError
  end.

(** ** Floats as rationals *)

Definition Qltb (a b : Q) : bool := negb (Qle_bool b a).
Definition Qgtb (a b : Q) : bool := Qltb b a.
Definition Qeqb (a b : Q) : bool := Qeq_bool a b.

(** [min(a, b)]: [b] replaces [a] only when [b < a]. *)
Definition py_min (a b : Q) : Q := if Qltb b a then b else a.
(** [max(a, b)]: [b] replaces [a] only when [b > a]. *)
Definition py_max (a b : Q) : Q := if Qgtb b a then b else a.
(** [max(a, b, c)]. *)
Definition py_max3 (a b c : Q) : Q := py_max (py_max a b) c.

(** ** Settings ([app.config.settings]): the module is not part of the
    sources, its fields are taken as they are read. *)
Record Settings := {
  RISK_THRESHOLD_LOW : Q;
  RISK_THRESHOLD_HIGH : Q;
  SECRET_KEY : string
}.

(** ** utils/helpers.py *)
Module helpers.

(** Length of [range(start, stop, step)]; a zero step raises
    [ValueError]. *)
Definition range_len (start stop step : Z) : exn Z :=
  if step =? 0 then Raise ValueError
  else if 0 <? step then
    Ok (if start <? stop then (stop - start - 1) / step + 1 else 0)
  else
    Ok (if stop <? start then (start - stop - 1) / (- step) + 1 else 0).

Definition range (start stop step : Z) : exn (list Z) :=
  n ← range_len start stop step;
  Ok (map (fun j : nat => start + Z.of_nat j * step) (seq 0 (Z.to_nat n))).

(** Slice bound normalisation: a negative index counts from the end,
    then the index is clamped into [0, len]. *)
Definition slice_index (len i : Z) : Z :=
  let i' := if i <? 0 then i + len else i in
  Z.max 0 (Z.min len i').

(** [items[i:j]]. *)
Definition slice {A} (items : list A) (i j : Z) : list A :=
  let len := Z.of_nat (length items) in
  let lo := slice_index len i in
  let hi := slice_index len j in
  take (Z.to_nat (hi - lo)) (drop (Z.to_nat lo) items).

(** [[items[i:i + chunk_size] for i in range(0, len(items), chunk_size)]] *)
Definition chunk_list {A} (items : list A) (chunk_size : Z) : exn (list (list A)) :=
  idx ← range 0 (Z.of_nat (length items)) chunk_size;
  Ok (map (fun i => slice items i (i + chunk_size)) idx).

End helpers.

(** ** services/risk_service.py: scoring functions *)
Module RiskAssessmentService.
Local Open Scope Q_scope.

Definition _combine_signals
    (device_known : bool) (deviation ml_score location_metric : Q) : Q :=
  let device_factor := if device_known then 0.0 else 0.35 in
  let behavior_factor := py_min deviation 1.0 * 0.28 in
  let ml_factor := py_min ml_score 1.0 * 0.27 in
  let location_factor :=
    if Qgtb location_metric 900 then 0.10
    else if Qgtb location_metric 200 then 0.02
    else 0.0 in
  py_min 1.0 (device_factor + behavior_factor + ml_factor + location_factor).

Definition _map_deviation_to_risk (deviation : Q) : string :=
  if Qltb deviation 0.2 then "low"
  else if Qltb deviation 0.5 then "medium"
  else "high".

Definition _map_score_to_level (cfg : Settings) (score : Q) : string :=
  if Qltb score (RISK_THRESHOLD_LOW cfg) then "low"
  else if Qltb score (RISK_THRESHOLD_HIGH cfg) then "medium"
  else "high".

(** [calculate_risk_score(anomaly_score, rag_score=None)] *)
Definition calculate_risk_score (anomaly_score : Q) (rag_score : option Q) : Q :=
  match rag_score with
  | None => py_max 0.0 (py_min 1.0 anomaly_score)
  | Some r =>
      let combined := (anomaly_score + r) / 2 in
      py_max 0.0 (py_min 1.0 combined)
  end.

Definition get_risk_level (cfg : Settings) (risk_score : Q) : string :=
  if Qltb risk_score (RISK_THRESHOLD_LOW cfg) then "LOW"
  else if Qltb risk_score (RISK_THRESHOLD_HIGH cfg) then "MEDIUM"
  else "HIGH".

(** [calculate_risk_score] as Python calls it with positional
    arguments: the signature takes one or two, any other count raises
    [TypeError] before the body runs; inside the body a comparison or
    an addition on a non-number raises [TypeError] too. *)
Definition call_calculate_risk_score (args : list pyval) : exn Q :=
  match args with
  | [a] | [a; VNone] => x ← as_number a; Ok (calculate_risk_score x None)
  | [a; r] => x ← as_number a; y ← as_number r; Ok (calculate_risk_score x (Some y))
  | _ => Raise TypeError
  end.

(** The names bound in the class body of [RiskAssessmentService]. *)
Definition class_attributes : list string :=
  ["assess_login"; "_ml_risk_score"; "_combine_signals";
   "_map_deviation_to_risk"; "_map_score_to_level"; "_generate_explanation";
   "_error_response"; "calculate_risk_score"; "get_risk_level"; "functools"].

(** [RiskAssessmentService.<name>]: attribute lookup on the class. *)
Definition class_getattr (name : string) : exn string :=
  if bool_decide (name ∈ class_attributes) then Ok name else Raise AttributeError.

(** The dictionary [assess_login] returns. *)
Record RiskData := {
  risk_score : Q;
  risk_level : string;
  explanation : string;
  device_fingerprint : option string;
  device_known : bool;
  last_seen : option Z;
  behavior_risk : string;
  anomaly_score : Q;
  location_metric : Q;
  mfa_required : bool
}.

Definition _error_response : RiskData := {|
  risk_score := 0.5;
  risk_level := "medium";
  anomaly_score := 0.5;
  behavior_risk := "medium";
  explanation := "Unable to assess risk. Default MFA enabled for safety.";
  device_fingerprint := None;
  device_known := false;
  last_seen := None;
  location_metric := 0.0;
  mfa_required := true
|}.

(** [assess_login]: the whole body sits in one [try]; [body] is the
    outcome of that block (device lookup, behavioural analysis, ML
    scoring, location metric, combination, explanation), whose
    database, clock and geodesy effects are left to the caller of the
    model.  Whatever is raised there ends in [_error_response]. *)
Definition assess_login (body : exn RiskData) : RiskData :=
  try_except body _error_response.

End RiskAssessmentService.

(** ** models/user.py *)
Module user.
Record User := {
  id : string;
  email : string;
  mfa_enabled : bool;
  behavior_profile : option string
}.
End user.

(** ** services/risk_service.py: behavioural analysis *)
Module BehavioralAnalysisService.
Local Open Scope Q_scope.

(** What [json.loads] returns: a [dict] for a JSON object, some other
    value for any other document. *)
Inductive json_doc :=
| JObject (d : gmap string pyval)
| JOther (v : pyval).

Section with_json.
(** [json.loads] of the standard library. *)
Variable json_loads : string -> exn json_doc.

(** The local function [dev].  For a baseline that is not a number
    [baseline == 0] is false and [current - baseline] raises
    [TypeError]. *)
Definition dev (current : Q) (baseline : pyval) : exn Q :=
  b ← as_number baseline;
  if Qeqb b 0 then Ok (if Qeqb current 0 then 0.0 else 1.0)
  else Ok (Qabs (current - b) / b).

Definition calculate_behavior_deviation
    (u : user.User) (typing_speed key_interval key_hold : Q) : Q :=
  try_except
    (match user.behavior_profile u with
     | None | Some EmptyString => Ok 0.3
     | Some text =>
         doc ← json_loads text;
         match doc with
         | JOther _ => Raise AttributeError
         | JObject profile =>
             d1 ← dev typing_speed (dict_get profile "typing_speed" (VNum 0.0));
             d2 ← dev key_interval (dict_get profile "key_interval" (VNum 0.0));
             d3 ← dev key_hold (dict_get profile "key_hold" (VNum 0.0));
             Ok (py_max3 d1 d2 d3)
         end
     end)
    0.5.
End with_json.
End BehavioralAnalysisService.

(** ** models/session.py *)
Module session.
Inductive SessionStatus := ACTIVE | EXPIRED | REVOKED | INVALIDATED.

Definition SessionStatus_value (s : SessionStatus) : string :=
  match s with
  | ACTIVE => "active"
  | EXPIRED => "expired"
  | REVOKED => "revoked"
  | INVALIDATED => "invalidated"
  end.

#[global] Instance SessionStatus_eq_dec : EqDecision SessionStatus.
Proof. solve_decision. Defined.

Record Session := {
  jti : string;
  token_type : string;
  is_active : bool;
  status : SessionStatus;
  expires_at : Z;
  revoked_at : option Z;
  last_activity_at : Z;
  created_at : Z
}.

(** A row as the column defaults fill it on insert. *)
Definition new_session (jti : string) (expires_at now : Z) : Session := {|
  jti := jti;
  token_type := "access";
  is_active := true;
  status := ACTIVE;
  expires_at := expires_at;
  revoked_at := None;
  last_activity_at := now;
  created_at := now
|}.

Definition is_expired (now : Z) (self : Session) : bool :=
  now >? expires_at self.

Definition is_valid (now : Z) (self : Session) : bool :=
  is_active self && negb (is_expired now self) && bool_decide (status self = ACTIVE).

Definition revoke (now : Z) (self : Session) : Session := {|
  jti := jti self;
  token_type := token_type self;
  is_active := false;
  status := REVOKED;
  expires_at := expires_at self;
  revoked_at := Some now;
  last_activity_at := last_activity_at self;
  created_at := created_at self
|}.

Definition invalidate (now : Z) (self : Session) : Session := {|
  jti := jti self;
  token_type := token_type self;
  is_active := false;
  status := INVALIDATED;
  expires_at := expires_at self;
  revoked_at := Some now;
  last_activity_at := last_activity_at self;
  created_at := created_at self
|}.

Definition refresh_activity (now : Z) (self : Session) : Session := {|
  jti := jti self;
  token_type := token_type self;
  is_active := is_active self;
  status := status self;
  expires_at := expires_at self;
  revoked_at := revoked_at self;
  last_activity_at := now;
  created_at := created_at self
|}.
End session.

(** ** services/anomaly_service.py *)
Module AnomalyService.
Local Open Scope Q_scope.

Section with_features.
(** A login event and its feature vector.  [extract_features]
    (utils/helpers.py) catches every exception of its own body and
    then returns the neutral vector, so towards its caller it is a
    total function. *)
Context {event features : Type}.
Variable extract_features : event -> features.

(** The two scikit-learn estimators, seen through the one call made
    on each of them: [score_samples(features)[0]] and
    [predict_proba(features)[0]].  Either call can raise (an
    estimator that was never fitted does). *)
Definition IsolationForest := features -> exn Q.
Definition LogisticRegression := features -> exn (list Q).

Definition unfitted_iso : IsolationForest := fun _ => Raise OtherError.
Definition unfitted_lr : LogisticRegression := fun _ => Raise OtherError.

Record t := {
  iso_forest : option IsolationForest;
  logistic_reg : option LogisticRegression;
  is_trained : bool
}.

(** The two artifact paths derived from [model_path]: [None] when
    the path does not exist, otherwise what [joblib.load] does. *)
Record artifacts := {
  iso_file : option (exn IsolationForest);
  lr_file : option (exn LogisticRegression)
}.

Definition untrained (self : t) : t :=
  {| iso_forest := iso_forest self; logistic_reg := logistic_reg self;
     is_trained := false |}.

Definition load_models (fs : artifacts) (self : t) : t * bool :=
  let iso_exists := bool_decide (is_Some (iso_file fs)) in
  let lr_exists := bool_decide (is_Some (lr_file fs)) in
  match iso_file fs with
  | Some (Raise _) => (untrained self, false)
  | iso =>
      let iso1 := match iso with Some (Ok m) => Some m | _ => iso_forest self end in
      match lr_file fs with
      | Some (Raise _) =>
          ({| iso_forest := iso1; logistic_reg := logistic_reg self;
              is_trained := false |}, false)
      | lr =>
          let lr1 := match lr with Some (Ok m) => Some m | _ => logistic_reg self end in
          let trained := iso_exists && lr_exists in
          if trained then
            ({| iso_forest := iso1; logistic_reg := lr1; is_trained := true |}, true)
          else
            ({| iso_forest := Some unfitted_iso; logistic_reg := Some unfitted_lr;
                is_trained := false |}, false)
      end
  end.

(** [AnomalyService(model_path)] *)
Definition __init__ (fs : artifacts) : t :=
  fst (load_models fs {| iso_forest := None; logistic_reg := None; is_trained := false |}).

(** [lr_proba[1]] *)
Definition index_1 (proba : list Q) : exn Q :=
  match proba !! 1%nat with
  | Some p => Ok p
  | None => Raise IndexError
  end.

Definition detect_anomaly (self : t) (login_event : event) : Q :=
  try_except
    (match is_trained self, iso_forest self, logistic_reg self with
     | true, Some iso, Some lr =>
         let features := extract_features login_event in
         iso_score ← iso features;
         let iso_normalized := (iso_score - (-1.0)) / (0.5 - (-1.0)) in
         let iso_normalized := py_max 0.0 (py_min 1.0 iso_normalized) in
         lr_proba ← lr features;
         lr_score ← index_1 lr_proba;
         let ensemble_score := (0.5 * lr_score) + (0.5 * iso_normalized) in
         Ok ensemble_score
     | _, _, _ => Ok 0.5
     end)
    0.5.
End with_features.
End AnomalyService.

(** ** services/adaptive_mfa_service.py *)
Module RiskBasedAdaptiveMFA.
Local Open Scope Q_scope.
Import RiskAssessmentService.

(** The user table behind [db.query(User)]; a query on a database
    that cannot be reached raises. *)
Record Database := {
  users : list user.User;
  reachable : bool
}.

(** [db.query(User).filter(User.id == user_id).first()] *)
Definition query_user (db : Database) (user_id : string) : exn (option user.User) :=
  if reachable db
  then Ok (List.find (fun u => String.eqb (user.id u) user_id) (users db))
  else Raise OtherError.

Record Assessment := {
  blocked : bool;
  block_reason : option string;
  a_risk_score : Q;
  a_risk_level : string;
  a_explanation : string;
  a_device_fingerprint : option string;
  a_device_known : bool;
  a_last_seen : option Z;
  a_behavior_risk : string;
  mfa_methods_required : list string;
  a_mfa_required : bool
}.

Definition _error_response : Assessment := {|
  blocked := false;
  block_reason := None;
  a_risk_score := 0.5;
  a_risk_level := "medium";
  a_explanation := "Unable to assess risk - defaulting to MFA";
  a_device_fingerprint := None;
  a_device_known := false;
  a_last_seen := None;
  a_behavior_risk := "medium";
  mfa_methods_required := ["totp"];
  a_mfa_required := true
|}.

(** [bool(mfa_methods)] *)
Definition nonempty {A} (l : list A) : bool :=
  match l with [] => false | _ => true end.

(** [risk_body u] is the outcome of the [try] block of
    [RiskAssessmentService.assess_login] for this login event and
    user. *)
Definition assess_login
    (risk_body : user.User -> exn RiskData)
    (db : Database) (user_id : string) : Assessment :=
  try_except
    (found ← query_user db user_id;
     match found with
     | None => Ok _error_response
     | Some u =>
         let risk_data := RiskAssessmentService.assess_login (risk_body u) in
         let score := risk_score risk_data in
         let level := risk_level risk_data in
         let mfa_methods :=
           if user.mfa_enabled u
           then (if Qgtb score 0.3 then ["totp"] else [])
           else [] in
         let critical :=
           Qgtb score 0.95
           && negb (device_known risk_data)
           && String.eqb (behavior_risk risk_data) "high" in
         let blocked := critical in
         let block_reason :=
           if critical
           then Some "Critical risk: Unknown device with anomalous behavior"
           else None in
         Ok {| blocked := blocked;
               block_reason := block_reason;
               a_risk_score := risk_score risk_data;
               a_risk_level := level;
               a_explanation := explanation risk_data;
               a_device_fingerprint := device_fingerprint risk_data;
               a_device_known := device_known risk_data;
               a_last_seen := last_seen risk_data;
               a_behavior_risk := behavior_risk risk_data;
               mfa_methods_required := mfa_methods;
               a_mfa_required := nonempty mfa_methods |}
     end)
    _error_response.
End RiskBasedAdaptiveMFA.

(** ** services/langgraph_service.py *)
Module LangGraphWorkflow.
Local Open Scope Q_scope.

(** The three-key dictionary of the [except] branch of
    [score_risk_node]; it is built afresh, without [**state]. *)
Definition score_risk_fallback : gmap string pyval :=
  <["risk_score" := VNum 0.5]>
    (<["recommendation" := VStr "verify"]>
       (<["action_required" := VBool true]> ∅)).

(** [RiskAssessmentService.get_recommendation(risk_score)]: the
    attribute is looked up on the class before anything is called. *)
Definition call_get_recommendation (risk_score : Q) : exn string :=
  _ ← RiskAssessmentService.class_getattr "get_recommendation";
  Raise OtherError.

Definition score_risk_node (cfg : Settings) (state : gmap string pyval)
    : gmap string pyval :=
  try_except
    (_ ← RiskAssessmentService.class_getattr "calculate_risk_score";
     anomaly_score ← dict_item state "anomaly_score";
     login_event ← dict_item state "login_event";
     let user_history := dict_get state "user_history" VNone in
     risk_score ← RiskAssessmentService.call_calculate_risk_score
                    [anomaly_score; login_event; user_history];
     recommendation ← call_get_recommendation risk_score;
     let action_required := Qgtb risk_score (RISK_THRESHOLD_HIGH cfg) in
     Ok (<["risk_score" := VNum risk_score]>
           (<["recommendation" := VStr recommendation]>
              (<["action_required" := VBool action_required]> state))))
    score_risk_fallback.

(** [should_do_rag] *)
Definition should_do_rag (cfg : Settings) (state : gmap string pyval) : exn string :=
  v ← dict_item state "risk_score";
  score ← as_number v;
  if Qltb score (RISK_THRESHOLD_LOW cfg) then Ok "skip" else Ok "retrieve".
End LangGraphWorkflow.

(** ** utils/tokens.py *)
Module tokens.

Inductive token_error := BadSignature | SignatureExpired | BadPayload.

(** What a token string is to the serializer: text that does not
    split into payload, timestamp and signature, or the three parts. *)
Inductive token :=
| Malformed (raw : string)
| Signed (payload : string) (timestamp : Z) (signature : string).

Section with_serializer.
(** The keyed signature of the serializer over a payload and its
    timestamp, under the key derived from the secret and the salt. *)
Variable mac : string -> string -> string -> Z -> string.

(** Modelled from the spec: [URLSafeTimedSerializer.dumps] of the
    itsdangerous library, which is not part of the sources.  "Signing
    uses a fixed application secret and a fixed context string to scope
    the signature": the token carries the payload, the time of signing
    (whole seconds) and the signature over both. *)
Definition dumps (secret : string) (obj salt : string) (now : Z) : token :=
  Signed obj now (mac secret salt obj now).

(** Modelled from the spec: [URLSafeTimedSerializer.loads] of the
    itsdangerous library, which is not part of the sources.
    "Verification enforces a maximum age and returns the embedded email
    on success or a failure indicator on bad signature or expiry": the
    signature is checked first, then the age of the token against
    [max_age] when one is given. *)
Definition loads (secret : string) (tok : token) (salt : string)
    (max_age : option Z) (now : Z) : token_error + string :=
  match tok with
  | Malformed _ => inl BadSignature
  | Signed payload timestamp signature =>
      if String.eqb signature (mac secret salt payload timestamp) then
        match max_age with
        | None => inr payload
        | Some limit =>
            let age := now - timestamp in
            if age >? limit then inl SignatureExpired
            else if age <? 0 then inl SignatureExpired
            else inr payload
        end
      else inl BadSignature
  end.

Variable cfg : Settings.

Definition create_password_reset_token (email : string) (now : Z) : token :=
  dumps (SECRET_KEY cfg) email "password-reset-salt" now.

(** Only [BadSignature] and [SignatureExpired] are caught; anything
    else propagates. *)
Definition verify_password_reset_token (tok : token) (max_age : option Z) (now : Z)
    : exn (option string) :=
  match loads (SECRET_KEY cfg) tok "password-reset-salt" max_age now with
  | inr email => Ok (Some email)
  | inl BadSignature | inl SignatureExpired => Ok None
  | inl BadPayload => Raise OtherError
  end.

(** The default [max_age=900]. *)
Definition default_max_age : option Z := Some 900.
End with_serializer.
End tokens.

(** ** SHA-256 ([hashlib.sha256]), FIPS 180-4, on 32-bit words in [Z] *)
Module sha256.

Definition wrap32 (x : Z) : Z := x mod 2 ^ 32.
Definition add32 (x y : Z) : Z := wrap32 (x + y).
Definition rotr (n x : Z) : Z :=
  Z.lor (Z.shiftr x n) (wrap32 (Z.shiftl x (32 - n))).
Definition not32 (x : Z) : Z := Z.lxor x (2 ^ 32 - 1).

Definition Ch (x y z : Z) : Z := Z.lxor (Z.land x y) (Z.land (not32 x) z).
Definition Maj (x y z : Z) : Z :=
  Z.lxor (Z.lxor (Z.land x y) (Z.land x z)) (Z.land y z).
Definition big_sigma0 (x : Z) : Z := Z.lxor (Z.lxor (rotr 2 x) (rotr 13 x)) (rotr 22 x).
Definition big_sigma1 (x : Z) : Z := Z.lxor (Z.lxor (rotr 6 x) (rotr 11 x)) (rotr 25 x).
Definition small_sigma0 (x : Z) : Z := Z.lxor (Z.lxor (rotr 7 x) (rotr 18 x)) (Z.shiftr x 3).
Definition small_sigma1 (x : Z) : Z := Z.lxor (Z.lxor (rotr 17 x) (rotr 19 x)) (Z.shiftr x 10).

(** The round constants are the first 32 fractional bits of the cube
    roots of the first 64 primes, the initial hash value those of the
    square roots of the first 8. *)
Definition is_prime (p : Z) : bool :=
  forallb (fun d => negb (p mod Z.of_nat d =? 0)) (seq 2 (Z.to_nat (Z.sqrt p) - 1)).

Definition first_primes : list Z :=
  filter (fun p => is_prime p = true) (map Z.of_nat (seq 2 310)).

(** Integer cube root, one bit at a time from bit 35 down. *)
Definition cube_root (n : Z) : Z :=
  fold_left
    (fun r b => let r' := r + 2 ^ Z.of_nat b in if r' * r' * r' <=? n then r' else r)
    (rev (seq 0 36)) 0.

Definition round_constants : list Z :=
  Eval vm_compute in map (fun p => wrap32 (cube_root (p * 2 ^ 96))) first_primes.

Definition initial_hash : list Z :=
  Eval vm_compute in map (fun p => wrap32 (Z.sqrt (p * 2 ^ 64))) (take 8 first_primes).

Definition byte_of_ascii (c : ascii) : Z := Z.of_N (N_of_ascii c).

Definition bytes_of_string (s : string) : list Z :=
  map byte_of_ascii (list_ascii_of_string s).

(** Padding: a 1 bit, zero bits up to 56 mod 64 bytes, then the bit
    length as a 64-bit big-endian integer. *)
Definition big_endian (width : nat) (x : Z) : list Z :=
  map (fun i : nat => (Z.shiftr x (8 * Z.of_nat i)) mod 256) (rev (seq 0 width)).

Definition pad (msg : list Z) : list Z :=
  let len := Z.of_nat (length msg) in
  msg ++ [128] ++ replicate (Z.to_nat ((55 - len) mod 64)) 0 ++ big_endian 8 (8 * len).

Definition word_of_bytes (bs : list Z) : Z :=
  fold_left (fun acc b => acc * 256 + b) bs 0.

(** The [j]-th 64-byte block as sixteen big-endian words. *)
Definition block_words (padded : list Z) (j : nat) : list Z :=
  let block := take 64 (drop (64 * j) padded) in
  map (fun i : nat => word_of_bytes (take 4 (drop (4 * i) block))) (seq 0 16).

Definition word_at (ws : list Z) (i : nat) : Z := nth i ws 0.

(** Message schedule: 16 block words extended to 64. *)
Definition schedule (block : list Z) : list Z :=
  fold_left
    (fun ws t =>
       ws ++ [add32 (add32 (small_sigma1 (word_at ws (t - 2))) (word_at ws (t - 7)))
                    (add32 (small_sigma0 (word_at ws (t - 15))) (word_at ws (t - 16)))])
    (seq 16 48) block.

Definition state : Type := Z * Z * Z * Z * Z * Z * Z * Z.

Definition round (s : state) (kw : Z * Z) : state :=
  let '(a, b, c, d, e, f, g, h) := s in
  let '(k, w) := kw in
  let t1 := add32 (add32 (add32 h (big_sigma1 e)) (add32 (Ch e f g) k)) w in
  let t2 := add32 (big_sigma0 a) (Maj a b c) in
  (add32 t1 t2, a, b, c, add32 d t1, e, f, g).

Definition compress (hash : state) (block : list Z) : state :=
  let '(a, b, c, d, e, f, g, h) :=
    fold_left round (combine round_constants (schedule block)) hash in
  let '(a0, b0, c0, d0, e0, f0, g0, h0) := hash in
  (add32 a0 a, add32 b0 b, add32 c0 c, add32 d0 d,
   add32 e0 e, add32 f0 f, add32 g0 g, add32 h0 h).

Definition initial_state : state :=
  (word_at initial_hash 0, word_at initial_hash 1, word_at initial_hash 2,
   word_at initial_hash 3, word_at initial_hash 4, word_at initial_hash 5,
   word_at initial_hash 6, word_at initial_hash 7).

Definition digest (msg : list Z) : state :=
  let padded := pad msg in
  fold_left (fun hash j => compress hash (block_words padded j))
            (seq 0 (length padded / 64)) initial_state.

Definition hex_digit (n : Z) : ascii :=
  if n <? 10 then ascii_of_N (Z.to_N (48 + n)) else ascii_of_N (Z.to_N (87 + n)).

Definition nibble (w : Z) (i : nat) : Z := Z.shiftr w (4 * Z.of_nat i) mod 16.

(** Eight lowercase hexadecimal digits of a word, most significant
    first. *)
Definition hex32 (w : Z) : string :=
  string_of_list_ascii (map (fun i => hex_digit (nibble w i)) [7; 6; 5; 4; 3; 2; 1; 0]%nat).

Definition hexdigest (s : state) : string :=
  let '(a, b, c, d, e, f, g, h) := s in
  hex32 a ++ hex32 b ++ hex32 c ++ hex32 d ++ hex32 e ++ hex32 f ++ hex32 g ++ hex32 h.

(** [hashlib.sha256(s.encode()).hexdigest()] *)
Definition sha256_hex (s : string) : string := hexdigest (digest (bytes_of_string s)).
End sha256.

(** ** services/risk_service.py: device fingerprint *)
Module DeviceFingerprintService.

(** [s or ''] on a [str]: the empty string is the only false one. *)
Definition or_empty (s : string) : string :=
  match s with
  | EmptyString => EmptyString
  | _ => s
  end.

(** The f-string [f"{user_agent or ''}|{ip_address or ''}|{device_id or ''}"] *)
Definition raw (user_agent ip_address device_id : string) : string :=
  or_empty user_agent ++ "|" ++ or_empty ip_address ++ "|" ++ or_empty device_id.

(** Nothing in the [try] block raises on byte strings; the handler
    hashes the literal [b"unknown"]. *)
Definition calculate_fingerprint (user_agent ip_address device_id : string) : string :=
  try_except
    (Ok (sha256.sha256_hex (raw user_agent ip_address device_id)))
    (sha256.sha256_hex "unknown").
End DeviceFingerprintService.

(** ** utils/validators.py *)
Module validators.

(** The fragment of [re] patterns the validators use: anchors and a
    character class repeated a fixed number of times. *)
Inductive regex_item :=
| Caret
| Dollar
| ClassRepeat (cls : ascii -> bool) (n : nat).

Definition newline : ascii := ascii_of_nat 10.

(** Consume exactly [n] characters of the class. *)
Fixpoint consume (cls : ascii -> bool) (n : nat) (s : string) : option string :=
  match n, s with
  | O, _ => Some s
  | S n', String c rest => if cls c then consume cls n' rest else None
  | S _, EmptyString => None
  end.

(** [re.match]: the items must match a prefix of the subject.  Without
    [re.MULTILINE], [^] matches only at the start, and [$] matches at
    the end of the string or just before a newline that ends the
    string. *)
Fixpoint match_items (items : list regex_item) (at_start : bool) (s : string) : bool :=
  match items with
  | [] => true
  | Caret :: items' => at_start && match_items items' at_start s
  | Dollar :: items' =>
      (match s with
       | EmptyString => true
       | String c EmptyString => bool_decide (c = newline)
       | _ => false
       end) && match_items items' at_start s
  | ClassRepeat cls n :: items' =>
      match consume cls n s with
      | Some rest => match_items items' (at_start && Nat.eqb n 0) rest
      | None => false
      end
  end.

Definition re_match (pattern : list regex_item) (s : string) : bool :=
  match_items pattern true s.

Definition in_range (lo hi : nat) (c : ascii) : bool :=
  (lo <=? nat_of_ascii c)%nat && (nat_of_ascii c <=? hi)%nat.

(** [[a-zA-Z0-9]] *)
Definition alnum (c : ascii) : bool :=
  in_range 97 122 c || in_range 65 90 c || in_range 48 57 c.

(** [r'^[a-zA-Z0-9]{32}$'] *)
Definition fingerprint_pattern : list regex_item :=
  [Caret; ClassRepeat alnum 32; Dollar].

Definition validate_device_fingerprint (fingerprint : pyval) : bool :=
  match fingerprint with
  | VStr s => re_match fingerprint_pattern s
  | _ => false
  end.
End validators.

(** ** Specification-side definitions

    Definitions that follow the specification's wording; the theorems
    of Part II compare them with the functions translated from the
    sources. *)
Module Spec.
Local Open Scope Q_scope.

(** The first [m] chunks of [k] elements of a list, a last shorter one
    included: the comprehension of [chunk_list] on natural numbers. *)
Definition chunks_of {A} (k m : nat) (items : list A) : list (list A) :=
  map (fun j => take k (drop (j * k) items)) (seq 0 m).

(** The location factor as the specification words it: 0.10 above
    900 km/h, 0.02 in the band between 200 and 900 km/h (open at 200,
    closed at 900), 0 otherwise. *)
Definition location_factor_spec (speed factor : Q) : Prop :=
  (900 < speed /\ factor == 0.10)
  \/ (200 < speed <= 900 /\ factor == 0.02)
  \/ (speed <= 200 /\ factor == 0).

(** [clamp(x, lo, hi)]: [x] brought into the interval [lo, hi]. *)
Definition clamp (x lo hi : Q) : Q := Qmax lo (Qmin hi x).

(** The relative difference [|current - baseline| / baseline],
    defined as 0 when both are 0 and as 1 when only the baseline is. *)
Definition relative_difference (current baseline : Q) : Q :=
  if Qeq_dec baseline 0
  then (if Qeq_dec current 0 then 0 else 1)
  else Qabs (current - baseline) / baseline.

(** A lowercase hexadecimal digit, [0-9a-f]. *)
Definition lower_hex (c : ascii) : bool :=
  let n := nat_of_ascii c in
  ((48 <=? n) && (n <=? 57) || (97 <=? n) && (n <=? 102))%nat.








End Spec.

(** ** Sample data for the worked examples of Part II *)
Module samples.
Local Open Scope Q_scope.

Definition cfg : Settings :=
  {| RISK_THRESHOLD_LOW := 0.3; RISK_THRESHOLD_HIGH := 0.7; SECRET_KEY := "app-secret" |}.

(** The JSON text [{'typing_speed': 50, 'key_interval': 0}], written
    with double quotes (character 34). *)
Definition quoted (s : string) : string :=
  String (ascii_of_nat 34) s ++ String (ascii_of_nat 34) EmptyString.

Definition profile_text : string :=
  "{" ++ quoted "typing_speed" ++ ": 50, " ++ quoted "key_interval" ++ ": 0}".

Definition bob : user.User :=
  {| user.id := "u-2"; user.email := "bob@example.com"; user.mfa_enabled := false;
     user.behavior_profile := None |}.

Definition alice : user.User :=
  {| user.id := "u-1"; user.email := "alice@example.com"; user.mfa_enabled := true;
     user.behavior_profile := Some profile_text |}.

Definition db : RiskBasedAdaptiveMFA.Database :=
  {| RiskBasedAdaptiveMFA.users := [alice]; RiskBasedAdaptiveMFA.reachable := true |}.

Definition critical_risk : RiskAssessmentService.RiskData := {|
  RiskAssessmentService.risk_score := 0.97;
  RiskAssessmentService.risk_level := "high";
  RiskAssessmentService.explanation := "High risk login detected.";
  RiskAssessmentService.device_fingerprint := Some "unknown";
  RiskAssessmentService.device_known := false;
  RiskAssessmentService.last_seen := None;
  RiskAssessmentService.behavior_risk := "high";
  RiskAssessmentService.anomaly_score := 0.9;
  RiskAssessmentService.location_metric := 1000;
  RiskAssessmentService.mfa_required := true
|}.

(** A stand-in for [json.loads] that knows one document. *)
Definition json_loads (text : string) : exn BehavioralAnalysisService.json_doc :=
  if String.eqb text profile_text
  then Ok (BehavioralAnalysisService.JObject
             (<["typing_speed" := VNum 50]> (<["key_interval" := VNum 0]> ∅)))
  else Raise ValueError.

(** A stand-in for the keyed signature. *)
Definition mac (secret salt payload : string) (timestamp : Z) : string :=
  secret ++ "/" ++ salt ++ "/" ++ payload.

(** A workflow state with a low anomaly score. *)
Definition quiet_state : gmap string pyval :=
  <["anomaly_score" := VNum 0.1]>
    (<["login_event" := VDict]> (<["user_history" := VNone]> ∅)).

(** A fitted pair of estimators on a one-dimensional feature. *)
Definition iso : @AnomalyService.IsolationForest Q := fun x => Ok (x - 1.2).
Definition lr : @AnomalyService.LogisticRegression Q := fun x => Ok [1 - x; x].
Definition trained_service : @AnomalyService.t Q :=
  {| AnomalyService.iso_forest := Some iso; AnomalyService.logistic_reg := Some lr;
     AnomalyService.is_trained := true |}.
(** The trained flag set over estimators that were never fitted. *)
Definition unfitted_service : @AnomalyService.t Q :=
  {| AnomalyService.iso_forest := Some AnomalyService.unfitted_iso;
     AnomalyService.logistic_reg := Some AnomalyService.unfitted_lr;
     AnomalyService.is_trained := true |}.
Definition no_artifacts : @AnomalyService.artifacts Q :=
  {| AnomalyService.iso_file := None; AnomalyService.lr_file := None |}.

Definition thirty_two_a : string := "aaaaaaaaaaaaaaaaaaaaaaaaaaaaaaaa".
End samples.

(* ------------------------------------------------------------------ *)
(** ** Further operations of the same source files                     *)
(* ------------------------------------------------------------------ *)

(** ** models/login_event.py, and [is_device_known] of
    services/risk_service.py *)
Module login_event.

(** The columns the device lookup reads. *)
Record LoginEvent := {
  user_id : string;
  device_fingerprint : option string;
  user_action : string;
  timestamp : Z
}.

(** The [login_events] table; a query on a database that cannot be
    reached raises. *)
Record Table := {
  rows : list LoginEvent;
  reachable : bool
}.

(** [ORDER BY timestamp DESC], as a stable insertion sort (the order of
    rows with equal timestamps is the table's). *)
Fixpoint insert_desc (e : LoginEvent) (l : list LoginEvent) : list LoginEvent :=
  match l with
  | [] => [e]
  | x :: l' => if timestamp x <? timestamp e then e :: l else x :: insert_desc e l'
  end.

Definition order_by_timestamp_desc (l : list LoginEvent) : list LoginEvent :=
  fold_right insert_desc [] l.

(** The filter of [is_device_known]: the user's approved logins from
    this fingerprint. *)
Definition approved_from (uid fingerprint : string) (e : LoginEvent) : bool :=
  String.eqb (user_id e) uid
  && match device_fingerprint e with
     | Some f => String.eqb f fingerprint
     | None => false
     end
  && String.eqb (user_action e) "approved".

(** [DeviceFingerprintService.is_device_known] *)
Definition is_device_known (uid fingerprint : string) (db : Table) : bool * option Z :=
  try_except
    (if reachable db then
       match head (order_by_timestamp_desc
                     (List.filter (approved_from uid fingerprint) (rows db))) with
       | Some login => Ok (true, Some (timestamp login))
       | None => Ok (false, None)
       end
     else Raise OtherError)
    (false, None).

End login_event.

(** ** services/risk_service.py: ML score, explanation and the returned
    dictionary *)
Module risk_service.
Local Open Scope Q_scope.

Section ml_score.
Context {event features : Type}.
Variable extract_features : event -> features.

(** [RiskAssessmentService._ml_risk_score]; [anomaly_service] is [None]
    when the service could not be constructed. *)
Definition _ml_risk_score
    (anomaly_service : option (@AnomalyService.t features)) (login_event : event)
    : Q * string :=
  try_except
    (match anomaly_service with
     | None => Ok (0.5, "ML detector unavailable, neutral score used")
     | Some svc =>
         if negb (AnomalyService.is_trained svc)
         then Ok (0.5, "ML model not trained yet")
         else
           let score := AnomalyService.detect_anomaly extract_features svc login_event in
           let explanation :=
             if Qltb score 0.3 then "Low anomaly detected"
             else if Qltb score 0.7 then "Medium anomaly level"
             else "High anomaly detected" in
           Ok (score, explanation)
     end)
    (0.5, "ML scoring failed, default score used").
End ml_score.

Section explanation.
(** What an f-string makes of a value ([str(v)]) and of a number under
    the format [.0f]. *)
Variable py_str : pyval -> string.
Variable format_0f : Q -> string.

(** The list [parts] of [_generate_explanation]. *)
Definition explanation_parts
    (login_event : gmap string pyval) (risk_score : Q)
    (behavior_risk ml_explanation : string)
    (device_known : bool) (location_metric : Q) : list string :=
  let parts :=
    [if Qgtb risk_score 0.7 then "High risk login detected."
     else if Qgtb risk_score 0.3 then "Medium risk login detected."
     else "Low risk login."] in
  let parts :=
    parts ++ [if negb device_known then "Device not recognized."
              else "Device is known and trusted."] in
  let parts :=
    parts ++ (if String.eqb behavior_risk "high" then ["Behavioral anomaly detected."]
              else if String.eqb behavior_risk "medium"
                   then ["Some behavioral variation observed."]
              else []) in
  let parts :=
    parts ++ (match ml_explanation with
              | EmptyString => []
              | _ => [("ML analysis: " ++ ml_explanation ++ ".")%string]
              end) in
  let location := py_str (dict_get login_event "location" (VStr "Unknown")) in
  let ip := py_str (dict_get login_event "ip_address" (VStr "Unknown")) in
  let parts := parts ++ [("Login from " ++ location ++ " (IP: " ++ ip ++ ").")%string] in
  parts ++ (if Qgtb location_metric 900
            then [("Impossible travel detected (" ++ format_0f location_metric ++ " km/h).")%string]
            else []).

(** [" ".join(parts)] *)
Definition _generate_explanation
    (login_event : gmap string pyval) (risk_score : Q)
    (behavior_risk ml_explanation : string)
    (device_known : bool) (location_metric : Q) : string :=
  String.concat " "
    (explanation_parts login_event risk_score behavior_risk ml_explanation
       device_known location_metric).

Variable cfg : Settings.

(** The end of [RiskAssessmentService.assess_login]: from the behaviour
    risk and the combination of the signals to the dictionary returned,
    as a function of the local variables the first part of the body
    has gathered (fingerprint, device lookup, deviation, ML score and
    explanation, location metric). *)
Definition assess_login_result
    (login_event : gmap string pyval)
    (device_fingerprint : string) (device_known : bool) (last_seen : option Z)
    (deviation ml_score : Q) (ml_explanation : string) (location_metric : Q)
    : RiskAssessmentService.RiskData :=
  let behavior_risk := RiskAssessmentService._map_deviation_to_risk deviation in
  let risk_score :=
    RiskAssessmentService._combine_signals device_known deviation ml_score location_metric in
  let risk_level := RiskAssessmentService._map_score_to_level cfg risk_score in
  let explanation :=
    _generate_explanation login_event risk_score behavior_risk ml_explanation
      device_known location_metric in
  {| RiskAssessmentService.risk_score := risk_score;
     RiskAssessmentService.risk_level := risk_level;
     RiskAssessmentService.explanation := explanation;
     RiskAssessmentService.device_fingerprint := Some device_fingerprint;
     RiskAssessmentService.device_known := device_known;
     RiskAssessmentService.last_seen := last_seen;
     RiskAssessmentService.behavior_risk := behavior_risk;
     RiskAssessmentService.anomaly_score := ml_score;
     RiskAssessmentService.location_metric := location_metric;
     RiskAssessmentService.mfa_required := Qgtb risk_score (RISK_THRESHOLD_LOW cfg) |}.
End explanation.

(** *** The GeoIP cache *)

(** What the lookup reads from a GeoIP city record: the city name, the
    ISO codes of the subdivisions, the ISO code of the country. *)
Record GeoRecord := {
  city_name : option string;
  subdivisions : list (option string);
  country_iso_code : option string
}.

Definition _GEO_CACHE_TTL : Q := 3600.
Definition _LOCALHOST_ADDRESSES : list string := ["127.0.0.1"; "::1"; "0.0.0.0"].

(** Truth value of a string or [None]. *)
Definition truthy (o : option string) : bool :=
  match o with
  | Some (String _ _) => true
  | _ => false
  end.

(** [x or ""] *)
Definition or_blank (o : option string) : string :=
  match o with
  | Some (String c s) => String c s
  | _ => EmptyString
  end.

(** The location text built from a record inside the [with] block. *)
Definition location_of (record : GeoRecord) : option string :=
  let city := or_blank (city_name record) in
  let region :=
    match subdivisions record with
    | first :: _ => first
    | [] => Some EmptyString
    end in
  let country := or_blank (country_iso_code record) in
  if truthy (Some city) && truthy region
  then Some (city ++ ", " ++ or_blank region)%string
  else if truthy (Some city) && truthy (Some country)
  then Some (city ++ ", " ++ country)%string
  else if truthy (Some country) then Some country
  else None.

(** [resolve_ip_location] on the module-level cache [_geo_cache].
    [geoip] opens the database and reads the record of an address (it
    raises when the file or the package is missing or the address is
    unknown); [now] and [later] are the two reads of [time.monotonic],
    at the cache check and at the store. *)
Definition resolve_ip_location
    (geoip : string -> exn GeoRecord) (now later : Q)
    (ip_address : string) (_geo_cache : gmap string (option string * Q))
    : option string * gmap string (option string * Q) :=
  match ip_address with
  | EmptyString => (None, _geo_cache)
  | _ =>
      if bool_decide (ip_address ∈ _LOCALHOST_ADDRESSES)
      then (Some "Localhost", _geo_cache)
      else
        let miss (cache : gmap string (option string * Q)) :=
          let location := try_except (record ← geoip ip_address; Ok (location_of record)) None in
          (location, <[ip_address := (location, later + _GEO_CACHE_TTL)]> cache) in
        match _geo_cache !! ip_address with
        | Some (location, expiry) =>
            if Qltb now expiry then (location, _geo_cache)
            else miss (delete ip_address _geo_cache)
        | None => miss _geo_cache
        end
  end.

End risk_service.

(** ** services/anomaly_service.py: batch scoring and loading *)
Module anomaly_service.
Local Open Scope Q_scope.

Section with_features.
Context {event features : Type}.
Variable extract_features : event -> features.

(** A call of an estimator on the rows of a matrix: the rows are scored
    one by one, and the call raises when a row does. *)
Fixpoint on_rows {A B} (f : A -> exn B) (rows : list A) : exn (list B) :=
  match rows with
  | [] => Ok []
  | x :: rows' => y ← f x; ys ← on_rows f rows'; Ok (y :: ys)
  end.

(** [np.clip(x, lo, hi)] *)
Definition np_clip (x lo hi : Q) : Q := Qmin (Qmax x lo) hi.

(** [[0.5] * len(login_events)] *)
Definition neutral (login_events : list event) : list Q :=
  replicate (length login_events) 0.5.

(** An attribute of [self] that must not be [None] to be called. *)
Definition required {A} (o : option A) : exn A :=
  match o with
  | Some a => Ok a
  | None => Raise AttributeError
  end.

(** An event on which both estimators answer and the answer of the
    classifier has a positive-class entry. *)
Definition scorable (iso : @AnomalyService.IsolationForest features)
    (lr : @AnomalyService.LogisticRegression features) (ev : event) : Prop :=
  exists s proba p,
    iso (extract_features ev) = Ok s /\ lr (extract_features ev) = Ok proba
    /\ proba !! 1%nat = Some p.

Definition batch_detect (self : @AnomalyService.t features) (login_events : list event)
    : list Q :=
  try_except
    (if negb (AnomalyService.is_trained self) then Ok (neutral login_events)
     else
       let X := map extract_features login_events in
       iso ← required (AnomalyService.iso_forest self);
       iso_scores ← on_rows iso X;
       let iso_normalized := map (fun s => (s - (-1.0)) / (0.5 - (-1.0))) iso_scores in
       let iso_normalized := map (fun x => np_clip x 0.0 1.0) iso_normalized in
       lr ← required (AnomalyService.logistic_reg self);
       lr_probas ← on_rows lr X;
       lr_scores ← on_rows AnomalyService.index_1 lr_probas;
       Ok (zip_with (fun l i => (0.5 * l) + (0.5 * i)) lr_scores iso_normalized))
    (neutral login_events).
End with_features.
End anomaly_service.

(** ** routers/sessions_router.py and models/user.py: revoking the
    sessions of a user *)
Module sessions_router.

(** A row of the [sessions] table: the owner ([user_id]) and the
    session. *)
Definition row : Type := string * session.Session.

(** [User.has_active_sessions] on the sessions of the user. *)
Definition has_active_sessions (sessions : list session.Session) : bool :=
  existsb session.is_active sessions.

(** [user.sessions] *)
Definition sessions_of (uid : string) (table : list row) : list session.Session :=
  map snd (List.filter (fun r => String.eqb (fst r) uid) table).

(** The filter of [revoke_all_sessions]: the user's sessions with the
    active flag set and a [jti] other than the current one.  Against
    [None] the comparison [jti != current_jti] is [IS NOT NULL], which
    every row satisfies. *)
Definition other_active (uid : string) (current_jti : option string) (r : row) : bool :=
  String.eqb (fst r) uid
  && session.is_active (snd r)
  && match current_jti with
     | Some j => negb (String.eqb (session.jti (snd r)) j)
     | None => true
     end.

(** The loop of [revoke_all_sessions] on the table: every selected row
    is revoked in place, [clock k] being the time read by the [k]-th
    [revoke()]; the result is the table and the count reported. *)
Fixpoint revoke_selected (select : row -> bool) (clock : nat -> Z) (count : nat)
    (table : list row) : list row * nat :=
  match table with
  | [] => ([], count)
  | r :: rest =>
      if select r then
        let '(rest', n) := revoke_selected select clock (S count) rest in
        ((fst r, session.revoke (clock count) (snd r)) :: rest', n)
      else
        let '(rest', n) := revoke_selected select clock count rest in
        (r :: rest', n)
  end.

Definition revoke_all_sessions (uid : string) (current_jti : option string)
    (clock : nat -> Z) (table : list row) : list row * nat :=
  revoke_selected (other_active uid current_jti) clock 0 table.

End sessions_router.

(** ** models/session.py: sequences of method calls *)
Module session_calls.

(** A call of one of the mutating methods of [Session], with the time
    its clock read returns. *)
Inductive call :=
| Revoke (at_time : Z)
| Invalidate (at_time : Z)
| RefreshActivity (at_time : Z).

Definition perform (s : session.Session) (c : call) : session.Session :=
  match c with
  | Revoke t => session.revoke t s
  | Invalidate t => session.invalidate t s
  | RefreshActivity t => session.refresh_activity t s
  end.

(** The calls made one after the other on the same object. *)
Definition perform_all (calls : list call) (s : session.Session) : session.Session :=
  fold_left perform calls s.

Definition is_refresh (c : call) : Prop :=
  match c with
  | RefreshActivity _ => True
  | _ => False
  end.

End session_calls.

(** ** services/adaptive_mfa_service.py: the login response *)
Module AdaptiveMFARouter.
Import RiskBasedAdaptiveMFA.

(** [_get_instructions] on a dictionary that [assess_login] returned:
    the keys it reads are all present, so the defaults of [.get] are not
    used. *)
Definition _get_instructions (risk_assessment : Assessment) : string :=
  let risk_level := a_risk_level risk_assessment in
  let behavior_risk := a_behavior_risk risk_assessment in
  let device_known := a_device_known risk_assessment in
  if String.eqb risk_level "high" && String.eqb behavior_risk "high"
  then "Unusual activity detected. Please verify with your authenticator."
  else if String.eqb risk_level "high" && negb device_known
  then "Unknown device detected. Please verify with your authenticator."
  else if String.eqb risk_level "medium"
  then "Standard MFA verification required."
  else "Please verify with your authenticator app.".

(** The arguments of one [AuthService.create_session] call.  A keyword
    argument the call does not pass is [None]; one it passes is [Some]
    of the value. *)
Record SessionArgs := {
  s_user_id : string;
  s_jti : string;
  s_expires : Z;
  s_token_type : string;
  s_device_fingerprint : option (option string);
  s_ip_address : option (option string)
}.

(** The functions of [AuthService] the router calls.  The token
    functions return the token, its [jti] and its expiry;
    [create_session] is called for its effect on the database and may
    raise. *)
Record AuthService := {
  create_access_token : string -> exn (string * string * Z);
  create_refresh_token : string -> exn (string * string * Z);
  create_mfa_token : string -> exn (string * string * Z);
  create_session : SessionArgs -> exn unit
}.

(** The dictionary returned; a key that is not set is [None].  The
    entry [user] is the user the fields are read from. *)
Record Response := {
  message : string;
  access_token : option string;
  refresh_token : option string;
  mfa_token : option string;
  token_type : string;
  r_user : user.User;
  mfa_required : bool;
  risk_score : Q;
  risk_level : string;
  device_known : option bool;
  instructions : string;
  r_blocked : option bool;
  r_block_reason : option (option string)
}.

(** [get_login_response]: the [create_session] calls made, in order,
    and the dictionary returned or the exception raised again by the
    handler.  The assessment holds no key [ip_address], so
    [risk_assessment.get("ip_address")] is [None]. *)
Definition get_login_response
    (auth : AuthService) (risk_assessment : Assessment) (u : user.User)
    : list SessionArgs * exn Response :=
  let risk_level := a_risk_level risk_assessment in
  let risk_score := a_risk_score risk_assessment in
  if String.eqb risk_level "low" && negb (user.mfa_enabled u) then
    match create_access_token auth (user.id u) with
    | Raise e => ([], Raise e)
    | Ok (access_token, access_jti, access_exp) =>
        match create_refresh_token auth (user.id u) with
        | Raise e => ([], Raise e)
        | Ok (refresh_token, refresh_jti, refresh_exp) =>
            let first :=
              {| s_user_id := user.id u; s_jti := access_jti; s_expires := access_exp;
                 s_token_type := "access";
                 s_device_fingerprint := Some (a_device_fingerprint risk_assessment);
                 s_ip_address := Some None |} in
            match create_session auth first with
            | Raise e => ([first], Raise e)
            | Ok _ =>
                let second :=
                  {| s_user_id := user.id u; s_jti := refresh_jti; s_expires := refresh_exp;
                     s_token_type := "refresh";
                     s_device_fingerprint := None;
                     s_ip_address := None |} in
                match create_session auth second with
                | Raise e => ([first; second], Raise e)
                | Ok _ =>
                    ([first; second],
                     Ok {| message := "Login successful";
                           access_token := Some access_token;
                           refresh_token := Some refresh_token;
                           mfa_token := None;
                           token_type := "bearer";
                           r_user := u;
                           mfa_required := false;
                           risk_score := risk_score;
                           risk_level := risk_level;
                           device_known := None;
                           instructions := "Welcome back!";
                           r_blocked := None;
                           r_block_reason := None |})
                end
            end
        end
    end
  else
    match create_mfa_token auth (user.id u) with
    | Raise e => ([], Raise e)
    | Ok (mfa_token, mfa_jti, mfa_exp) =>
        let only :=
          {| s_user_id := user.id u; s_jti := mfa_jti; s_expires := mfa_exp;
             s_token_type := "mfa";
             s_device_fingerprint := None;
             s_ip_address := None |} in
        match create_session auth only with
        | Raise e => ([only], Raise e)
        | Ok _ =>
            ([only],
             Ok {| message := "Password verified - MFA required";
                   access_token := None;
                   refresh_token := None;
                   mfa_token := Some mfa_token;
                   token_type := "bearer";
                   r_user := u;
                   mfa_required := true;
                   risk_score := risk_score;
                   risk_level := risk_level;
                   device_known := Some (a_device_known risk_assessment);
                   instructions := _get_instructions risk_assessment;
                   r_blocked := if blocked risk_assessment then Some true else None;
                   r_block_reason :=
                     if blocked risk_assessment
                     then Some (block_reason risk_assessment) else None |})
        end
    end.

(** An [AuthService] every call of which succeeds. *)
Definition succeeds (auth : AuthService) : Prop :=
  (forall uid, exists t, create_access_token auth uid = Ok t)
  /\ (forall uid, exists t, create_refresh_token auth uid = Ok t)
  /\ (forall uid, exists t, create_mfa_token auth uid = Ok t)
  /\ (forall args, exists v, create_session auth args = Ok v).

(** The keyword argument carries no IP address. *)
Definition without_ip (args : SessionArgs) : Prop :=
  s_ip_address args = None \/ s_ip_address args = Some None.
End AdaptiveMFARouter.

(** ** utils/helpers.py: text helpers *)
Module helpers_text.

(** A [str] as the sequence of its code points. *)
Definition pystr : Type := list N.

(** [ord(char) >= 32 or char == '\n'] *)
Definition kept (c : N) : bool := ((32 <=? c) || (c =? 10))%N.

Definition between (lo hi c : N) : bool := ((lo <=? c) && (c <=? hi))%N.

(** The characters [str.strip()] removes, those [str.isspace] holds
    of. *)
Definition isspace (c : N) : bool :=
  between 9 13 c || between 28 32 c
  || (c =? 133)%N || (c =? 160)%N || (c =? 5760)%N
  || between 8192 8202 c
  || (c =? 8232)%N || (c =? 8233)%N || (c =? 8239)%N || (c =? 8287)%N || (c =? 12288)%N.

Fixpoint lstrip (s : pystr) : pystr :=
  match s with
  | [] => []
  | c :: rest => if isspace c then lstrip rest else s
  end.

Definition rstrip (s : pystr) : pystr := rev (lstrip (rev s)).

Definition strip (s : pystr) : pystr := rstrip (lstrip s).

(** [sanitize_input]; [text] is [None] for an object that is not a
    [str]. *)
Definition sanitize_input (text : option pystr) (max_length : Z) : pystr :=
  match text with
  | None => []
  | Some text =>
      let text := List.filter kept text in
      strip (helpers.slice text 0 max_length)
  end.

(** [generate_device_fingerprint]: nothing in the [try] block raises
    on byte strings. *)
Definition generate_device_fingerprint (user_agent accept_language : string) : string :=
  try_except
    (Ok (sha256.sha256_hex (user_agent ++ ":" ++ accept_language)))
    "unknown".
End helpers_text.

(** ** routers/sessions_router.py: the security score *)
Module dashboard.

(** The columns of a login event the score reads. *)
Record RiskRow := {
  r_user_id : string;
  r_timestamp : Z;
  r_risk_level : option string
}.

(** [timedelta(days=7)], in seconds. *)
Definition seven_days : Z := 7 * 86400.

(** The filter of the query: the user's events of the last seven days
    with risk level "high". *)
Definition recent_high (uid : string) (now : Z) (e : RiskRow) : bool :=
  String.eqb (r_user_id e) uid
  && (now - seven_days <=? r_timestamp e)
  && match r_risk_level e with
     | Some level => String.eqb level "high"
     | None => false
     end.

(** [calculate_security_score]; [is_verified] is the column of that
    name of the user. *)
Definition calculate_security_score
    (u : user.User) (is_verified : bool) (now : Z) (events : list RiskRow) : Z :=
  let score := 50 in
  let score := if user.mfa_enabled u then score + 30 else score in
  let score := if is_verified then score + 10 else score in
  let high_risk_count := length (List.filter (recent_high (user.id u) now) events) in
  let score := if (high_risk_count =? 0)%nat then score + 10 else score in
  Z.min 100 score.
End dashboard.

(** ** Sample values for the further operations *)
Module more_samples.

(** An [AuthService] that always succeeds. *)
Definition auth : AdaptiveMFARouter.AuthService := {|
  AdaptiveMFARouter.create_access_token := fun uid => Ok (("access-" ++ uid)%string, "jti-a", 900);
  AdaptiveMFARouter.create_refresh_token := fun uid => Ok (("refresh-" ++ uid)%string, "jti-r", 604800);
  AdaptiveMFARouter.create_mfa_token := fun uid => Ok (("mfa-" ++ uid)%string, "jti-m", 300);
  AdaptiveMFARouter.create_session := fun _ => Ok tt
|}.

(** A configuration whose low threshold lies above the blocking
    score. *)
Definition lenient_cfg : Settings :=
  {| RISK_THRESHOLD_LOW := 0.99; RISK_THRESHOLD_HIGH := 0.995; SECRET_KEY := "app-secret" |}.

Definition bobs_db : RiskBasedAdaptiveMFA.Database :=
  {| RiskBasedAdaptiveMFA.users := [samples.bob]; RiskBasedAdaptiveMFA.reachable := true |}.
End more_samples.

(* ================================================================== *)
(** * Part II: properties                                              *)
(* ================================================================== *)

(** ** Comparisons on [Q] *)

Lemma Qltb_lt (a b : Q) : Qltb a b = true <-> (a < b)%Q.
Proof.
  unfold Qltb. rewrite negb_true_iff, <- not_true_iff_false, Qle_bool_iff.
  split; [apply Qnot_le_lt | apply Qlt_not_le].
Qed.

Lemma Qltb_ge (a b : Q) : Qltb a b = false <-> (b <= a)%Q.
Proof. unfold Qltb. rewrite negb_false_iff. apply Qle_bool_iff. Qed.

Lemma Qgtb_gt (a b : Q) : Qgtb a b = true <-> (b < a)%Q.
Proof. apply Qltb_lt. Qed.

Lemma Qgtb_le (a b : Q) : Qgtb a b = false <-> (a <= b)%Q.
Proof. apply Qltb_ge. Qed.

Lemma Qltb_compare (a b : Q) : Qltb a b = match (a ?= b)%Q with Lt => true | _ => false end.
Proof.
  destruct (Qltb a b) eqn:E.
  - apply Qltb_lt in E. now rewrite (proj1 (Qlt_alt a b) E).
  - apply Qltb_ge in E. destruct (a ?= b)%Q eqn:C; try reflexivity.
    apply Qlt_alt in C. exfalso. now apply (Qlt_not_le a b).
Qed.

(** Python's [min]/[max] pick the same argument as [Qmin]/[Qmax]. *)
Lemma py_min_Qmin (a b : Q) : py_min a b = Qmin a b.
Proof.
  unfold py_min, Qmin, GenericMinMax.gmin. rewrite Qltb_compare.
  rewrite <- (Qcompare_antisym a b). now destruct (a ?= b)%Q.
Qed.

Lemma py_max_Qmax (a b : Q) : py_max a b = Qmax a b.
Proof.
  unfold py_max, Qgtb, Qmax, GenericMinMax.gmax. rewrite Qltb_compare.
  now destruct (a ?= b)%Q.
Qed.

Ltac case_Qcmp :=
  repeat match goal with
  | |- context [Qltb ?a ?b] =>
      let E := fresh "E" in
      destruct (Qltb a b) eqn:E; [apply Qltb_lt in E | apply Qltb_ge in E]
  | |- context [Qgtb ?a ?b] =>
      let E := fresh "E" in
      destruct (Qgtb a b) eqn:E; [apply Qgtb_gt in E | apply Qgtb_le in E]
  end.

(** ** C10: list chunking *)

Section chunking.
Context {A : Type}.
Implicit Types (items : list A) (k m : nat).

Lemma slice_take_drop items (a k : nat) :
  helpers.slice items (Z.of_nat a) (Z.of_nat a + Z.of_nat k) = take k (drop a items).
Proof.
  unfold helpers.slice, helpers.slice_index.
  set (len := length items).
  destruct (Z.ltb_spec (Z.of_nat a) 0); [lia|].
  destruct (Z.ltb_spec (Z.of_nat a + Z.of_nat k) 0); [lia|].
  destruct (decide (len <= a)%nat) as [Hge|Hlt].
  - rewrite (drop_ge items a) by (subst len; lia).
    rewrite drop_ge by (subst len; lia). now rewrite !take_nil.
  - replace (Z.to_nat (Z.max 0 (Z.min (Z.of_nat len) (Z.of_nat a)))) with a by lia.
    destruct (decide (a + k <= len)%nat).
    + f_equal. lia.
    + rewrite (take_ge (drop a items) k) by (rewrite length_drop; subst len; lia).
      apply take_ge. rewrite length_drop. subst len. lia.
Qed.

Lemma chunks_of_S k m items :
  Spec.chunks_of k (S m) items = take k items :: Spec.chunks_of k m (drop k items).
Proof.
  unfold Spec.chunks_of. cbn [seq map]. rewrite Nat.mul_0_l, drop_0. f_equal.
  rewrite <- seq_shift, map_map.
  apply map_ext. intros j. now rewrite drop_drop.
Qed.

Lemma concat_chunks_of k m items :
  (length items <= m * k)%nat -> concat (Spec.chunks_of k m items) = items.
Proof.
  revert items. induction m as [|m IH]; intros items Hlen.
  - destruct items; [reflexivity | cbn in Hlen; lia].
  - rewrite chunks_of_S. cbn [concat].
    rewrite IH by (rewrite length_drop; lia). apply take_drop.
Qed.

Lemma chunks_of_lookup k m items i c :
  Spec.chunks_of k m items !! i = Some c -> (i < m)%nat /\ c = take k (drop (i * k) items).
Proof.
  unfold Spec.chunks_of.
  change (map ?f ?l) with (f <$> l). rewrite list_lookup_fmap. intros H.
  destruct (seq 0 m !! i) as [j|] eqn:Hj; [|discriminate].
  apply lookup_seq in Hj as [-> Hi]. cbn in H. now inversion H.
Qed.

Lemma chunk_list_shape items (chunk_size : Z) :
  0 < chunk_size ->
  helpers.chunk_list items chunk_size =
    Ok (Spec.chunks_of (Z.to_nat chunk_size)
          (Z.to_nat (if 0 <? Z.of_nat (length items)
                     then (Z.of_nat (length items) - 1) / chunk_size + 1 else 0))
          items).
Proof.
  intros Hk. unfold helpers.chunk_list, helpers.range, helpers.range_len.
  destruct (Z.eqb_spec chunk_size 0); [lia|].
  destruct (Z.ltb_spec 0 chunk_size); [|lia].
  cbn. rewrite Z.sub_0_r. f_equal. unfold Spec.chunks_of. rewrite map_map.
  apply map_ext. intros j.
  replace (0 + Z.of_nat j * chunk_size) with (Z.of_nat (j * Z.to_nat chunk_size)) by lia.
  rewrite <- (slice_take_drop items (j * Z.to_nat chunk_size) (Z.to_nat chunk_size)).
  f_equal. lia.
Qed.

Lemma chunk_count_bounds (n chunk_size : Z) :
  0 < chunk_size -> 0 < n ->
  let q := (n - 1) / chunk_size in
  0 <= q /\ q * chunk_size < n /\ n <= (q + 1) * chunk_size.
Proof.
  intros Hk Hn q.
  pose proof (Z.div_mod (n - 1) chunk_size ltac:(lia)) as Hdm.
  pose proof (Z.mod_pos_bound (n - 1) chunk_size Hk) as Hm.
  pose proof (Z.div_pos (n - 1) chunk_size ltac:(lia) Hk) as Hq.
  fold q in Hdm, Hq. nia.
Qed.
End chunking.

(** C10. For every list and every chunk size greater than 0,
    [chunk_list] returns (does not raise) chunks whose concatenation is
    the original list; every chunk that is not the last one has exactly
    [chunk_size] elements; and when the list is non-empty there is a last
    chunk and it is non-empty. *)
Theorem chunk_list_partition {A} (items : list A) (chunk_size : Z) :
  0 < chunk_size ->
  exists chunks,
    helpers.chunk_list items chunk_size = Ok chunks
    /\ concat chunks = items
    /\ (forall i c, chunks !! i = Some c -> (S i < length chunks)%nat ->
                    Z.of_nat (length c) = chunk_size)
    /\ (items <> [] -> exists c, last chunks = Some c /\ c <> []).
Proof.
  intros Hk. eexists. split; [apply chunk_list_shape, Hk|].
  set (n := Z.of_nat (length items)).
  set (k := Z.to_nat chunk_size).
  destruct (Z.ltb_spec 0 n) as [Hn|Hn].
  - destruct (chunk_count_bounds n chunk_size Hk Hn) as (Hq & Hlo & Hhi).
    set (q := (n - 1) / chunk_size) in *.
    replace (Z.to_nat (q + 1)) with (S (Z.to_nat q)) by lia.
    split; [|split].
    + apply concat_chunks_of. subst n k. nia.
    + intros i c Hc Hi. apply chunks_of_lookup in Hc as [_ ->].
      unfold Spec.chunks_of in Hi. rewrite length_map, length_seq in Hi.
      rewrite length_take, length_drop. subst n k. nia.
    + intros _. exists (take k (drop (Z.to_nat q * k) items)). split.
      * unfold Spec.chunks_of. rewrite seq_S, map_app. cbn. apply last_snoc.
      * intros Hnil. apply (f_equal length) in Hnil.
        rewrite length_take, length_drop in Hnil. cbn in Hnil. subst n k. nia.
  - assert (items = []) as -> by (destruct items; [reflexivity | cbn in n; lia]).
    cbn. split; [reflexivity|]. split; [|congruence].
    intros i c Hc. apply chunks_of_lookup in Hc as [Hi _]. cbn in Hi. lia.
Qed.

Lemma chunk_list_partition_witness :
  0 < 2 /\
  exists chunks,
    helpers.chunk_list [1; 2; 3; 4; 5] 2 = Ok chunks
    /\ concat chunks = [1; 2; 3; 4; 5]
    /\ (forall i c, chunks !! i = Some c -> (S i < length chunks)%nat ->
                    Z.of_nat (length c) = 2)
    /\ ([1; 2; 3; 4; 5] <> [] -> exists c, last chunks = Some c /\ c <> []).
Proof. split; [lia | apply (chunk_list_partition [1; 2; 3; 4; 5] 2); lia]. Defined.

Example chunk_list_5_by_2 :
  helpers.chunk_list [1; 2; 3; 4; 5] 2 = Ok [[1; 2]; [3; 4]; [5]].
Proof. reflexivity. Qed.

Example chunk_list_zero_step : helpers.chunk_list [1; 2; 3] 0 = Raise ValueError.
Proof. reflexivity. Qed.

Example chunk_list_negative_step : helpers.chunk_list [1; 2; 3] (-1) = Ok [].
Proof. reflexivity. Qed.

(** ** C1: combining the four risk signals *)

Section combine.
Local Open Scope Q_scope.
Import RiskAssessmentService.

Lemma location_factor_spec_total speed :
  Spec.location_factor_spec speed
    (if Qgtb speed 900 then 0.10 else if Qgtb speed 200 then 0.02 else 0.0).
Proof. unfold Spec.location_factor_spec. case_Qcmp; intuition reflexivity. Qed.

Lemma combine_signals_upper dk d m s : _combine_signals dk d m s <= 1.
Proof.
  unfold _combine_signals. rewrite (py_min_Qmin 1.0).
  apply Qle_trans with (y := 1.0); [apply Q.le_min_l | lra].
Qed.

Lemma combine_signals_lower dk d m s :
  0 <= d -> 0 <= m -> 0 <= _combine_signals dk d m s.
Proof.
  intros Hd Hm. unfold _combine_signals.
  rewrite !py_min_Qmin. apply Q.min_glb; [lra|].
  assert (0 <= Qmin d 1.0) by (apply Q.min_glb; lra).
  assert (0 <= Qmin m 1.0) by (apply Q.min_glb; lra).
  destruct dk; case_Qcmp; lra.
Qed.
End combine.

(** C1. For every device-known flag, deviation, ML score and location
    metric, [_combine_signals] equals
    [min(1.0, device_factor + behavior_factor + ml_factor + location_factor)]
    with [device_factor] 0.35 for an unknown device and 0 otherwise,
    [behavior_factor = min(deviation, 1.0) * 0.28],
    [ml_factor = min(ml_score, 1.0) * 0.27] and the location factor
    0.10 above 900 km/h, 0.02 between 200 and 900 km/h, else 0; and for
    deviation and ML score in [0,1] and speed in [0,2000] the result lies
    in [0,1]. *)
Theorem combine_signals_spec (device_known : bool) (deviation ml_score location_metric : Q) :
  let device_factor := (if device_known then 0 else 0.35)%Q in
  let behavior_factor := (Qmin deviation 1 * 0.28)%Q in
  let ml_factor := (Qmin ml_score 1 * 0.27)%Q in
  exists location_factor,
    Spec.location_factor_spec location_metric location_factor
    /\ (RiskAssessmentService._combine_signals device_known deviation ml_score location_metric
        == Qmin 1 (device_factor + behavior_factor + ml_factor + location_factor))%Q
    /\ ((0 <= deviation <= 1)%Q -> (0 <= ml_score <= 1)%Q ->
        (0 <= location_metric <= 2000)%Q ->
        (0 <= RiskAssessmentService._combine_signals
                device_known deviation ml_score location_metric <= 1)%Q).
Proof.
  cbn zeta. eexists. split; [apply location_factor_spec_total|]. split.
  - unfold RiskAssessmentService._combine_signals.
    rewrite !py_min_Qmin.
    assert (E1 : (1.0 == 1)%Q) by reflexivity.
    assert (E0 : (0.0 == 0)%Q) by reflexivity.
    destruct device_known; case_Qcmp; rewrite !E1, ?E0; reflexivity.
  - intros [Hd _] [Hm _] _. split.
    + now apply combine_signals_lower.
    + apply combine_signals_upper.
Qed.

Lemma combine_signals_spec_witness :
  (0 <= RiskAssessmentService._combine_signals false 0.5 0.5 1000 <= 1)%Q.
Proof.
  destruct (combine_signals_spec false 0.5 0.5 1000) as (lf & _ & _ & Hbounds).
  apply Hbounds; split; lra.
Defined.

Example combine_signals_all_maximal :
  (RiskAssessmentService._combine_signals false 1 1 1000 == 1)%Q.
Proof. reflexivity. Qed.

Example combine_signals_known_quiet :
  (RiskAssessmentService._combine_signals true 0 0 0 == 0)%Q.
Proof. reflexivity. Qed.

Example combine_signals_flight_speed_band :
  (RiskAssessmentService._combine_signals true 0 0 900 == 0.02)%Q
  /\ (RiskAssessmentService._combine_signals true 0 0 200 == 0)%Q
  /\ (RiskAssessmentService._combine_signals true 0 0 901 == 0.10)%Q.
Proof. repeat split. Qed.

(** ** C4: session validity and revocation *)

Lemma session_is_expired_iff (now : Z) (s : session.Session) :
  session.is_expired now s = true <-> session.expires_at s < now.
Proof. unfold session.is_expired. rewrite Z.gtb_ltb, Z.ltb_lt. reflexivity. Qed.

Lemma session_is_valid_iff (now : Z) (s : session.Session) :
  session.is_valid now s = true <->
  session.is_active s = true /\ ~ session.expires_at s < now /\ session.status s = session.ACTIVE.
Proof.
  unfold session.is_valid.
  rewrite !andb_true_iff, negb_true_iff, bool_decide_eq_true.
  rewrite <- session_is_expired_iff, not_true_iff_false. tauto.
Qed.

(** C4. A session is valid exactly when its active flag is set, the
    current time is not past [expires_at] and its status is "active"; a
    newly created session is valid as long as it is unexpired; after
    [revoke()] the session is invalid at every time, its status is
    "revoked", the active flag is cleared and the revocation time is
    stamped; and once the stored expiry has passed the session is
    invalid, revoked or not. *)
Theorem session_lifecycle :
  (forall now s,
      session.is_valid now s = true <->
      session.is_active s = true /\ ~ session.expires_at s < now
      /\ session.SessionStatus_value (session.status s) = "active")
  /\ (forall jti expires created now,
        now <= expires ->
        session.is_valid now (session.new_session jti expires created) = true)
  /\ (forall at_time now s,
        let s' := session.revoke at_time s in
        session.is_valid now s' = false
        /\ session.SessionStatus_value (session.status s') = "revoked"
        /\ session.is_active s' = false
        /\ session.revoked_at s' = Some at_time)
  /\ (forall now s, session.expires_at s < now -> session.is_valid now s = false).
Proof.
  split; [|split; [|split]].
  - intros now s. rewrite session_is_valid_iff.
    assert (session.status s = session.ACTIVE <->
            session.SessionStatus_value (session.status s) = "active") as ->; [|tauto].
    destruct (session.status s); cbn; split; congruence.
  - intros jti expires created now Hle. apply session_is_valid_iff. cbn. repeat split. lia.
  - intros at_time now s. cbn. repeat split.
  - intros now s Hexp. apply not_true_iff_false. rewrite session_is_valid_iff. tauto.
Qed.

Lemma session_lifecycle_witness :
  session.is_valid 100 (session.new_session "jti-1" 900 0) = true
  /\ session.is_valid 901 (session.new_session "jti-1" 900 0) = false.
Proof.
  destruct session_lifecycle as (_ & Hnew & _ & Hexpired). split.
  - apply Hnew. lia.
  - apply Hexpired. cbn. lia.
Defined.

(** ** C2: the assessment wrapper of the adaptive MFA engine *)

Section adaptive_mfa.
Import RiskBasedAdaptiveMFA.

Lemma query_user_found db user_id u :
  query_user db user_id = Ok (Some u) -> In u (users db) /\ user.id u = user_id.
Proof.
  unfold query_user. destruct (reachable db); [|discriminate].
  intros [= H]. apply find_some in H as [Hin Heq].
  split; [assumption | now apply String.eqb_eq].
Qed.

(** The risk service never hands an exception to its caller. *)
Lemma risk_assess_login_total body :
  (exists d, body = Ok d /\ RiskAssessmentService.assess_login body = d)
  \/ RiskAssessmentService.assess_login body = RiskAssessmentService._error_response.
Proof. destruct body; cbn; eauto. Qed.
End adaptive_mfa.

(** C2. For an existing user, the assessment returned by the adaptive
    MFA engine has [mfa_methods_required = ["totp"]] exactly when the
    user has MFA enabled and the risk score is above 0.3, and the empty
    list otherwise; and it is blocked, with reason "Critical risk:
    Unknown device with anomalous behavior", exactly when the score is
    above 0.95, the device is unknown and the behaviour risk is "high"
    (otherwise it is not blocked and carries no reason). *)
Theorem adaptive_mfa_assessment
    (risk_body : user.User -> exn RiskAssessmentService.RiskData)
    (db : RiskBasedAdaptiveMFA.Database) (user_id : string) (u : user.User) :
  RiskBasedAdaptiveMFA.query_user db user_id = Ok (Some u) ->
  let a := RiskBasedAdaptiveMFA.assess_login risk_body db user_id in
  let mfa_case := user.mfa_enabled u = true /\ (0.3 < RiskBasedAdaptiveMFA.a_risk_score a)%Q in
  let critical :=
    (0.95 < RiskBasedAdaptiveMFA.a_risk_score a)%Q
    /\ RiskBasedAdaptiveMFA.a_device_known a = false
    /\ RiskBasedAdaptiveMFA.a_behavior_risk a = "high" in
  (RiskBasedAdaptiveMFA.mfa_methods_required a = ["totp"] <-> mfa_case)
  /\ (~ mfa_case -> RiskBasedAdaptiveMFA.mfa_methods_required a = [])
  /\ (RiskBasedAdaptiveMFA.blocked a = true
      /\ RiskBasedAdaptiveMFA.block_reason a
         = Some "Critical risk: Unknown device with anomalous behavior"
      <-> critical)
  /\ (~ critical ->
      RiskBasedAdaptiveMFA.blocked a = false /\ RiskBasedAdaptiveMFA.block_reason a = None).
Proof.
  intros Hq. unfold RiskBasedAdaptiveMFA.assess_login. rewrite Hq. cbn.
  set (d := RiskAssessmentService.assess_login (risk_body u)).
  split; [|split; [|split]].
  - destruct (user.mfa_enabled u); [|split; [discriminate | intros [? _]; discriminate]].
    destruct (Qgtb (RiskAssessmentService.risk_score d) 0.3) eqn:E.
    + apply Qgtb_gt in E. tauto.
    + apply Qgtb_le in E. split; [discriminate|].
      intros [_ H]. exfalso. revert H. now apply Qle_not_lt.
  - destruct (user.mfa_enabled u); [|reflexivity].
    destruct (Qgtb (RiskAssessmentService.risk_score d) 0.3) eqn:E; [|reflexivity].
    apply Qgtb_gt in E. tauto.
  - destruct (Qgtb (RiskAssessmentService.risk_score d) 0.95) eqn:E;
      [apply Qgtb_gt in E | apply Qgtb_le in E].
    + destruct (RiskAssessmentService.device_known d); cbn.
      * split; [intros [? _] | intros (_ & ? & _)]; discriminate.
      * destruct (String.eqb_spec (RiskAssessmentService.behavior_risk d) "high") as [Hb|Hb].
        -- tauto.
        -- split; [intros [? _]; discriminate | tauto].
    + cbn. split; [intros [? _]; discriminate|].
      intros (H & _). exfalso. revert H. now apply Qle_not_lt.
  - intros Hn.
    destruct (Qgtb (RiskAssessmentService.risk_score d) 0.95) eqn:E; [|now cbn].
    apply Qgtb_gt in E.
    destruct (RiskAssessmentService.device_known d); [now cbn|]. cbn.
    destruct (String.eqb_spec (RiskAssessmentService.behavior_risk d) "high"); [tauto | now split].
Qed.

Lemma adaptive_mfa_assessment_witness :
  let a := RiskBasedAdaptiveMFA.assess_login (fun _ => Ok samples.critical_risk) samples.db "u-1" in
  RiskBasedAdaptiveMFA.mfa_methods_required a = ["totp"]
  /\ RiskBasedAdaptiveMFA.blocked a = true.
Proof.
  destruct (adaptive_mfa_assessment (fun _ => Ok samples.critical_risk) samples.db "u-1"
              samples.alice eq_refl) as (Hmfa & _ & Hblock & _).
  split.
  - apply Hmfa. split; reflexivity.
  - apply Hblock. repeat split.
Defined.

Example adaptive_mfa_unknown_user :
  RiskBasedAdaptiveMFA.assess_login (fun _ => Ok samples.critical_risk) samples.db "nobody"
  = RiskBasedAdaptiveMFA._error_response.
Proof. reflexivity. Qed.

Example adaptive_mfa_inner_failure :
  let a := RiskBasedAdaptiveMFA.assess_login (fun _ => Raise OtherError) samples.db "u-1" in
  RiskBasedAdaptiveMFA.mfa_methods_required a = ["totp"]
  /\ RiskBasedAdaptiveMFA.blocked a = false
  /\ RiskBasedAdaptiveMFA.a_behavior_risk a = "medium".
Proof. repeat split. Qed.

(** ** C6: password-reset tokens *)

Section reset_tokens.
Variable mac : string -> string -> string -> Z -> string.
Variable cfg : Settings.

Lemma loads_dumps secret obj salt created now limit :
  0 <= now - created <= limit ->
  tokens.loads mac secret (tokens.dumps mac secret obj salt created) salt (Some limit) now
  = inr obj.
Proof.
  intros [Hlo Hhi]. unfold tokens.loads, tokens.dumps.
  rewrite String.eqb_refl.
  destruct (Z.gtb_spec (now - created) limit); [lia|].
  destruct (Z.ltb_spec (now - created) 0); [lia | reflexivity].
Qed.

Lemma loads_expired secret payload created salt now limit :
  limit < now - created ->
  tokens.loads mac secret (tokens.Signed payload created (mac secret salt payload created))
               salt (Some limit) now
  = inl tokens.SignatureExpired.
Proof.
  intros Hage. unfold tokens.loads. rewrite String.eqb_refl.
  destruct (Z.gtb_spec (now - created) limit); [reflexivity | lia].
Qed.

Lemma loads_bad_signature secret payload created signature salt max_age now :
  signature <> mac secret salt payload created ->
  tokens.loads mac secret (tokens.Signed payload created signature) salt max_age now
  = inl tokens.BadSignature.
Proof.
  intros Hsig. unfold tokens.loads.
  now destruct (String.eqb_spec signature (mac secret salt payload created)).
Qed.
End reset_tokens.

(** C6. For every email, verifying a freshly created password-reset
    token within the maximum age (900 seconds by default) returns that
    email; verification returns [None] when the signature is bad (or the
    token does not even parse), and when the token is verified after the
    maximum age although its signature is valid. *)
Theorem password_reset_token_verification
    (mac : string -> string -> string -> Z -> string) (cfg : Settings) :
  (forall email created now limit,
      0 <= now - created <= limit ->
      tokens.verify_password_reset_token mac cfg
        (tokens.create_password_reset_token mac cfg email created) (Some limit) now
      = Ok (Some email))
  /\ (forall email created now,
        0 <= now - created <= 900 ->
        tokens.verify_password_reset_token mac cfg
          (tokens.create_password_reset_token mac cfg email created)
          tokens.default_max_age now
        = Ok (Some email))
  /\ (forall payload created signature max_age now,
        signature <> mac (SECRET_KEY cfg) "password-reset-salt" payload created ->
        tokens.verify_password_reset_token mac cfg
          (tokens.Signed payload created signature) max_age now
        = Ok None)
  /\ (forall raw max_age now,
        tokens.verify_password_reset_token mac cfg (tokens.Malformed raw) max_age now
        = Ok None)
  /\ (forall email created now limit,
        limit < now - created ->
        tokens.verify_password_reset_token mac cfg
          (tokens.create_password_reset_token mac cfg email created) (Some limit) now
        = Ok None).
Proof.
  unfold tokens.verify_password_reset_token, tokens.create_password_reset_token.
  split; [|split; [|split; [|split]]].
  - intros. now rewrite loads_dumps.
  - intros. unfold tokens.default_max_age. now rewrite loads_dumps.
  - intros. now rewrite loads_bad_signature.
  - reflexivity.
  - intros. unfold tokens.dumps. now rewrite loads_expired.
Qed.

Lemma password_reset_token_verification_witness :
  let tok := tokens.create_password_reset_token samples.mac samples.cfg "alice@example.com" 1000 in
  tokens.verify_password_reset_token samples.mac samples.cfg tok (Some 60) 1060
  = Ok (Some "alice@example.com")
  /\ tokens.verify_password_reset_token samples.mac samples.cfg tok tokens.default_max_age 1900
     = Ok (Some "alice@example.com")
  /\ tokens.verify_password_reset_token samples.mac samples.cfg tok tokens.default_max_age 1901
     = Ok None
  /\ tokens.verify_password_reset_token samples.mac samples.cfg
       (tokens.Signed "alice@example.com" 1000 "forged") tokens.default_max_age 1000
     = Ok None.
Proof.
  destruct (password_reset_token_verification samples.mac samples.cfg)
    as (Hwithin & Hfresh & Hbad & _ & Hold).
  split; [|split; [|split]].
  - apply Hwithin. lia.
  - apply Hfresh. lia.
  - apply (Hold "alice@example.com" 1000 1901 900). lia.
  - apply Hbad. discriminate.
Defined.

(** ** C7: the score-risk step of the explanation workflow *)

Lemma call_calculate_risk_score_three_arguments a b c :
  RiskAssessmentService.call_calculate_risk_score [a; b; c] = Raise TypeError.
Proof. destruct a, b; reflexivity. Qed.

Lemma get_recommendation_missing score :
  LangGraphWorkflow.call_get_recommendation score = Raise AttributeError.
Proof. reflexivity. Qed.

(** The step calls the score utility with three positional arguments
    where its signature takes at most two, so the [try] block always
    raises and every state is replaced by the three-key fallback. *)
Lemma score_risk_node_always_fallback cfg state :
  LangGraphWorkflow.score_risk_node cfg state = LangGraphWorkflow.score_risk_fallback.
Proof.
  unfold LangGraphWorkflow.score_risk_node.
  change (RiskAssessmentService.class_getattr "calculate_risk_score")
    with (@Ok string "calculate_risk_score").
  cbn [mbind exn_bind].
  destruct (dict_item state "anomaly_score"); [|reflexivity].
  destruct (dict_item state "login_event"); [|reflexivity].
  cbn [mbind exn_bind].
  now rewrite call_calculate_risk_score_three_arguments.
Qed.

(** C7 (the code at the failing input). With [RISK_THRESHOLD_HIGH] 0.7
    and a state whose anomaly score is 0.1, the score utility gives
    0.1, which is not above the threshold; the step nevertheless returns
    risk score 0.5, recommendation "verify" and [action_required] true,
    and drops every other key of the state. *)
Theorem score_risk_node_low_anomaly :
  (RiskAssessmentService.calculate_risk_score 0.1 None == 0.1)%Q
  /\ Qgtb (RiskAssessmentService.calculate_risk_score 0.1 None)
          (RISK_THRESHOLD_HIGH samples.cfg) = false
  /\ let out := LangGraphWorkflow.score_risk_node samples.cfg samples.quiet_state in
     out !! "risk_score" = Some (VNum 0.5)
     /\ out !! "recommendation" = Some (VStr "verify")
     /\ out !! "action_required" = Some (VBool true)
     /\ out !! "anomaly_score" = None.
Proof.
  split; [reflexivity|]. split; [reflexivity|].
  cbn zeta. rewrite score_risk_node_always_fallback.
  unfold LangGraphWorkflow.score_risk_fallback. repeat split.
Qed.

(** ** C3: single-event anomaly scoring *)

Section anomaly.
Context {event features : Type}.
Variable extract_features : event -> features.
Local Open Scope Q_scope.
Import AnomalyService.

Lemma init_is_trained (fs : @artifacts features) :
  is_trained (__init__ fs) = true <->
  exists iso lr, iso_file fs = Some (Ok iso) /\ lr_file fs = Some (Ok lr).
Proof.
  unfold __init__, load_models.
  destruct (iso_file fs) as [[iso|e]|], (lr_file fs) as [[lr|e']|]; cbn;
    split; try discriminate; try (intros (? & ? & ? & ?); discriminate); eauto.
Qed.

Lemma detect_anomaly_untrained (self : @t features) ev :
  is_trained self = false -> detect_anomaly extract_features self ev = 0.5.
Proof. intros H. unfold detect_anomaly. now rewrite H. Qed.

Lemma detect_anomaly_missing_model (self : @t features) ev :
  iso_forest self = None \/ logistic_reg self = None ->
  detect_anomaly extract_features self ev = 0.5.
Proof.
  unfold detect_anomaly.
  intros [H|H]; rewrite H; destruct (is_trained self); try reflexivity.
  now destruct (iso_forest self).
Qed.

Lemma clamp_py x : py_max 0.0 (py_min 1.0 x) == Spec.clamp x 0 1.
Proof.
  unfold Spec.clamp. rewrite py_max_Qmax, py_min_Qmin.
  assert (E1 : 1.0 == 1) by reflexivity.
  assert (E0 : 0.0 == 0) by reflexivity.
  now rewrite E1, E0.
Qed.
End anomaly.

(** C3. Single-event anomaly scoring returns exactly 0.5 when the
    service is untrained, in particular when it was freshly constructed
    with no model artifact files, and when either estimator call (or the
    lookup of the positive-class probability) raises; when the service
    is trained it returns
    [0.5 * p + 0.5 * clamp((iso_score - (-1.0)) / (0.5 - (-1.0)), 0, 1)]
    for the classifier's positive-class probability [p]. *)
Theorem detect_anomaly_spec {event features : Type} (extract_features : event -> features) :
  (forall (fs : @AnomalyService.artifacts features) ev,
      AnomalyService.iso_file fs = None -> AnomalyService.lr_file fs = None ->
      AnomalyService.detect_anomaly extract_features (AnomalyService.__init__ fs) ev = 0.5%Q)
  /\ (forall (self : @AnomalyService.t features) ev,
        AnomalyService.is_trained self = false ->
        AnomalyService.detect_anomaly extract_features self ev = 0.5%Q)
  /\ (forall (self : @AnomalyService.t features) ev iso lr,
        AnomalyService.is_trained self = true ->
        AnomalyService.iso_forest self = Some iso ->
        AnomalyService.logistic_reg self = Some lr ->
        (exists e, iso (extract_features ev) = Raise e)
        \/ (exists e, lr (extract_features ev) = Raise e)
        \/ (exists proba, lr (extract_features ev) = Ok proba /\ proba !! 1%nat = None) ->
        AnomalyService.detect_anomaly extract_features self ev = 0.5%Q)
  /\ (forall (self : @AnomalyService.t features) ev iso lr iso_score proba p,
        AnomalyService.is_trained self = true ->
        AnomalyService.iso_forest self = Some iso ->
        AnomalyService.logistic_reg self = Some lr ->
        iso (extract_features ev) = Ok iso_score ->
        lr (extract_features ev) = Ok proba ->
        proba !! 1%nat = Some p ->
        (AnomalyService.detect_anomaly extract_features self ev
         == 0.5 * p + 0.5 * Spec.clamp ((iso_score - (-1.0)) / (0.5 - (-1.0))) 0 1)%Q).
Proof.
  split; [|split; [|split]].
  - intros fs ev Hiso Hlr. apply detect_anomaly_untrained.
    apply not_true_iff_false. rewrite init_is_trained.
    intros (iso & lr & H & _). congruence.
  - intros. now apply detect_anomaly_untrained.
  - intros self ev iso lr Ht Hi Hl Hraise. unfold AnomalyService.detect_anomaly.
    rewrite Ht, Hi, Hl.
    destruct Hraise as [[e He]|[[e He]|(proba & Hp & Hnone)]].
    + now rewrite He.
    + destruct (iso (extract_features ev)); [|reflexivity]. cbn. now rewrite He.
    + destruct (iso (extract_features ev)); [|reflexivity]. cbn. rewrite Hp. cbn.
      unfold AnomalyService.index_1. now rewrite Hnone.
  - intros self ev iso lr iso_score proba p Ht Hi Hl Hs Hp Hp1.
    unfold AnomalyService.detect_anomaly. rewrite Ht, Hi, Hl, Hs. cbn. rewrite Hp. cbn.
    unfold AnomalyService.index_1. rewrite Hp1. cbn.
    now rewrite clamp_py.
Qed.

Lemma detect_anomaly_spec_witness :
  AnomalyService.detect_anomaly (fun x : Q => x)
    (AnomalyService.__init__ samples.no_artifacts) 0.25%Q = 0.5%Q
  /\ AnomalyService.detect_anomaly (fun x : Q => x)
       (AnomalyService.untrained samples.trained_service) 0.8%Q = 0.5%Q
  /\ AnomalyService.detect_anomaly (fun x : Q => x) samples.unfitted_service 0.8%Q = 0.5%Q
  /\ (AnomalyService.detect_anomaly (fun x : Q => x) samples.trained_service 0.8
      == 0.5 * 0.8 + 0.5 * Spec.clamp ((0.8 - 1.2 - (-1.0)) / (0.5 - (-1.0))) 0 1)%Q.
Proof.
  destruct (detect_anomaly_spec (fun x : Q => x)) as (Hfresh & Huntrained & Hraise & Htrained).
  split; [|split; [|split]].
  - apply Hfresh; reflexivity.
  - apply Huntrained. reflexivity.
  - apply (Hraise samples.unfitted_service 0.8%Q
                  AnomalyService.unfitted_iso AnomalyService.unfitted_lr);
      try reflexivity.
    left. now exists OtherError.
  - apply (Htrained samples.trained_service 0.8%Q samples.iso samples.lr
                    (0.8 - 1.2)%Q [(1 - 0.8)%Q; 0.8%Q] 0.8%Q); reflexivity.
Defined.

(** Classifier probability 0.8 and normalised outlier score 0.4 give
    0.6. *)
Example detect_anomaly_trained_value :
  (AnomalyService.detect_anomaly (fun x : Q => x) samples.trained_service 0.8 == 0.6)%Q.
Proof. reflexivity. Qed.

Example detect_anomaly_unfitted_estimators :
  AnomalyService.detect_anomaly (fun x : Q => x) samples.unfitted_service 0.8%Q = 0.5%Q.
Proof. reflexivity. Qed.

(** ** C5: behavioural deviation and its risk band *)

Section behavior.
Local Open Scope Q_scope.
Import BehavioralAnalysisService.

Lemma Qeqb_iff a b : Qeqb a b = true <-> a == b.
Proof. apply Qeq_bool_iff. Qed.

(** [dev] against a numeric baseline is the relative difference. *)
Lemma dev_relative_difference current baseline b :
  as_number baseline = Ok b ->
  exists d, dev current baseline = Ok d /\ d == Spec.relative_difference current b.
Proof.
  intros Hb. unfold dev. rewrite Hb. cbn. unfold Spec.relative_difference.
  destruct (Qeqb b 0) eqn:Eb.
  - apply Qeqb_iff in Eb. destruct (Qeq_dec b 0) as [_|Hn]; [|contradiction].
    destruct (Qeqb current 0) eqn:Ec.
    + apply Qeqb_iff in Ec. destruct (Qeq_dec current 0); [|contradiction].
      eexists; split; reflexivity.
    + destruct (Qeq_dec current 0) as [Hc|_].
      * apply Qeqb_iff in Hc. congruence.
      * eexists; split; reflexivity.
  - destruct (Qeq_dec b 0) as [Hz|_].
    + apply Qeqb_iff in Hz. congruence.
    + eexists; split; reflexivity.
Qed.

Lemma dev_type_error current baseline :
  as_number baseline = Raise TypeError -> dev current baseline = Raise TypeError.
Proof. intros H. unfold dev. now rewrite H. Qed.

Lemma as_number_cases v : (exists q, as_number v = Ok q) \/ as_number v = Raise TypeError.
Proof. destruct v as [|[]| | | |]; cbn; eauto. Qed.

Lemma py_max3_Qmax a b c : py_max3 a b c = Qmax (Qmax a b) c.
Proof. unfold py_max3. now rewrite !py_max_Qmax. Qed.

Lemma map_deviation_low d : RiskAssessmentService._map_deviation_to_risk d = "low" <-> d < 0.2.
Proof.
  unfold RiskAssessmentService._map_deviation_to_risk. case_Qcmp;
    (split; [try discriminate; try tauto | try tauto; intros ?; exfalso; lra]).
Qed.

Lemma map_deviation_medium d :
  RiskAssessmentService._map_deviation_to_risk d = "medium" <-> 0.2 <= d < 0.5.
Proof.
  unfold RiskAssessmentService._map_deviation_to_risk. case_Qcmp;
    (split; [try discriminate; try tauto | try tauto; intros ?; exfalso; lra]).
Qed.

Lemma map_deviation_high d :
  RiskAssessmentService._map_deviation_to_risk d = "high" <-> 0.5 <= d.
Proof.
  unfold RiskAssessmentService._map_deviation_to_risk. case_Qcmp;
    (split; [try discriminate; try tauto | try tauto; intros ?; exfalso; lra]).
Qed.
End behavior.

(** C5. The behavioural deviation is the maximum over typing speed, key
    interval and key hold of [|current - baseline| / baseline] (0 when
    both are 0, 1 when only the baseline is 0), a baseline missing from
    the profile counting as 0; it is 0.3 when the user has no stored
    profile and 0.5 when the computation fails (the profile does not
    parse, is not an object, or holds a baseline that is not a number);
    and a deviation maps to "low" below 0.2, to "medium" below 0.5 and to
    "high" otherwise. *)
Theorem behavior_deviation_spec
    (json_loads : string -> exn BehavioralAnalysisService.json_doc)
    (u : user.User) (typing_speed key_interval key_hold : Q) :
  let result :=
    BehavioralAnalysisService.calculate_behavior_deviation
      json_loads u typing_speed key_interval key_hold in
  let baseline profile key := as_number (dict_get profile key (VNum 0.0)) in
  (user.behavior_profile u = None \/ user.behavior_profile u = Some EmptyString ->
   result = 0.3%Q)
  /\ (forall text profile b1 b2 b3,
        user.behavior_profile u = Some text -> text <> EmptyString ->
        json_loads text = Ok (BehavioralAnalysisService.JObject profile) ->
        baseline profile "typing_speed" = Ok b1 ->
        baseline profile "key_interval" = Ok b2 ->
        baseline profile "key_hold" = Ok b3 ->
        (result == Qmax (Qmax (Spec.relative_difference typing_speed b1)
                              (Spec.relative_difference key_interval b2))
                        (Spec.relative_difference key_hold b3))%Q)
  /\ (forall text,
        user.behavior_profile u = Some text -> text <> EmptyString ->
        (exists e, json_loads text = Raise e)
        \/ (exists v, json_loads text = Ok (BehavioralAnalysisService.JOther v))
        \/ (exists profile,
              json_loads text = Ok (BehavioralAnalysisService.JObject profile)
              /\ (baseline profile "typing_speed" = Raise TypeError
                  \/ baseline profile "key_interval" = Raise TypeError
                  \/ baseline profile "key_hold" = Raise TypeError)) ->
        result = 0.5%Q)
  /\ (forall d,
        (RiskAssessmentService._map_deviation_to_risk d = "low" <-> (d < 0.2)%Q)
        /\ (RiskAssessmentService._map_deviation_to_risk d = "medium" <-> (0.2 <= d < 0.5)%Q)
        /\ (RiskAssessmentService._map_deviation_to_risk d = "high" <-> (0.5 <= d)%Q)).
Proof.
  cbn zeta. unfold BehavioralAnalysisService.calculate_behavior_deviation.
  split; [|split; [|split]].
  - intros [-> | ->]; reflexivity.
  - intros text profile b1 b2 b3 Hp Hne Hj H1 H2 H3. rewrite Hp.
    destruct text as [|c text']; [contradiction|]. rewrite Hj. cbn.
    destruct (dev_relative_difference typing_speed _ _ H1) as (d1 & -> & E1).
    destruct (dev_relative_difference key_interval _ _ H2) as (d2 & -> & E2).
    destruct (dev_relative_difference key_hold _ _ H3) as (d3 & -> & E3).
    cbn. rewrite py_max3_Qmax. now rewrite E1, E2, E3.
  - intros text Hp Hne Herr. rewrite Hp.
    destruct text as [|c text']; [contradiction|].
    destruct Herr as [[e ->]|[[v ->]|(profile & -> & Hbad)]]; [reflexivity..|].
    cbn.
    destruct (as_number_cases (dict_get profile "typing_speed" (VNum 0.0))) as [[q1 H1]|H1];
      [|now rewrite (dev_type_error _ _ H1)].
    destruct (dev_relative_difference typing_speed _ _ H1) as (d1 & -> & _). cbn.
    destruct (as_number_cases (dict_get profile "key_interval" (VNum 0.0))) as [[q2 H2]|H2];
      [|now rewrite (dev_type_error _ _ H2)].
    destruct (dev_relative_difference key_interval _ _ H2) as (d2 & -> & _). cbn.
    destruct (as_number_cases (dict_get profile "key_hold" (VNum 0.0))) as [[q3 H3]|H3];
      [|now rewrite (dev_type_error _ _ H3)].
    destruct Hbad as [H|[H|H]]; congruence.
  - intros d. split; [apply map_deviation_low|].
    split; [apply map_deviation_medium | apply map_deviation_high].
Qed.

Lemma behavior_deviation_spec_witness :
  BehavioralAnalysisService.calculate_behavior_deviation samples.json_loads samples.bob 60 0 5
  = 0.3%Q
  /\ (BehavioralAnalysisService.calculate_behavior_deviation
        samples.json_loads samples.alice 60 0 5
      == Qmax (Qmax (Spec.relative_difference 60 50) (Spec.relative_difference 0 0))
              (Spec.relative_difference 5 0.0))%Q
  /\ BehavioralAnalysisService.calculate_behavior_deviation
       (fun _ => Raise ValueError) samples.alice 60 0 5 = 0.5%Q.
Proof.
  split; [|split].
  - destruct (behavior_deviation_spec samples.json_loads samples.bob 60 0 5) as (Hnone & _).
    apply Hnone. now left.
  - destruct (behavior_deviation_spec samples.json_loads samples.alice 60 0 5)
      as (_ & Hmax & _).
    apply (Hmax samples.profile_text
             (<["typing_speed" := VNum 50]> (<["key_interval" := VNum 0]> ∅)));
      try reflexivity.
    discriminate.
  - destruct (behavior_deviation_spec (fun _ => Raise ValueError) samples.alice 60 0 5)
      as (_ & _ & Herr & _).
    apply (Herr samples.profile_text); [reflexivity | discriminate |].
    left. now exists ValueError.
Defined.

Example behavior_deviation_alice :
  (BehavioralAnalysisService.calculate_behavior_deviation samples.json_loads samples.alice 60 0 5
   == 1)%Q.
Proof. vm_compute. reflexivity. Qed.

Example behavior_deviation_no_profile :
  BehavioralAnalysisService.calculate_behavior_deviation samples.json_loads samples.bob 60 0 5
  = 0.3%Q.
Proof. reflexivity. Qed.

(** ** Strings as lists of characters *)

Lemma chars_app (s1 s2 : string) :
  list_ascii_of_string (s1 ++ s2) = list_ascii_of_string s1 ++ list_ascii_of_string s2.
Proof. induction s1 as [|c s1 IH]; simpl; [reflexivity | now rewrite IH]. Qed.

Lemma chars_length (s : string) : length (list_ascii_of_string s) = String.length s.
Proof. induction s as [|c s IH]; cbn; [reflexivity | now rewrite IH]. Qed.

Lemma chars_inj (s1 s2 : string) :
  list_ascii_of_string s1 = list_ascii_of_string s2 -> s1 = s2.
Proof.
  intros H. rewrite <- (string_of_list_ascii_of_string s1), H.
  apply string_of_list_ascii_of_string.
Qed.

Lemma string_app_length (s1 s2 : string) :
  String.length (s1 ++ s2) = (String.length s1 + String.length s2)%nat.
Proof. now rewrite <- !chars_length, chars_app, length_app. Qed.



(** ** C9: the device-fingerprint validator *)

Section validator.
Import validators.

Lemma consume_spec cls n s rest :
  consume cls n s = Some rest <->
  exists pre, s = (pre ++ rest)%string /\ String.length pre = n
              /\ Forall (fun c => cls c = true) (list_ascii_of_string pre).
Proof.
  revert s. induction n as [|n IH]; intros s; cbn.
  - split.
    + intros [= ->]. exists EmptyString. repeat split. constructor.
    + intros (pre & -> & Hlen & _). destruct pre; [reflexivity | discriminate].
  - destruct s as [|c s]; cbn.
    + split; [discriminate|]. intros (pre & Hs & Hlen & _).
      destruct pre; discriminate.
    + destruct (cls c) eqn:Hc.
      * rewrite IH. split.
        -- intros (pre & -> & Hlen & Hall). exists (String c pre).
           cbn. repeat split; [now rewrite Hlen | now constructor].
        -- intros (pre & Hs & Hlen & Hall). destruct pre as [|c' pre]; [discriminate|].
           cbn in Hs, Hlen, Hall. injection Hs as -> ->. injection Hlen as Hlen.
           inversion Hall; subst. now exists pre.
      * split; [discriminate|]. intros (pre & Hs & Hlen & Hall).
        destruct pre as [|c' pre]; [discriminate|].
        cbn in Hs, Hall. injection Hs as -> ->. inversion Hall; subst. congruence.
Qed.

(** What the pattern accepts: 32 alphanumeric characters, optionally
    followed by one newline. *)
Lemma validate_device_fingerprint_accepts s :
  validate_device_fingerprint (VStr s) = true <->
  exists body tail,
    s = (body ++ tail)%string
    /\ String.length body = 32%nat
    /\ Forall (fun c => alnum c = true) (list_ascii_of_string body)
    /\ (tail = EmptyString \/ tail = String newline EmptyString).
Proof.
  unfold validate_device_fingerprint, re_match, fingerprint_pattern.
  cbn [match_items andb].
  destruct (consume alnum 32 s) as [rest|] eqn:Hc.
  - apply consume_spec in Hc as (pre & -> & Hlen & Hall).
    rewrite andb_true_r. split.
    + intros Hrest. exists pre, rest. repeat split; try assumption.
      destruct rest as [|c [|? ?]]; [now left | | discriminate].
      apply bool_decide_eq_true in Hrest as ->. now right.
    + intros (body & tail & Hs & Hlen' & _ & Htail).
      assert (pre = body /\ rest = tail) as [-> ->].
      { apply (f_equal list_ascii_of_string) in Hs. rewrite !chars_app in Hs.
        apply app_inj_1 in Hs as [H1 H2]; [|rewrite !chars_length; congruence].
        split; now apply chars_inj. }
      destruct Htail as [-> | ->]; [reflexivity | now apply bool_decide_eq_true].
  - split; [discriminate|]. intros (body & tail & -> & Hlen & Hall & _).
    assert (consume alnum 32 (body ++ tail) = Some tail) as Hs; [|congruence].
    apply consume_spec. now exists body.
Qed.

Lemma validate_device_fingerprint_length s :
  validate_device_fingerprint (VStr s) = true ->
  String.length s = 32%nat \/ String.length s = 33%nat.
Proof.
  intros (body & tail & -> & Hlen & _ & [-> | ->])%validate_device_fingerprint_accepts;
    rewrite string_app_length, Hlen; cbn; auto.
Qed.
End validator.

(** C9 (the code at the failing input). The validator accepts the
    33-character string made of 32 letters [a] and a final newline, which
    is not a string of exactly 32 alphanumeric characters. *)
Theorem validate_device_fingerprint_trailing_newline :
  let s := (samples.thirty_two_a ++ String validators.newline EmptyString)%string in
  validators.validate_device_fingerprint (VStr s) = true
  /\ String.length s = 33%nat
  /\ validators.alnum validators.newline = false
  /\ validators.validate_device_fingerprint (VStr samples.thirty_two_a) = true.
Proof. repeat split. Qed.

(** ** C8: device fingerprints *)

Section hex.
Import sha256.


Lemma hex_digit_lower n : 0 <= n < 16 -> Spec.lower_hex (hex_digit n) = true.
Proof.
intros Hn.
assert (Hall : forallb (fun k => Spec.lower_hex (hex_digit (Z.of_nat k))) (seq 0 16) = true)
  by reflexivity.
rewrite forallb_forall in Hall. specialize (Hall (Z.to_nat n)).
rewrite Z2Nat.id in Hall by lia. apply Hall, in_seq. lia.
Qed.

Lemma nibble_range w i : 0 <= nibble w i < 16.
Proof. unfold nibble. apply Z.mod_pos_bound. lia. Qed.

Lemma hex32_length w : String.length (hex32 w) = 8%nat.
Proof. reflexivity. Qed.

Lemma hex32_chars w :
  list_ascii_of_string (hex32 w)
  = map (fun i => hex_digit (nibble w i)) [7; 6; 5; 4; 3; 2; 1; 0]%nat.
Proof. unfold hex32. apply list_ascii_of_string_of_list_ascii. Qed.

Lemma hex32_lower w :
  Forall (fun c => Spec.lower_hex c = true) (list_ascii_of_string (hex32 w)).
Proof.
  rewrite hex32_chars. apply List.Forall_forall. intros c Hin.
  apply in_map_iff in Hin as (i & <- & _). apply hex_digit_lower, nibble_range.
Qed.




Lemma hexdigest_length s : String.length (hexdigest s) = 64%nat.
Proof.
  destruct s as [[[[[[[a b] c] d] e] f] g] h]. unfold hexdigest.
  now rewrite !string_app_length, !hex32_length.
Qed.

Lemma hexdigest_lower s :
  Forall (fun c => Spec.lower_hex c = true) (list_ascii_of_string (hexdigest s)).
Proof.
  destruct s as [[[[[[[a b] c] d] e] f] g] h]. unfold hexdigest.
  rewrite !chars_app. repeat (apply Forall_app; split); apply hex32_lower.
Qed.

End hex.

Section digest_words.
Import sha256.






End digest_words.

Section fingerprint.
Import DeviceFingerprintService.

Lemma or_empty_id s : or_empty s = s.
Proof. now destruct s. Qed.

Lemma raw_join user_agent ip_address device_id :
  raw user_agent ip_address device_id
  = (user_agent ++ "|" ++ ip_address ++ "|" ++ device_id)%string.
Proof. unfold raw. now rewrite !or_empty_id. Qed.

Lemma calculate_fingerprint_sha256 user_agent ip_address device_id :
  calculate_fingerprint user_agent ip_address device_id
  = sha256.sha256_hex (raw user_agent ip_address device_id).
Proof. reflexivity. Qed.


Lemma fingerprint_hex user_agent ip_address device_id :
  String.length (calculate_fingerprint user_agent ip_address device_id) = 64%nat
  /\ Forall (fun c => Spec.lower_hex c = true)
            (list_ascii_of_string (calculate_fingerprint user_agent ip_address device_id)).
Proof.
  rewrite calculate_fingerprint_sha256. unfold sha256.sha256_hex.
  split; [apply hexdigest_length | apply hexdigest_lower].
Qed.
End fingerprint.



Example fingerprint_value :
  DeviceFingerprintService.calculate_fingerprint "Mozilla/5.0" "10.0.0.1" "dev-1"
  = "cb14bbc39f351849bdb04c4b271f9bf865b22f6d7a71bd95c7aa851d3e64684d".
Proof. vm_compute. reflexivity. Qed.

Example sha256_abc :
  sha256.sha256_hex "abc"
  = "ba7816bf8f01cfea414140de5dae2223b00361a396177a9cb410ff61f20015ad".
Proof. vm_compute. reflexivity. Qed.

Example sha256_empty :
  sha256.sha256_hex EmptyString
  = "e3b0c44298fc1c149afbf4c8996fb92427ae41e4649b934ca495991b7852b855".
Proof. vm_compute. reflexivity. Qed.

(** Two blocks: the 56-byte message of FIPS 180-4. *)
Example sha256_two_blocks :
  sha256.sha256_hex "abcdbcdecdefdefgefghfghighijhijkijkljklmklmnlmnomnopnopq"
  = "248d6a61d20638b8e5c026930c3e6039a33ce45964ff2167f6ecedd419db06c1".
Proof. vm_compute. reflexivity. Qed.

(** The separator is not escaped: moving a '|' between fields leaves
    the joined string, and so the fingerprint, unchanged. *)
Example fingerprint_join_ambiguity :
  DeviceFingerprintService.calculate_fingerprint "a|b" "c" "d"
  = DeviceFingerprintService.calculate_fingerprint "a" "b|c" "d".
Proof. rewrite !calculate_fingerprint_sha256. reflexivity. Qed.

(** *** Collisions exist: infinitely many inputs, finitely many digests *)

Section collisions.





End collisions.


(** ** The validator against the fingerprints the service produces *)

(** The second half of C9 holds: no fingerprint computed by the
    fingerprinting service passes the validator, since it has 64
    characters and the validator accepts only 32 or 33. *)
Lemma validate_rejects_fingerprints ua ip id :
  validators.validate_device_fingerprint
    (VStr (DeviceFingerprintService.calculate_fingerprint ua ip id)) = false.
Proof.
  apply not_true_iff_false. intros Hv.
  apply validate_device_fingerprint_length in Hv.
  destruct (fingerprint_hex ua ip id) as [Hlen _]. rewrite Hlen in Hv.
  destruct Hv; discriminate.
Qed.

Example validate_rejects_non_strings :
  validators.validate_device_fingerprint VNone = false
  /\ validators.validate_device_fingerprint (VNum 32) = false.
Proof. split; reflexivity. Qed.

(** ** Worked examples for the remaining operations *)

Example risk_level_thresholds :
  RiskAssessmentService._map_score_to_level samples.cfg 0.2 = "low"
  /\ RiskAssessmentService._map_score_to_level samples.cfg 0.5 = "medium"
  /\ RiskAssessmentService._map_score_to_level samples.cfg 0.9 = "high"
  /\ RiskAssessmentService.get_risk_level samples.cfg 0.3 = "MEDIUM".
Proof. repeat split. Qed.

(** Called with one or two arguments, the score utility clamps the
    anomaly score, or the mean of the two scores, into [0,1]. *)
Example calculate_risk_score_calls :
  RiskAssessmentService.call_calculate_risk_score [VNum 1.5] = Ok 1.0%Q
  /\ RiskAssessmentService.call_calculate_risk_score [VNum 0.4; VNum 0.8] = Ok ((0.4 + 0.8) / 2)%Q
  /\ RiskAssessmentService.call_calculate_risk_score [VNum 0.4; VDict] = Raise TypeError.
Proof. repeat split. Qed.

Example should_do_rag_branches :
  LangGraphWorkflow.should_do_rag samples.cfg LangGraphWorkflow.score_risk_fallback
  = Ok "retrieve"
  /\ LangGraphWorkflow.should_do_rag samples.cfg (<["risk_score" := VNum 0.1]> ∅) = Ok "skip".
Proof. split; reflexivity. Qed.

Example invalidate_then_refresh :
  let s := session.refresh_activity 50
             (session.invalidate 40 (session.new_session "jti-2" 900 0)) in
  session.is_valid 60 s = false
  /\ session.SessionStatus_value (session.status s) = "invalidated"
  /\ session.revoked_at s = Some 40
  /\ session.last_activity_at s = 50.
Proof. repeat split. Qed.

(* ================================================================== *)
(** * Part III: further properties of the modelled code                *)
(* ================================================================== *)

(** ** X1: the standalone score utility *)

Lemma clamp01_range x : (0 <= py_max 0.0 (py_min 1.0 x) <= 1)%Q.
Proof.
  rewrite py_max_Qmax, py_min_Qmin. split.
  - apply Qle_trans with (y := 0.0%Q); [lra | apply Q.le_max_l].
  - apply Q.max_lub; [lra|]. apply Qle_trans with (y := 1.0%Q); [apply Q.le_min_l | lra].
Qed.

Lemma clamp01_id x : (0 <= x <= 1)%Q -> (py_max 0.0 (py_min 1.0 x) == x)%Q.
Proof.
  intros [H0 H1]. unfold py_max, py_min. case_Qcmp; lra.
Qed.

(** X1. [calculate_risk_score] always returns a value in [0,1]; it
    returns an anomaly score that already lies in [0,1] unchanged, and
    the mean of two scores that both lie in [0,1]. *)
Theorem calculate_risk_score_range (anomaly_score : Q) (rag_score : option Q) :
  (0 <= RiskAssessmentService.calculate_risk_score anomaly_score rag_score <= 1)%Q
  /\ ((0 <= anomaly_score <= 1)%Q ->
      (RiskAssessmentService.calculate_risk_score anomaly_score None == anomaly_score)%Q)
  /\ (forall r, (0 <= anomaly_score <= 1)%Q -> (0 <= r <= 1)%Q ->
        (RiskAssessmentService.calculate_risk_score anomaly_score (Some r)
         == (anomaly_score + r) / 2)%Q).
Proof.
  unfold RiskAssessmentService.calculate_risk_score. split; [|split].
  - destruct rag_score; apply clamp01_range.
  - apply clamp01_id.
  - intros r Ha Hr. apply clamp01_id.
    split; [apply Qle_shift_div_l | apply Qle_shift_div_r]; lra.
Qed.

Lemma calculate_risk_score_range_witness :
  (RiskAssessmentService.calculate_risk_score 0.4 None == 0.4)%Q
  /\ (RiskAssessmentService.calculate_risk_score 0.4 (Some 0.8) == (0.4 + 0.8) / 2)%Q.
Proof.
  destruct (calculate_risk_score_range 0.4 None) as (_ & Hid & Hmean).
  split; [apply Hid | apply Hmean]; lra.
Defined.

(** ** X2: the two score classifiers *)

(** X2. [_map_score_to_level] and [get_risk_level] classify every score
    alike (up to the case of the label): "low" exactly below
    RISK_THRESHOLD_LOW, "medium" exactly from RISK_THRESHOLD_LOW up to
    but excluding RISK_THRESHOLD_HIGH, "high" exactly when the score
    reaches both thresholds; so with thresholds in the wrong order no
    score is ever "medium". *)
Theorem risk_level_classification (cfg : Settings) (score : Q) :
  let level := RiskAssessmentService._map_score_to_level cfg score in
  let LEVEL := RiskAssessmentService.get_risk_level cfg score in
  let low := RISK_THRESHOLD_LOW cfg in
  let high := RISK_THRESHOLD_HIGH cfg in
  ((level = "low" /\ LEVEL = "LOW") <-> (score < low)%Q)
  /\ ((level = "medium" /\ LEVEL = "MEDIUM") <-> (low <= score < high)%Q)
  /\ ((level = "high" /\ LEVEL = "HIGH") <-> (low <= score /\ high <= score)%Q)
  /\ ((high <= low)%Q -> level <> "medium" /\ LEVEL <> "MEDIUM").
Proof.
  cbn zeta.
  unfold RiskAssessmentService._map_score_to_level, RiskAssessmentService.get_risk_level.
  destruct (Qltb score (RISK_THRESHOLD_LOW cfg)) eqn:E1;
    [apply Qltb_lt in E1 | apply Qltb_ge in E1];
  (destruct (Qltb score (RISK_THRESHOLD_HIGH cfg)) eqn:E2;
    [apply Qltb_lt in E2 | apply Qltb_ge in E2]);
  repeat split; intros;
  repeat match goal with H : _ /\ _ |- _ => destruct H end;
  try discriminate; try reflexivity; try lra; try (exfalso; lra).
Qed.

Lemma risk_level_classification_witness :
  RiskAssessmentService._map_score_to_level
    {| RISK_THRESHOLD_LOW := 0.7; RISK_THRESHOLD_HIGH := 0.3; SECRET_KEY := "k" |} 0.5
  <> "medium".
Proof.
  destruct (risk_level_classification
              {| RISK_THRESHOLD_LOW := 0.7; RISK_THRESHOLD_HIGH := 0.3; SECRET_KEY := "k" |}
              0.5) as (_ & _ & _ & Hswapped).
  apply Hswapped. cbn. lra.
Defined.

(** ** X3, X4: the combined score as a function of its signals *)

Lemma py_min_mono_l a a' b : (a <= a')%Q -> (py_min a b <= py_min a' b)%Q.
Proof. intros H. unfold py_min. case_Qcmp; lra. Qed.

Lemma py_min_mono_r a b b' : (b <= b')%Q -> (py_min a b <= py_min a b')%Q.
Proof. intros H. unfold py_min. case_Qcmp; lra. Qed.

(** X3. The combined risk score never decreases when the deviation, the
    ML score or the travel speed grows, and an unknown device never
    scores below a known one. *)
Theorem combine_signals_monotone
    (device_known : bool) (deviation deviation' ml_score ml_score' speed speed' : Q) :
  (deviation <= deviation')%Q -> (ml_score <= ml_score')%Q -> (speed <= speed')%Q ->
  (RiskAssessmentService._combine_signals device_known deviation ml_score speed
   <= RiskAssessmentService._combine_signals device_known deviation' ml_score' speed')%Q
  /\ (RiskAssessmentService._combine_signals true deviation ml_score speed
      <= RiskAssessmentService._combine_signals false deviation ml_score speed)%Q.
Proof.
  intros Hd Hm Hs. unfold RiskAssessmentService._combine_signals. split.
  - apply py_min_mono_r.
    pose proof (py_min_mono_l deviation deviation' 1.0 Hd).
    pose proof (py_min_mono_l ml_score ml_score' 1.0 Hm).
    destruct device_known; case_Qcmp; lra.
  - apply py_min_mono_r. lra.
Qed.

Lemma combine_signals_monotone_witness :
  (RiskAssessmentService._combine_signals false 0.2 0.3 100
   <= RiskAssessmentService._combine_signals false 0.6 0.3 950)%Q.
Proof. apply (combine_signals_monotone false 0.2 0.6 0.3 0.3 100 950); lra. Defined.






(** ** X5: how the engine answers when something fails *)

(** X5. The adaptive MFA engine answers with its fixed default (score
    0.5, level "medium", TOTP required, not blocked) when the user
    table cannot be queried or holds no such user.  When the user exists
    but the risk assessment itself fails, the answer carries the risk
    service's default (score 0.5, "medium", not blocked, the text
    "Unable to assess risk. Default MFA enabled for safety.") and
    requires TOTP only if the user has MFA enabled. *)
Theorem adaptive_mfa_failures
    (risk_body : user.User -> exn RiskAssessmentService.RiskData)
    (db : RiskBasedAdaptiveMFA.Database) (user_id : string) :
  let a := RiskBasedAdaptiveMFA.assess_login risk_body db user_id in
  (RiskBasedAdaptiveMFA.reachable db = false -> a = RiskBasedAdaptiveMFA._error_response)
  /\ (RiskBasedAdaptiveMFA.query_user db user_id = Ok None ->
      a = RiskBasedAdaptiveMFA._error_response)
  /\ (forall u e,
        RiskBasedAdaptiveMFA.query_user db user_id = Ok (Some u) ->
        risk_body u = Raise e ->
        RiskBasedAdaptiveMFA.a_risk_score a = 0.5%Q
        /\ RiskBasedAdaptiveMFA.a_risk_level a = "medium"
        /\ RiskBasedAdaptiveMFA.blocked a = false
        /\ RiskBasedAdaptiveMFA.a_explanation a
           = "Unable to assess risk. Default MFA enabled for safety."
        /\ RiskBasedAdaptiveMFA.mfa_methods_required a
           = (if user.mfa_enabled u then ["totp"] else [])
        /\ RiskBasedAdaptiveMFA.a_mfa_required a = user.mfa_enabled u).
Proof.
  cbn zeta. unfold RiskBasedAdaptiveMFA.assess_login. split; [|split].
  - intros Hr. unfold RiskBasedAdaptiveMFA.query_user. now rewrite Hr.
  - intros ->. reflexivity.
  - intros u e Hq Hb. rewrite Hq. cbn. rewrite Hb. cbn.
    now destruct (user.mfa_enabled u).
Qed.

Lemma adaptive_mfa_failures_witness :
  RiskBasedAdaptiveMFA.mfa_methods_required
    (RiskBasedAdaptiveMFA.assess_login (fun _ => Raise OtherError)
       {| RiskBasedAdaptiveMFA.users := [samples.bob]; RiskBasedAdaptiveMFA.reachable := true |}
       "u-2")
  = []
  /\ RiskBasedAdaptiveMFA.assess_login (fun _ => Ok samples.critical_risk)
       {| RiskBasedAdaptiveMFA.users := [samples.bob]; RiskBasedAdaptiveMFA.reachable := false |}
       "u-2"
     = RiskBasedAdaptiveMFA._error_response
  /\ RiskBasedAdaptiveMFA.assess_login (fun _ => Ok samples.critical_risk) samples.db "u-2"
     = RiskBasedAdaptiveMFA._error_response.
Proof.
  split; [|split].
  - destruct (adaptive_mfa_failures (fun _ => Raise OtherError)
                {| RiskBasedAdaptiveMFA.users := [samples.bob];
                   RiskBasedAdaptiveMFA.reachable := true |} "u-2") as (_ & _ & Hfail).
    destruct (Hfail samples.bob OtherError eq_refl eq_refl) as (_ & _ & _ & _ & Hm & _).
    exact Hm.
  - destruct (adaptive_mfa_failures (fun _ => Ok samples.critical_risk)
                {| RiskBasedAdaptiveMFA.users := [samples.bob];
                   RiskBasedAdaptiveMFA.reachable := false |} "u-2") as (Hdown & _).
    now apply Hdown.
  - destruct (adaptive_mfa_failures (fun _ => Ok samples.critical_risk) samples.db "u-2")
      as (_ & Hmissing & _).
    now apply Hmissing.
Defined.

(** ** X6: routing after the score-risk step *)

(** X6. Whatever the workflow state, after the score-risk step the
    routing function sends the workflow to retrieval unless
    RISK_THRESHOLD_LOW is above 0.5: the decision depends on the
    configuration only, never on the login event. *)
Theorem routing_after_score_risk (cfg : Settings) (state : gmap string pyval) :
  LangGraphWorkflow.should_do_rag cfg (LangGraphWorkflow.score_risk_node cfg state)
  = Ok (if Qltb 0.5 (RISK_THRESHOLD_LOW cfg) then "skip" else "retrieve").
Proof.
  rewrite score_risk_node_always_fallback. unfold LangGraphWorkflow.should_do_rag.
  change (dict_item LangGraphWorkflow.score_risk_fallback "risk_score")
    with (Ok (VNum 0.5)).
  cbn. now destruct (Qltb 0.5 (RISK_THRESHOLD_LOW cfg)).
Qed.

(** ** X7: chunking with a chunk size that is not positive *)

Lemma range_nonpositive_step (stop step : Z) :
  0 <= stop -> step < 0 -> helpers.range 0 stop step = Ok [].
Proof.
  intros Hs Hk. unfold helpers.range, helpers.range_len.
  destruct (Z.eqb_spec step 0); [lia|].
  destruct (Z.ltb_spec 0 step); [lia|].
  destruct (Z.ltb_spec stop 0); [lia|]. reflexivity.
Qed.

(** X7. With chunk size 0 [chunk_list] raises [ValueError]; with a
    negative chunk size it returns the empty list and so drops every
    item; with a positive chunk size [k] a list of [n] items gives
    [(n + k - 1) / k] chunks, each with between 1 and [k] items. *)
Theorem chunk_list_sizes {A} (items : list A) (chunk_size : Z) :
  (chunk_size = 0 -> helpers.chunk_list items chunk_size = Raise ValueError)
  /\ (chunk_size < 0 -> helpers.chunk_list items chunk_size = Ok [])
  /\ (0 < chunk_size ->
      exists chunks,
        helpers.chunk_list items chunk_size = Ok chunks
        /\ Z.of_nat (length chunks) = (Z.of_nat (length items) + chunk_size - 1) / chunk_size
        /\ Forall (fun c => 0 < Z.of_nat (length c) <= chunk_size) chunks).
Proof.
  split; [|split].
  - intros ->. reflexivity.
  - intros Hk. unfold helpers.chunk_list.
    rewrite range_nonpositive_step by lia. reflexivity.
  - intros Hk. eexists. split; [apply chunk_list_shape, Hk|].
    set (n := Z.of_nat (length items)).
    destruct (Z.ltb_spec 0 n) as [Hn|Hn].
    + destruct (chunk_count_bounds n chunk_size Hk Hn) as (Hq & Hlo & Hhi).
      set (q := (n - 1) / chunk_size) in *.
      split.
      * unfold Spec.chunks_of. rewrite length_map, length_seq.
        replace (n + chunk_size - 1) with ((n - 1) + 1 * chunk_size) by lia.
        rewrite Z.div_add by lia. fold q. lia.
      * apply List.Forall_forall. intros c Hc.
        apply list_elem_of_In, list_elem_of_lookup in Hc as [i Hi].
        apply chunks_of_lookup in Hi as [Hi ->].
        rewrite length_take, length_drop. subst n. nia.
    + assert (items = []) as -> by (destruct items; [reflexivity | cbn in n; lia]).
      cbn. split; [|constructor].
      symmetry. apply Z.div_small. lia.
Qed.

Lemma chunk_list_sizes_witness :
  helpers.chunk_list [1; 2; 3] (-2) = Ok []
  /\ exists chunks,
       helpers.chunk_list [1; 2; 3; 4; 5] 2 = Ok chunks
       /\ Z.of_nat (length chunks) = (Z.of_nat (length [1; 2; 3; 4; 5]) + 2 - 1) / 2
       /\ Forall (fun c => 0 < Z.of_nat (length c) <= 2) chunks.
Proof.
  split.
  - apply (chunk_list_sizes [1; 2; 3] (-2)). lia.
  - apply (chunk_list_sizes [1; 2; 3; 4; 5] 2). lia.
Defined.

(** ** X8: the separator of the fingerprint is not escaped *)

Lemma string_app_assoc (a b c : string) : ((a ++ b) ++ c = a ++ (b ++ c))%string.
Proof. apply chars_inj. rewrite !chars_app. symmetry. apply app_assoc. Qed.

(** X8. The three fields are joined without escaping the separator: a
    '|' inside a field is indistinguishable from a field boundary, so
    moving the boundary between user agent and IP address, or between IP
    address and device id, leaves the fingerprint unchanged. *)
Theorem fingerprint_separator_shift (a b c d : string) :
  DeviceFingerprintService.calculate_fingerprint (a ++ "|" ++ b) c d
  = DeviceFingerprintService.calculate_fingerprint a (b ++ "|" ++ c) d
  /\ DeviceFingerprintService.calculate_fingerprint a (b ++ "|" ++ c) d
     = DeviceFingerprintService.calculate_fingerprint a b (c ++ "|" ++ d).
Proof.
  rewrite !calculate_fingerprint_sha256, !raw_join.
  split; apply (f_equal sha256.sha256_hex); now rewrite !string_app_assoc.
Qed.

(** ** X9: the device lookup *)

Section device_lookup.
Import login_event.

Lemma insert_desc_In e x l : In x (insert_desc e l) <-> x = e \/ In x l.
Proof.
  induction l as [|y l IH]; cbn.
  - intuition (subst; auto).
  - destruct (timestamp y <? timestamp e); cbn; [|rewrite IH];
      intuition (subst; auto).
Qed.

Lemma order_by_In x l : In x (order_by_timestamp_desc l) <-> In x l.
Proof.
  induction l as [|y l IH]; cbn; [tauto|].
  rewrite insert_desc_In, IH. intuition.
Qed.

(** The head of an insertion is at least as late as every row. *)
Lemma insert_desc_head e l h t :
  (forall first rest, l = first :: rest ->
     forall x, In x l -> timestamp x <= timestamp first) ->
  insert_desc e l = h :: t ->
  forall x, In x (insert_desc e l) -> timestamp x <= timestamp h.
Proof.
  intros Hl Heq x Hx. rewrite Heq in Hx.
  destruct l as [|y l]; cbn in Heq.
  - injection Heq as <- <-. destruct Hx as [<- | []]. lia.
  - specialize (Hl y l eq_refl).
    destruct (Z.ltb_spec (timestamp y) (timestamp e)); injection Heq as <- <-.
    + destruct Hx as [<- | Hx]; [lia|]. specialize (Hl x Hx). lia.
    + destruct Hx as [<- | Hx]; [lia|].
      apply insert_desc_In in Hx as [-> | Hx]; [lia|].
      apply Hl. now right.
Qed.

Lemma order_by_head l :
  forall first rest, order_by_timestamp_desc l = first :: rest ->
    forall x, In x (order_by_timestamp_desc l) -> timestamp x <= timestamp first.
Proof.
  induction l as [|e l IH]; cbn; [discriminate|].
  intros first rest Heq x Hx. now apply (insert_desc_head e _ first rest IH).
Qed.

Lemma order_by_nil l : order_by_timestamp_desc l = [] -> l = [].
Proof.
  destruct l as [|e l]; [reflexivity|]. intros H.
  assert (Hin : In e (order_by_timestamp_desc (e :: l)))
    by (apply order_by_In; now left).
  rewrite H in Hin. destruct Hin.
Qed.
End device_lookup.

(** X9. A device is known exactly when the table can be queried and
    holds a login of this user from this fingerprint whose action is
    "approved" (a pending, denied or MFA-required login does not count);
    the time reported with a known device is the latest such login; an
    unknown device, or an unreachable table, reports no time. *)
Theorem is_device_known_spec (uid fingerprint : string) (db : login_event.Table) :
  let result := login_event.is_device_known uid fingerprint db in
  let matching e :=
    In e (login_event.rows db)
    /\ login_event.user_id e = uid
    /\ login_event.device_fingerprint e = Some fingerprint
    /\ login_event.user_action e = "approved" in
  (fst result = true <-> login_event.reachable db = true /\ exists e, matching e)
  /\ (fst result = true ->
      exists e, matching e /\ snd result = Some (login_event.timestamp e)
                /\ forall e', matching e' -> login_event.timestamp e' <= login_event.timestamp e)
  /\ (fst result = false -> snd result = None).
Proof.
  cbn zeta. unfold login_event.is_device_known.
  assert (Hmatch : forall e,
             In e (List.filter (login_event.approved_from uid fingerprint) (login_event.rows db))
             <-> In e (login_event.rows db)
                 /\ login_event.user_id e = uid
                 /\ login_event.device_fingerprint e = Some fingerprint
                 /\ login_event.user_action e = "approved").
  { intros e. rewrite filter_In. unfold login_event.approved_from.
    rewrite !andb_true_iff, !String.eqb_eq.
    destruct (login_event.device_fingerprint e) as [f|].
    - rewrite String.eqb_eq. split; [intros (? & (? & ->) & ?) | intros (? & ? & [= ->] & ?)];
        auto.
    - split; [intros (? & (? & ?) & ?) | intros (? & ? & ? & ?)]; discriminate. }
  destruct (login_event.reachable db); cbn.
  - set (hits := List.filter _ _) in *.
    destruct (login_event.order_by_timestamp_desc hits) as [|first rest] eqn:Hsorted; cbn.
    + apply order_by_nil in Hsorted.
      split; [|split; [discriminate | reflexivity]].
      split; [discriminate|]. intros [_ [e He]]. apply Hmatch in He.
      rewrite Hsorted in He. destruct He.
    + assert (Hfirst : In first hits)
        by (apply order_by_In; rewrite Hsorted; now left).
      split; [|split; [|discriminate]].
      * split; [|reflexivity]. intros _. split; [reflexivity|].
        exists first. now apply Hmatch.
      * intros _. exists first. split; [now apply Hmatch|]. split; [reflexivity|].
        intros e' He'. apply Hmatch, order_by_In in He'.
        now apply (order_by_head hits first rest Hsorted).
  - split; [|split; [discriminate | reflexivity]].
    split; [discriminate | intros [? _]; discriminate].
Qed.

Lemma is_device_known_spec_witness :
  let db := {| login_event.rows :=
                 [ {| login_event.user_id := "u-1";
                      login_event.device_fingerprint := Some "fp";
                      login_event.user_action := "approved";
                      login_event.timestamp := 10 |};
                   {| login_event.user_id := "u-1";
                      login_event.device_fingerprint := Some "fp";
                      login_event.user_action := "denied";
                      login_event.timestamp := 30 |};
                   {| login_event.user_id := "u-1";
                      login_event.device_fingerprint := Some "fp";
                      login_event.user_action := "approved";
                      login_event.timestamp := 20 |} ];
               login_event.reachable := true |} in
  exists e, snd (login_event.is_device_known "u-1" "fp" db) = Some (login_event.timestamp e)
            /\ login_event.timestamp e = 20.
Proof.
  cbn zeta.
  match goal with |- context [login_event.is_device_known _ _ ?d] => set (db := d) end.
  destruct (is_device_known_spec "u-1" "fp" db) as (_ & Hknown & _).
  destruct (Hknown eq_refl) as (e & _ & Hseen & _).
  exists e. split; [exact Hseen|].
  cbn in Hseen. now injection Hseen as <-.
Defined.

(** ** X10: the ML score handed to the risk assessment *)

Section ml_score_range.
Context {event features : Type}.
Variable extract_features : event -> features.
Local Open Scope Q_scope.

Lemma detect_anomaly_range (self : @AnomalyService.t features) ev :
  (forall lr proba p,
      AnomalyService.logistic_reg self = Some lr ->
      lr (extract_features ev) = Ok proba -> proba !! 1%nat = Some p -> 0 <= p <= 1) ->
  0 <= AnomalyService.detect_anomaly extract_features self ev <= 1.
Proof.
  intros Hp. unfold AnomalyService.detect_anomaly.
  destruct (AnomalyService.is_trained self); [|cbn; lra].
  destruct (AnomalyService.iso_forest self) as [iso|]; [|cbn; lra].
  destruct (AnomalyService.logistic_reg self) as [lr|]; [|cbn; lra].
  destruct (iso (extract_features ev)) as [s|]; [|cbn; lra]. cbn.
  destruct (lr (extract_features ev)) as [proba|] eqn:Hlr; [|cbn; lra]. cbn.
  unfold AnomalyService.index_1.
  destruct (proba !! 1%nat) as [p|] eqn:Hp1; [|cbn; lra]. cbn.
  specialize (Hp lr proba p eq_refl Hlr Hp1).
  pose proof (clamp01_range ((s - - 1.0) / (0.5 - - 1.0))) as Hc. lra.
Qed.
End ml_score_range.

(** X10. [_ml_risk_score] returns the neutral 0.5 when the anomaly
    service is missing or untrained.  Whenever the classifier's
    positive-class probability lies in [0,1], the score it returns lies
    in [0,1], whatever the outlier score is, and the wording that comes
    with it tells its band: "Low" only below 0.3, "High" only from 0.7
    on. *)
Theorem ml_risk_score_range {event features : Type} (extract_features : event -> features)
    (anomaly_service : option (@AnomalyService.t features)) (login_event : event) :
  let result := risk_service._ml_risk_score extract_features anomaly_service login_event in
  ((anomaly_service = None
    \/ exists svc, anomaly_service = Some svc /\ AnomalyService.is_trained svc = false) ->
   fst result = 0.5%Q)
  /\ ((forall svc lr proba p,
          anomaly_service = Some svc -> AnomalyService.logistic_reg svc = Some lr ->
          lr (extract_features login_event) = Ok proba -> proba !! 1%nat = Some p ->
          (0 <= p <= 1)%Q) ->
      (0 <= fst result <= 1)%Q)
  /\ (snd result = "Low anomaly detected" -> (fst result < 0.3)%Q)
  /\ (snd result = "Medium anomaly level" -> (0.3 <= fst result < 0.7)%Q)
  /\ (snd result = "High anomaly detected" -> (0.7 <= fst result)%Q).
Proof.
  cbn zeta. unfold risk_service._ml_risk_score.
  destruct anomaly_service as [svc|]; cbn.
  2: { repeat split; try discriminate; intros; lra. }
  destruct (AnomalyService.is_trained svc) eqn:Ht; cbn.
  2: { repeat split; try discriminate; intros; lra. }
  set (score := AnomalyService.detect_anomaly extract_features svc login_event).
  split; [|split].
  - intros [H | (svc' & [= <-] & H)]; congruence.
  - intros Hp. apply detect_anomaly_range. intros lr proba p. now apply Hp.
  - destruct (Qltb score 0.3) eqn:E1; [apply Qltb_lt in E1 | apply Qltb_ge in E1];
      (destruct (Qltb score 0.7) eqn:E2; [apply Qltb_lt in E2 | apply Qltb_ge in E2]);
      cbn; repeat split; intros; try discriminate; lra.
Qed.

Lemma ml_risk_score_range_witness :
  fst (risk_service._ml_risk_score (fun x : Q => x)
         (Some (AnomalyService.untrained samples.trained_service)) 0.8%Q) = 0.5%Q
  /\ (0 <= fst (risk_service._ml_risk_score (fun x : Q => x)
                  (Some samples.trained_service) 0.8%Q) <= 1)%Q.
Proof.
  split.
  - destruct (ml_risk_score_range (fun x : Q => x)
                (Some (AnomalyService.untrained samples.trained_service)) 0.8%Q) as (Hn & _).
    apply Hn. right. eexists. split; reflexivity.
  - destruct (ml_risk_score_range (fun x : Q => x) (Some samples.trained_service) 0.8%Q)
      as (_ & Hr & _).
    apply Hr. intros svc lr proba p [= <-] [= <-] [= <-] [= <-]. lra.
Defined.

(** ** X11: the dictionary the risk assessment returns *)

Section assess_result.
Variable py_str : pyval -> string.
Variable format_0f : Q -> string.
Local Open Scope Q_scope.

Lemma explanation_starts login_event risk_score behavior_risk ml_explanation
    device_known location_metric :
  exists rest,
    risk_service._generate_explanation py_str format_0f login_event risk_score
      behavior_risk ml_explanation device_known location_metric
    = ((if Qgtb risk_score 0.7 then "High risk login detected."
        else if Qgtb risk_score 0.3 then "Medium risk login detected."
        else "Low risk login.") ++ " " ++ rest)%string.
Proof.
  unfold risk_service._generate_explanation, risk_service.explanation_parts.
  cbn zeta.
  set (sentence := if Qgtb risk_score 0.7 then _ else _).
  set (device := if negb device_known then _ else _).
  rewrite <- !app_assoc. cbn [app String.concat].
  eexists. reflexivity.
Qed.
End assess_result.

(** X11. In the dictionary [assess_login] returns, [mfa_required] is
    true only if the level is not "low", and the level is other than
    "low" with [mfa_required] false exactly when the score equals
    RISK_THRESHOLD_LOW.  The explanation begins with the sentence of the
    score's band, cut at the fixed values 0.3 and 0.7: "High" above 0.7,
    "Medium" above 0.3, "Low" otherwise; so with thresholds 0.3 and 0.7
    it names the band of [risk_level] for every score other than 0.3 and
    0.7 themselves. *)
Theorem assess_login_result_coherent
    (py_str : pyval -> string) (format_0f : Q -> string) (cfg : Settings)
    (login_event : gmap string pyval) (device_fingerprint : string)
    (device_known : bool) (last_seen : option Z)
    (deviation ml_score : Q) (ml_explanation : string) (location_metric : Q) :
  let r := risk_service.assess_login_result py_str format_0f cfg login_event
             device_fingerprint device_known last_seen deviation ml_score
             ml_explanation location_metric in
  let score := RiskAssessmentService.risk_score r in
  let level := RiskAssessmentService.risk_level r in
  let starts sentence :=
    exists rest, RiskAssessmentService.explanation r = (sentence ++ " " ++ rest)%string in
  (RiskAssessmentService.mfa_required r = true -> level <> "low")
  /\ (RiskAssessmentService.mfa_required r = false /\ level <> "low"
      <-> (score == RISK_THRESHOLD_LOW cfg)%Q)
  /\ ((0.7 < score)%Q -> starts "High risk login detected.")
  /\ ((0.3 < score <= 0.7)%Q -> starts "Medium risk login detected.")
  /\ ((score <= 0.3)%Q -> starts "Low risk login.")
  /\ ((RISK_THRESHOLD_LOW cfg == 0.3)%Q -> (RISK_THRESHOLD_HIGH cfg == 0.7)%Q ->
      ~ (score == 0.3)%Q -> ~ (score == 0.7)%Q ->
      (level = "low" /\ starts "Low risk login.")
      \/ (level = "medium" /\ starts "Medium risk login detected.")
      \/ (level = "high" /\ starts "High risk login detected.")).
Proof.
  cbn zeta. unfold risk_service.assess_login_result. cbn.
  set (score := RiskAssessmentService._combine_signals _ _ _ _).
  pose proof (explanation_starts py_str format_0f login_event score
                (RiskAssessmentService._map_deviation_to_risk deviation)
                ml_explanation device_known location_metric) as Hstart.
  assert (Hband : forall sentence,
             (if Qgtb score 0.7 then "High risk login detected."
              else if Qgtb score 0.3 then "Medium risk login detected."
              else "Low risk login.") = sentence ->
             exists rest,
               risk_service._generate_explanation py_str format_0f login_event score
                 (RiskAssessmentService._map_deviation_to_risk deviation)
                 ml_explanation device_known location_metric
               = (sentence ++ " " ++ rest)%string).
  { intros sentence <-. exact Hstart. }
  clear Hstart. unfold RiskAssessmentService._map_score_to_level.
  split; [|split; [|split; [|split; [|split]]]].
  - intros Hm. apply Qgtb_gt in Hm.
    destruct (Qltb score (RISK_THRESHOLD_LOW cfg)) eqn:E1; [apply Qltb_lt in E1; lra|].
    destruct (Qltb score (RISK_THRESHOLD_HIGH cfg)); discriminate.
  - split.
    + intros [Hm Hl]. apply Qgtb_le in Hm.
      destruct (Qltb score (RISK_THRESHOLD_LOW cfg)) eqn:E1; [congruence|].
      apply Qltb_ge in E1. now apply Qle_antisym.
    + intros Heq. split; [apply Qgtb_le; lra|].
      destruct (Qltb score (RISK_THRESHOLD_LOW cfg)) eqn:E1; [apply Qltb_lt in E1; lra|].
      destruct (Qltb score (RISK_THRESHOLD_HIGH cfg)); discriminate.
  - intros H. apply Hband. apply Qgtb_gt in H. now rewrite H.
  - intros [H3 H7]. apply Hband. apply Qgtb_gt in H3. apply Qgtb_le in H7.
    now rewrite H7, H3.
  - intros H. apply Hband.
    assert (H7 : (score <= 0.7)%Q) by lra.
    apply Qgtb_le in H, H7. now rewrite H7, H.
  - intros HL HH H3 H7.
    destruct (Qltb score (RISK_THRESHOLD_LOW cfg)) eqn:E1;
      [apply Qltb_lt in E1 | apply Qltb_ge in E1].
    + left. split; [reflexivity|]. apply Hband.
      assert (G3 : (score <= 0.3)%Q) by lra. assert (G7 : (score <= 0.7)%Q) by lra.
      apply Qgtb_le in G3, G7. now rewrite G7, G3.
    + assert (G3 : (0.3 < score)%Q).
      { destruct (Qlt_le_dec 0.3 score) as [?|Hle]; [assumption|].
        exfalso. apply H3. apply Qle_antisym; lra. }
      destruct (Qltb score (RISK_THRESHOLD_HIGH cfg)) eqn:E2;
        [apply Qltb_lt in E2 | apply Qltb_ge in E2].
      * right; left. split; [reflexivity|]. apply Hband.
        assert (G7 : (score <= 0.7)%Q) by lra.
        apply Qgtb_gt in G3. apply Qgtb_le in G7. now rewrite G7, G3.
      * right; right. split; [reflexivity|]. apply Hband.
        assert (G7 : (0.7 < score)%Q).
        { destruct (Qlt_le_dec 0.7 score) as [?|Hle]; [assumption|].
          exfalso. apply H7. apply Qle_antisym; lra. }
        apply Qgtb_gt in G7. now rewrite G7.
Qed.

Lemma assess_login_result_coherent_witness :
  let r := risk_service.assess_login_result (fun _ => "?") (fun _ => "?") samples.cfg ∅
             "fp" true None 1 0 "Low anomaly detected" 500 in
  (RiskAssessmentService.mfa_required r = false
   /\ RiskAssessmentService.risk_level r <> "low")
  /\ exists rest, RiskAssessmentService.explanation r = ("Low risk login." ++ " " ++ rest)%string.
Proof.
  cbn zeta.
  destruct (assess_login_result_coherent (fun _ => "?") (fun _ => "?") samples.cfg ∅
              "fp" true None 1 0 "Low anomaly detected" 500)
    as (_ & Hedge & _ & _ & Hlow & _).
  split.
  - apply Hedge. vm_compute. reflexivity.
  - apply Hlow. vm_compute. discriminate.
Defined.

(** ** X12: the GeoIP cache *)

Section geo_cache.
Import risk_service.
Local Open Scope Q_scope.

Lemma resolve_cached geoip now later ip location expiry
    (cache : gmap string (option string * Q)) :
  ip <> EmptyString -> ip ∉ _LOCALHOST_ADDRESSES ->
  cache !! ip = Some (location, expiry) -> now < expiry ->
  resolve_ip_location geoip now later ip cache = (location, cache).
Proof.
  intros Hne Hlocal Hhit Hfresh. unfold resolve_ip_location.
  destruct ip as [|c ip']; [contradiction|].
  rewrite bool_decide_eq_false_2 by assumption.
  rewrite Hhit. apply Qltb_lt in Hfresh. now rewrite Hfresh.
Qed.

Lemma resolve_empty geoip now later (cache : gmap string (option string * Q)) :
  resolve_ip_location geoip now later EmptyString cache = (None, cache).
Proof. reflexivity. Qed.

Lemma resolve_localhost geoip now later ip (cache : gmap string (option string * Q)) :
  ip ∈ _LOCALHOST_ADDRESSES ->
  resolve_ip_location geoip now later ip cache = (Some "Localhost", cache).
Proof.
  intros Hlocal. unfold resolve_ip_location.
  destruct ip;
    [apply (bool_decide_eq_true_2 _) in Hlocal; vm_compute in Hlocal; discriminate|].
  now rewrite bool_decide_eq_true_2.
Qed.

Lemma resolve_absent geoip now later ip (cache : gmap string (option string * Q)) :
  ip <> EmptyString -> ip ∉ _LOCALHOST_ADDRESSES -> cache !! ip = None ->
  let found := try_except (record ← geoip ip; Ok (location_of record)) None in
  resolve_ip_location geoip now later ip cache
  = (found, <[ip := (found, later + _GEO_CACHE_TTL)]> cache).
Proof.
  intros Hne Hlocal Hmiss. unfold resolve_ip_location.
  destruct ip as [|c ip']; [contradiction|].
  rewrite bool_decide_eq_false_2 by assumption. now rewrite Hmiss.
Qed.

Lemma resolve_expired geoip now later ip location expiry
    (cache : gmap string (option string * Q)) :
  ip <> EmptyString -> ip ∉ _LOCALHOST_ADDRESSES ->
  cache !! ip = Some (location, expiry) -> expiry <= now ->
  let found := try_except (record ← geoip ip; Ok (location_of record)) None in
  resolve_ip_location geoip now later ip cache
  = (found, <[ip := (found, later + _GEO_CACHE_TTL)]> (delete ip cache)).
Proof.
  intros Hne Hlocal Hhit Hold. unfold resolve_ip_location.
  destruct ip as [|c ip']; [contradiction|].
  rewrite bool_decide_eq_false_2 by assumption.
  rewrite Hhit. apply Qltb_ge in Hold. now rewrite Hold.
Qed.
End geo_cache.

(** X12. [resolve_ip_location] answers [None] for an empty address and
    "Localhost" for a loopback address without touching the cache.  For
    any other address it leaves the entries of all other addresses
    alone and leaves an entry for this address holding the answer it
    returned, also when the lookup failed and the answer is [None]; until
    that entry expires, every further call for the address returns the
    same answer from the cache, whatever the GeoIP database would now
    say.  An entry created by a lookup expires 3600 seconds after it was
    stored. *)
Theorem resolve_ip_location_cache
    (geoip : string -> exn risk_service.GeoRecord) (now later : Q)
    (ip_address : string) (cache : gmap string (option string * Q)) :
  let result := risk_service.resolve_ip_location geoip now later ip_address cache in
  let special := ip_address = EmptyString \/ ip_address ∈ risk_service._LOCALHOST_ADDRESSES in
  (ip_address = EmptyString -> result = (None, cache))
  /\ (ip_address ∈ risk_service._LOCALHOST_ADDRESSES -> result = (Some "Localhost", cache))
  /\ (forall other, other <> ip_address -> snd result !! other = cache !! other)
  /\ (~ special ->
      exists expiry,
        snd result !! ip_address = Some (fst result, expiry)
        /\ forall geoip' now' later',
             (now' < expiry)%Q ->
             risk_service.resolve_ip_location geoip' now' later' ip_address (snd result)
             = result)
  /\ (~ special ->
      (forall location expiry, cache !! ip_address = Some (location, expiry) ->
                               (expiry <= now)%Q) ->
      snd result !! ip_address
      = Some (fst result, (later + risk_service._GEO_CACHE_TTL)%Q)).
Proof.
  cbn zeta.
  split; [intros ->; apply resolve_empty|].
  split; [apply resolve_localhost|].
  destruct (decide (ip_address = EmptyString)) as [->|Hne].
  { rewrite resolve_empty. split; [reflexivity|].
    split; intros Hs; exfalso; apply Hs; now left. }
  destruct (decide (ip_address ∈ risk_service._LOCALHOST_ADDRESSES)) as [Hl|Hl].
  { rewrite resolve_localhost by assumption. split; [reflexivity|].
    split; intros Hs; exfalso; apply Hs; now right. }
  destruct (cache !! ip_address) as [[location expiry]|] eqn:Hhit.
  - destruct (Qlt_le_dec now expiry) as [Hfresh|Hold].
    + rewrite (resolve_cached geoip now later ip_address location expiry cache) by assumption.
      cbn [fst snd]. split; [reflexivity|]. split.
      * intros _. exists expiry. split; [assumption|].
        intros. now apply (resolve_cached _ _ _ _ location expiry).
      * intros _ Hall. specialize (Hall _ _ eq_refl). exfalso. lra.
    + rewrite (resolve_expired geoip now later ip_address location expiry cache)
        by assumption.
      cbn zeta. cbn [fst snd].
      split; [intros other Ho; rewrite lookup_insert_ne by congruence;
              now rewrite lookup_delete_ne by congruence|].
      split; intros _.
      * eexists. split; [apply lookup_insert_eq|].
        intros. eapply resolve_cached;
          [assumption | assumption | apply lookup_insert_eq | assumption].
      * intros _. apply lookup_insert_eq.
  - rewrite (resolve_absent geoip now later ip_address cache) by assumption.
    cbn zeta. cbn [fst snd].
    split; [intros other Ho; now rewrite lookup_insert_ne by congruence|].
    split; intros _.
    + eexists. split; [apply lookup_insert_eq|].
      intros. eapply resolve_cached;
          [assumption | assumption | apply lookup_insert_eq | assumption].
    + intros _. apply lookup_insert_eq.
Qed.

Lemma resolve_ip_location_cache_witness :
  let failing := fun _ : string => @Raise risk_service.GeoRecord OtherError in
  let answering := fun _ : string =>
    Ok {| risk_service.city_name := Some "Paris";
          risk_service.subdivisions := [Some "IDF"];
          risk_service.country_iso_code := Some "FR" |} in
  let first := risk_service.resolve_ip_location failing 0 1 "203.0.113.9" ∅ in
  fst first = None
  /\ risk_service.resolve_ip_location answering 3000 3001 "203.0.113.9" (snd first) = first
  /\ fst (risk_service.resolve_ip_location answering 3601 3602 "203.0.113.9" (snd first))
     = Some "Paris, IDF".
Proof.
  cbn zeta. split; [reflexivity|]. split; [|reflexivity].
  destruct (resolve_ip_location_cache (fun _ => Raise OtherError) 0 1 "203.0.113.9" ∅)
    as (_ & _ & _ & Hcached & Hstored).
  assert (Hs : ~ ("203.0.113.9" = EmptyString
                  \/ "203.0.113.9" ∈ risk_service._LOCALHOST_ADDRESSES)).
  { intros [H|H]; [discriminate|].
    apply (bool_decide_eq_true_2 _) in H. vm_compute in H. discriminate. }
  destruct (Hcached Hs) as (expiry & Hentry & Hagain).
  apply Hagain.
  rewrite Hstored in Hentry; [|assumption | intros ? ? H; discriminate H].
  injection Hentry as <-. vm_compute. reflexivity.
Defined.

(** ** X13: batch scoring against single-event scoring *)

Section batch.
Context {event features : Type}.
Variable extract_features : event -> features.
Import anomaly_service.
Local Open Scope Q_scope.

Lemma on_rows_length {A B} (f : A -> exn B) rows ys :
  on_rows f rows = Ok ys -> length ys = length rows.
Proof.
  revert ys. induction rows as [|x rows IH]; intros ys; cbn.
  - now intros [= <-].
  - destruct (f x) as [y|]; [|discriminate]. cbn.
    destruct (on_rows f rows) as [ys'|]; [|discriminate]. cbn.
    intros [= <-]. cbn. f_equal. now apply IH.
Qed.

Lemma on_rows_In {A B} (f : A -> exn B) rows ys x :
  on_rows f rows = Ok ys -> In x rows -> exists y, f x = Ok y /\ In y ys.
Proof.
  revert ys. induction rows as [|x' rows IH]; intros ys; cbn; [intros _ []|].
  destruct (f x') as [y|] eqn:Hx; [|discriminate]. cbn.
  destruct (on_rows f rows) as [ys'|]; [|discriminate]. cbn.
  intros [= <-] [<- | Hin].
  - exists y. split; [assumption | now left].
  - destruct (IH ys' eq_refl Hin) as (y' & ? & ?). exists y'. split; [assumption | now right].
Qed.

Lemma np_clip_py x : np_clip x 0.0 1.0 == py_max 0.0 (py_min 1.0 x).
Proof.
  unfold np_clip. rewrite py_max_Qmax, py_min_Qmin.
  pose proof (Q.max_spec x 0.0) as H1.
  pose proof (Q.min_spec (Qmax x 0.0) 1.0) as H2.
  pose proof (Q.min_spec 1.0 x) as H3.
  pose proof (Q.max_spec 0.0 (Qmin 1.0 x)) as H4.
  destruct H1 as [[? ?]|[? ?]], H2 as [[? ?]|[? ?]], H3 as [[? ?]|[? ?]],
    H4 as [[? ?]|[? ?]]; lra.
Qed.

Variable self : @AnomalyService.t features.
Variable iso : @AnomalyService.IsolationForest features.
Variable lr : @AnomalyService.LogisticRegression features.
Hypothesis Htrained : AnomalyService.is_trained self = true.
Hypothesis Hiso : AnomalyService.iso_forest self = Some iso.
Hypothesis Hlr : AnomalyService.logistic_reg self = Some lr.

Let scores := scorable extract_features iso lr.

Lemma batch_rows_ok events :
  Forall scores events ->
  exists ss probas ps,
    on_rows iso (map extract_features events) = Ok ss
    /\ on_rows lr (map extract_features events) = Ok probas
    /\ on_rows AnomalyService.index_1 probas = Ok ps
    /\ Forall2 Qeq
         (zip_with (fun l i => (0.5 * l) + (0.5 * i)) ps
            (map (fun x => np_clip x 0.0 1.0)
               (map (fun s => (s - (-1.0)) / (0.5 - (-1.0))) ss)))
         (map (AnomalyService.detect_anomaly extract_features self) events).
Proof using All.
  induction 1 as [|ev events (s & proba & p & Hs & Hp & Hp1) _ IH].
  - exists [], [], []. repeat split. constructor.
  - destruct IH as (ss & probas & ps & Hss & Hprobas & Hps & Hall).
    assert (Hi1 : AnomalyService.index_1 proba = Ok p)
      by (unfold AnomalyService.index_1; now rewrite Hp1).
    exists (s :: ss), (proba :: probas), (p :: ps). cbn.
    rewrite Hs, Hp, Hss, Hprobas, Hi1. cbn. rewrite Hps. cbn.
    repeat split. constructor; [|exact Hall].
    unfold AnomalyService.detect_anomaly. rewrite Htrained, Hiso, Hlr, Hs. cbn.
    rewrite Hp. cbn. rewrite Hi1. cbn.
    now rewrite np_clip_py.
Qed.

Lemma batch_detect_all_score events :
  Forall scores events ->
  Forall2 Qeq (batch_detect extract_features self events)
              (map (AnomalyService.detect_anomaly extract_features self) events).
Proof using All.
  intros Hall. destruct (batch_rows_ok events Hall) as (ss & probas & ps & H1 & H2 & H3 & H).
  unfold batch_detect. rewrite Htrained, Hiso, Hlr. cbn.
  rewrite H1. cbn. rewrite H2. cbn. rewrite H3. cbn. exact H.
Qed.

Lemma batch_detect_one_fails events ev :
  In ev events -> ~ scores ev ->
  batch_detect extract_features self events = neutral events.
Proof using All.
  intros Hin Hbad. unfold batch_detect. rewrite Htrained, Hiso, Hlr. cbn.
  destruct (on_rows iso (map extract_features events)) as [ss|] eqn:H1; [|reflexivity]. cbn.
  destruct (on_rows lr (map extract_features events)) as [probas|] eqn:H2; [|reflexivity]. cbn.
  destruct (on_rows AnomalyService.index_1 probas) as [ps|] eqn:H3; [|reflexivity]. cbn.
  exfalso. apply Hbad.
  assert (Hx : In (extract_features ev) (map extract_features events)) by now apply in_map.
  destruct (on_rows_In _ _ _ _ H1 Hx) as (s & Hs & _).
  destruct (on_rows_In _ _ _ _ H2 Hx) as (proba & Hp & Hpin).
  destruct (on_rows_In _ _ _ _ H3 Hpin) as (p & Hp1 & _).
  exists s, proba, p. repeat split; try assumption.
  unfold AnomalyService.index_1 in Hp1. now destruct (proba !! 1%nat); [injection Hp1 as -> |].
Qed.

Lemma batch_detect_length events :
  length (batch_detect extract_features self events) = length events.
Proof using All.
  unfold batch_detect. rewrite Htrained, Hiso, Hlr. cbn.
  assert (Hn : length (neutral events) = length events)
    by (unfold neutral; apply length_replicate).
  destruct (on_rows iso (map extract_features events)) as [ss|] eqn:H1; [|exact Hn]. cbn.
  destruct (on_rows lr (map extract_features events)) as [probas|] eqn:H2; [|exact Hn]. cbn.
  destruct (on_rows AnomalyService.index_1 probas) as [ps|] eqn:H3; [|exact Hn]. cbn.
  apply on_rows_length in H1, H2, H3.
  rewrite length_zip_with, !length_map, H3, H2, H1, !length_map. lia.
Qed.
End batch.

(** X13. [batch_detect] always returns one score per event.  An
    untrained service scores every event 0.5, as single-event scoring
    does.  When a trained service can score every event of the batch,
    the batch scores are those of single-event scoring, event by event.
    But when one event of the batch cannot be scored (an estimator raises
    on it, or its probabilities lack the positive class), every event of
    the batch is scored 0.5, also those that single-event scoring
    scores. *)
Theorem batch_detect_spec {event features : Type} (extract_features : event -> features)
    (self : @AnomalyService.t features) (login_events : list event) :
  let batch := anomaly_service.batch_detect extract_features self login_events in
  let single := AnomalyService.detect_anomaly extract_features self in
  length batch = length login_events
  /\ (AnomalyService.is_trained self = false ->
      batch = anomaly_service.neutral login_events /\ batch = map single login_events)
  /\ (forall iso lr,
        AnomalyService.is_trained self = true ->
        AnomalyService.iso_forest self = Some iso ->
        AnomalyService.logistic_reg self = Some lr ->
        (Forall (anomaly_service.scorable extract_features iso lr) login_events ->
         Forall2 Qeq batch (map single login_events))
        /\ (forall ev, In ev login_events ->
                       ~ anomaly_service.scorable extract_features iso lr ev ->
                       batch = anomaly_service.neutral login_events)).
Proof.
  cbn zeta.
  assert (Hn : length (anomaly_service.neutral login_events) = length login_events)
    by (unfold anomaly_service.neutral; apply length_replicate).
  split; [|split].
  - destruct (AnomalyService.is_trained self) eqn:Ht.
    + destruct (AnomalyService.iso_forest self) as [iso|] eqn:Hi.
      * destruct (AnomalyService.logistic_reg self) as [lr|] eqn:Hl.
        -- now apply (batch_detect_length extract_features self iso lr).
        -- unfold anomaly_service.batch_detect. rewrite Ht, Hi, Hl. cbn.
           destruct (anomaly_service.on_rows iso _); exact Hn.
      * unfold anomaly_service.batch_detect. rewrite Ht, Hi. exact Hn.
    + unfold anomaly_service.batch_detect. rewrite Ht. exact Hn.
  - intros Ht. unfold anomaly_service.batch_detect. rewrite Ht. cbn.
    split; [reflexivity|]. unfold anomaly_service.neutral.
    induction login_events as [|ev evs IH]; [reflexivity|]. cbn.
    rewrite (detect_anomaly_untrained extract_features self ev Ht). f_equal.
    apply IH. unfold anomaly_service.neutral. apply length_replicate.
  - intros iso lr Ht Hi Hl. split.
    + now apply batch_detect_all_score.
    + intros ev Hin Hbad.
      now apply (batch_detect_one_fails extract_features self iso lr Ht Hi Hl _ ev).
Qed.

Lemma batch_detect_spec_witness :
  Forall2 Qeq
    (anomaly_service.batch_detect (fun x : Q => x) samples.trained_service [0.8; 0.4]%Q)
    (map (AnomalyService.detect_anomaly (fun x : Q => x) samples.trained_service)
         [0.8; 0.4]%Q)
  /\ anomaly_service.batch_detect (fun x : Q => x) samples.unfitted_service [0.8; 0.4]%Q
     = [0.5; 0.5]%Q.
Proof.
  split.
  - destruct (batch_detect_spec (fun x : Q => x) samples.trained_service [0.8; 0.4]%Q)
      as (_ & _ & Htrained).
    apply (Htrained samples.iso samples.lr eq_refl eq_refl eq_refl).
    repeat constructor; eexists _, _, _; repeat split; reflexivity.
  - destruct (batch_detect_spec (fun x : Q => x) samples.unfitted_service [0.8; 0.4]%Q)
      as (_ & _ & Htrained).
    apply (Htrained AnomalyService.unfitted_iso AnomalyService.unfitted_lr
                    eq_refl eq_refl eq_refl) with (ev := 0.8%Q).
    + now left.
    + intros (s & proba & p & Hs & _). discriminate Hs.
Defined.

(** ** X14: loading the model artifacts *)

(** X14. [load_models] returns the trained flag it leaves on the
    service, and that flag is set exactly when both artifact files exist
    and load; the service then holds the two loaded estimators.  In every
    other case single-event scoring answers 0.5 afterwards; and when only
    one file exists (and loads), the estimator loaded from it is
    replaced, together with the other, by an unfitted one. *)
Theorem load_models_spec {event features : Type} (extract_features : event -> features)
    (fs : @AnomalyService.artifacts features) (self : @AnomalyService.t features) :
  let self' := fst (AnomalyService.load_models fs self) in
  let ok := snd (AnomalyService.load_models fs self) in
  ok = AnomalyService.is_trained self'
  /\ (ok = true <->
      exists iso lr, AnomalyService.iso_file fs = Some (Ok iso)
                     /\ AnomalyService.lr_file fs = Some (Ok lr))
  /\ (forall iso lr,
        AnomalyService.iso_file fs = Some (Ok iso) ->
        AnomalyService.lr_file fs = Some (Ok lr) ->
        AnomalyService.iso_forest self' = Some iso
        /\ AnomalyService.logistic_reg self' = Some lr)
  /\ (ok = false ->
      forall ev, AnomalyService.detect_anomaly extract_features self' ev = 0.5%Q)
  /\ (forall loaded,
        (AnomalyService.iso_file fs = Some (Ok loaded) /\ AnomalyService.lr_file fs = None) ->
        AnomalyService.iso_forest self' = Some AnomalyService.unfitted_iso
        /\ AnomalyService.logistic_reg self' = Some AnomalyService.unfitted_lr).
Proof.
  cbn zeta. unfold AnomalyService.load_models.
  destruct (AnomalyService.iso_file fs) as [[iso|e]|],
           (AnomalyService.lr_file fs) as [[lr|e']|]; cbn;
    (split; [reflexivity|]);
    (split; [split; [intros Hok; try discriminate Hok; eauto
                    | intros (i & l & Hi & Hl); try discriminate; reflexivity]|]);
    (split; [intros i l Hi Hl; try discriminate; injection Hi as <-; injection Hl as <-;
             split; reflexivity|]);
    (split; [intros Hok ev; try discriminate Hok;
             first [reflexivity | apply detect_anomaly_untrained; reflexivity]|]);
    intros loaded [Hi Hl]; try discriminate; split; reflexivity.
Qed.

Lemma load_models_spec_witness :
  let only_iso := {| AnomalyService.iso_file := Some (Ok samples.iso);
                     AnomalyService.lr_file := None |} in
  AnomalyService.iso_forest
    (fst (AnomalyService.load_models only_iso
            {| AnomalyService.iso_forest := None; AnomalyService.logistic_reg := None;
               AnomalyService.is_trained := false |}))
  = Some AnomalyService.unfitted_iso
  /\ AnomalyService.detect_anomaly (fun x : Q => x)
       (fst (AnomalyService.load_models only_iso
               {| AnomalyService.iso_forest := None; AnomalyService.logistic_reg := None;
                  AnomalyService.is_trained := false |})) 0.8%Q
     = 0.5%Q.
Proof.
  cbn zeta.
  destruct (load_models_spec (fun x : Q => x)
              {| AnomalyService.iso_file := Some (Ok samples.iso);
                 AnomalyService.lr_file := None |}
              {| AnomalyService.iso_forest := None; AnomalyService.logistic_reg := None;
                 AnomalyService.is_trained := false |})
    as (_ & _ & _ & Hneutral & Hhalf).
  split.
  - now apply (Hhalf samples.iso).
  - now apply Hneutral.
Defined.

(** ** X15: no method call revives a session *)

Section session_calls_facts.
Import session_calls.

Lemma perform_expires_at c s : session.expires_at (perform s c) = session.expires_at s.
Proof. now destruct c. Qed.

Lemma perform_valid now c s :
  session.is_valid now (perform s c) = true ->
  session.is_valid now s = true /\ is_refresh c.
Proof.
  destruct c; unfold session.is_valid; cbn; try discriminate.
  intros H. now split.
Qed.

Lemma perform_all_valid now calls s :
  session.is_valid now (perform_all calls s) = true ->
  session.is_valid now s = true /\ Forall is_refresh calls.
Proof.
  revert s. induction calls as [|c calls IH]; intros s; cbn.
  - intros ->. split; [reflexivity | constructor].
  - intros H. apply IH in H as [H Hall]. apply perform_valid in H as [H Hc].
    split; [assumption | now constructor].
Qed.
End session_calls_facts.

(** X15. No sequence of [revoke], [invalidate] and [refresh_activity]
    calls makes a session valid that was not: if the session is valid
    after the calls, it was valid before them and every call was a
    [refresh_activity].  No call moves the expiry time, and a session
    valid at some time is valid at every earlier time. *)
Theorem session_never_revived (calls : list session_calls.call) (s : session.Session) (now : Z) :
  (session.is_valid now (session_calls.perform_all calls s) = true ->
   session.is_valid now s = true /\ Forall session_calls.is_refresh calls)
  /\ session.expires_at (session_calls.perform_all calls s) = session.expires_at s
  /\ (forall earlier, earlier <= now -> session.is_valid now s = true ->
                      session.is_valid earlier s = true).
Proof.
  split; [apply perform_all_valid|]. split.
  - revert s. induction calls as [|c calls IH]; intros s; cbn; [reflexivity|].
    unfold session_calls.perform_all in IH. rewrite IH. apply perform_expires_at.
  - intros earlier Hle. rewrite !session_is_valid_iff. intros (? & ? & ?).
    repeat split; try assumption. lia.
Qed.

Lemma session_never_revived_witness :
  session.is_valid 5 (session.new_session "jti-1" 900 0) = true
  /\ Forall session_calls.is_refresh [session_calls.RefreshActivity 50].
Proof.
  destruct (session_never_revived [session_calls.RefreshActivity 50]
              (session.new_session "jti-1" 900 0) 100) as (Hvalid & _ & Hearlier).
  destruct (Hvalid eq_refl) as [Hbefore Hcalls]. split; [|exact Hcalls].
  apply Hearlier; [lia | exact Hbefore].
Defined.

(** ** X16: revoking all the sessions of a user *)

Section revoke_all.
Import sessions_router.

Lemma revoke_selected_spec select clock count table :
  let '(table', n) := revoke_selected select clock count table in
  n = (count + length (List.filter select table))%nat
  /\ Forall2 (fun r r' =>
                if select r
                then exists t, r' = (fst r, session.revoke t (snd r))
                else r' = r) table table'.
Proof.
  revert count. induction table as [|r rest IH]; intros count; cbn.
  - split; [lia | constructor].
  - destruct (select r) eqn:Hsel.
    + specialize (IH (S count)).
      destruct (revoke_selected select clock (S count) rest) as [rest' n].
      destruct IH as [-> Hall]. split; [cbn; lia|].
      constructor; [|exact Hall]. rewrite Hsel. now eexists.
    + specialize (IH count).
      destruct (revoke_selected select clock count rest) as [rest' n].
      destruct IH as [-> Hall]. split; [reflexivity|].
      constructor; [|exact Hall]. now rewrite Hsel.
Qed.

Lemma revoked_row_not_selected uid current_jti (r : row) t :
  other_active uid current_jti (fst r, session.revoke t (snd r)) = false.
Proof. unfold other_active. cbn. now rewrite andb_false_r. Qed.

Lemma revoke_selected_none select clock count table :
  Forall (fun r => select r = false) table ->
  revoke_selected select clock count table = (table, count).
Proof.
  induction 1 as [|r rest Hr _ IH]; cbn; [reflexivity|]. now rewrite Hr, IH.
Qed.
End revoke_all.

(** X16. [revoke_all_sessions] reports as its count the number of the
    user's sessions that had the active flag set and were not the
    current one, and changes exactly those rows, by revoking them.
    Afterwards every session of the user other than the current one is
    invalid at every time, the rows of other users and the current
    session are as before, and a second call finds nothing to revoke.
    Without a current session (no [jti] could be read from the token)
    the user is left with no active session at all. *)
Theorem revoke_all_sessions_spec
    (uid : string) (current_jti : option string) (clock : nat -> Z)
    (table : list sessions_router.row) :
  let table' := fst (sessions_router.revoke_all_sessions uid current_jti clock table) in
  let count := snd (sessions_router.revoke_all_sessions uid current_jti clock table) in
  let selected := sessions_router.other_active uid current_jti in
  count = length (List.filter selected table)
  /\ Forall2 (fun r r' =>
                if selected r
                then exists t, r' = (fst r, session.revoke t (snd r))
                else r' = r) table table'
  /\ (forall r now,
        In r table' -> fst r = uid ->
        (forall j, current_jti = Some j -> session.jti (snd r) <> j) ->
        session.is_valid now (snd r) = false)
  /\ (forall clock', sessions_router.revoke_all_sessions uid current_jti clock' table'
                     = (table', 0%nat))
  /\ (current_jti = None ->
      sessions_router.has_active_sessions (sessions_router.sessions_of uid table') = false).
Proof.
  cbn zeta. unfold sessions_router.revoke_all_sessions.
  pose proof (revoke_selected_spec (sessions_router.other_active uid current_jti)
                clock 0 table) as Hspec.
  destruct (sessions_router.revoke_selected _ clock 0 table) as [table' n].
  destruct Hspec as [-> Hrows]. cbn [fst snd].
  assert (Hnone : Forall (fun r => sessions_router.other_active uid current_jti r = false)
                         table').
  { clear -Hrows. induction Hrows as [|r r' rest rest' Hr _ IH]; constructor; [|exact IH].
    destruct (sessions_router.other_active uid current_jti r) eqn:Hsel.
    - destruct Hr as [t ->]. apply revoked_row_not_selected.
    - now subst. }
  split; [reflexivity|]. split; [exact Hrows|]. split; [|split].
  - intros r now Hin Huid Hjti.
    rewrite List.Forall_forall in Hnone. specialize (Hnone r Hin).
    unfold sessions_router.other_active in Hnone.
    apply not_true_iff_false. rewrite session_is_valid_iff. intros (Hact & _ & _).
    rewrite Huid, String.eqb_refl, Hact in Hnone. cbn in Hnone.
    destruct current_jti as [j|]; [|discriminate].
    apply negb_false_iff, String.eqb_eq in Hnone. now apply (Hjti j).
  - intros clock'. now apply revoke_selected_none.
  - intros ->. unfold sessions_router.has_active_sessions, sessions_router.sessions_of.
    apply not_true_iff_false. rewrite existsb_exists. intros (s & Hin & Hact).
    apply in_map_iff in Hin as (r & <- & Hin). apply filter_In in Hin as [Hin Huid].
    rewrite List.Forall_forall in Hnone. specialize (Hnone r Hin).
    unfold sessions_router.other_active in Hnone.
    rewrite Huid, Hact in Hnone. discriminate.
Qed.

Lemma revoke_all_sessions_spec_witness :
  let table := [("u-1", session.new_session "jti-a" 900 0);
                ("u-1", session.new_session "jti-b" 900 0);
                ("u-2", session.new_session "jti-c" 900 0)] in
  session.is_valid 10
    (session.revoke 7 (session.new_session "jti-b" 900 0)) = false
  /\ sessions_router.has_active_sessions
       (sessions_router.sessions_of "u-1"
          (fst (sessions_router.revoke_all_sessions "u-1" None (fun _ => 7) table)))
     = false.
Proof.
  cbn zeta. split.
  - match goal with |- context [session.is_valid _ ?s] =>
      change s with (snd ("u-1", s)) end.
    destruct (revoke_all_sessions_spec "u-1" (Some "jti-a") (fun _ => 7)
                [("u-1", session.new_session "jti-a" 900 0);
                 ("u-1", session.new_session "jti-b" 900 0);
                 ("u-2", session.new_session "jti-c" 900 0)]) as (_ & _ & Hinvalid & _).
    apply Hinvalid.
    + cbn. right. now left.
    + reflexivity.
    + intros j [= <-]. discriminate.
  - destruct (revoke_all_sessions_spec "u-1" None (fun _ => 7)
                [("u-1", session.new_session "jti-a" 900 0);
                 ("u-1", session.new_session "jti-b" 900 0);
                 ("u-2", session.new_session "jti-c" 900 0)]) as (_ & _ & _ & _ & Hnone).
    now apply Hnone.
Defined.

(** ** X17: when the adaptive MFA engine blocks *)



(** ** X18, X19: the login response *)

Section login_response.
Import AdaptiveMFARouter.

(** The condition under which tokens are issued at once. *)
Lemma direct_branch (a : RiskBasedAdaptiveMFA.Assessment) (u : user.User) :
  String.eqb (RiskBasedAdaptiveMFA.a_risk_level a) "low" && negb (user.mfa_enabled u) = true
  <-> RiskBasedAdaptiveMFA.a_risk_level a = "low" /\ user.mfa_enabled u = false.
Proof. now rewrite andb_true_iff, String.eqb_eq, negb_true_iff. Qed.

Lemma login_response_succeeds auth a u :
  succeeds auth -> exists r, snd (get_login_response auth a u) = Ok r.
Proof.
  intros (Hacc & Href & Hmfa & Hses). unfold get_login_response.
  destruct (_ && _).
  - destruct (Hacc (user.id u)) as [[[t1 j1] e1] ->].
    destruct (Href (user.id u)) as [[[t2 j2] e2] ->].
    match goal with |- context [create_session auth ?x] =>
      destruct (Hses x) as [v1 ->] end.
    match goal with |- context [create_session auth ?x] =>
      destruct (Hses x) as [v2 ->] end.
    now eexists.
  - destruct (Hmfa (user.id u)) as [[[t j] e] ->].
    match goal with |- context [create_session auth ?x] =>
      destruct (Hses x) as [v ->] end.
    now eexists.
Qed.

Lemma login_response_direct auth a u r :
  RiskBasedAdaptiveMFA.a_risk_level a = "low" -> user.mfa_enabled u = false ->
  snd (get_login_response auth a u) = Ok r ->
  (exists t, access_token r = Some t) /\ (exists t, refresh_token r = Some t)
  /\ mfa_token r = None /\ mfa_required r = false
  /\ r_blocked r = None /\ r_block_reason r = None
  /\ instructions r = "Welcome back!"
  /\ map s_token_type (fst (get_login_response auth a u)) = ["access"; "refresh"].
Proof.
  intros Hl Hm. unfold get_login_response.
  rewrite (proj2 (direct_branch a u) (conj Hl Hm)).
  destruct (create_access_token auth (user.id u)) as [[[t1 j1] e1]|]; [|discriminate].
  destruct (create_refresh_token auth (user.id u)) as [[[t2 j2] e2]|]; [|discriminate].
  destruct (create_session auth _); [|discriminate].
  destruct (create_session auth _); [|discriminate].
  cbn. intros [= <-]. cbn. eauto 10.
Qed.

Lemma login_response_mfa auth a u r :
  ~ (RiskBasedAdaptiveMFA.a_risk_level a = "low" /\ user.mfa_enabled u = false) ->
  snd (get_login_response auth a u) = Ok r ->
  access_token r = None /\ refresh_token r = None
  /\ (exists t, mfa_token r = Some t) /\ mfa_required r = true
  /\ r_blocked r = (if RiskBasedAdaptiveMFA.blocked a then Some true else None)
  /\ r_block_reason r = (if RiskBasedAdaptiveMFA.blocked a
                         then Some (RiskBasedAdaptiveMFA.block_reason a) else None)
  /\ instructions r = _get_instructions a
  /\ map s_token_type (fst (get_login_response auth a u)) = ["mfa"].
Proof.
  intros Hn. unfold get_login_response.
  destruct (_ && _) eqn:E; [apply direct_branch in E; contradiction|].
  destruct (create_mfa_token auth (user.id u)) as [[[t j] e]|]; [|discriminate].
  destruct (create_session auth _); [|discriminate].
  cbn. intros [= <-]. cbn. eauto 10.
Qed.

Lemma classic_direct (a : RiskBasedAdaptiveMFA.Assessment) (u : user.User) :
  (RiskBasedAdaptiveMFA.a_risk_level a = "low" /\ user.mfa_enabled u = false)
  \/ ~ (RiskBasedAdaptiveMFA.a_risk_level a = "low" /\ user.mfa_enabled u = false).
Proof.
  destruct (String.eqb_spec (RiskBasedAdaptiveMFA.a_risk_level a) "low") as [Hl|Hl];
    [|right; tauto].
  destruct (user.mfa_enabled u); [right; intros [_ ?]; discriminate | now left].
Qed.

Lemma login_response_fields auth a u r :
  snd (get_login_response auth a u) = Ok r ->
  risk_score r = RiskBasedAdaptiveMFA.a_risk_score a
  /\ risk_level r = RiskBasedAdaptiveMFA.a_risk_level a.
Proof.
  unfold get_login_response.
  destruct (_ && _).
  - destruct (create_access_token auth (user.id u)) as [[[t1 j1] e1]|]; [|discriminate].
    destruct (create_refresh_token auth (user.id u)) as [[[t2 j2] e2]|]; [|discriminate].
    destruct (create_session auth _); [|discriminate].
    destruct (create_session auth _); [|discriminate].
    cbn. now intros [= <-].
  - destruct (create_mfa_token auth (user.id u)) as [[[t j] e]|]; [|discriminate].
    destruct (create_session auth _); [|discriminate].
    cbn. now intros [= <-].
Qed.

Lemma login_response_calls auth a u :
  Forall (fun c => s_user_id c = user.id u /\ without_ip c)
         (fst (get_login_response auth a u)).
Proof.
  unfold get_login_response, without_ip.
  destruct (_ && _).
  - destruct (create_access_token auth (user.id u)) as [[[t1 j1] e1]|]; [|constructor].
    destruct (create_refresh_token auth (user.id u)) as [[[t2 j2] e2]|]; [|constructor].
    destruct (create_session auth _); [destruct (create_session auth _)|];
      cbn; repeat (match goal with
                   | |- Forall _ [] => constructor
                   | |- Forall _ (_ :: _) => constructor; [split; [reflexivity | cbn; auto]|]
                   end).
  - destruct (create_mfa_token auth (user.id u)) as [[[t j] e]|]; [|constructor].
    destruct (create_session auth _);
      cbn; repeat (match goal with
                   | |- Forall _ [] => constructor
                   | |- Forall _ (_ :: _) => constructor; [split; [reflexivity | cbn; auto]|]
                   end).
Qed.
End login_response.

(** X18. [get_login_response] hands out an access and a refresh token
    at once exactly when the assessed level is "low" and the user has
    not enabled MFA; it then records an access and a refresh session, in
    this order, and says nothing about blocking.  In every other case the
    response carries an MFA token only, records one session of type
    "mfa" and says MFA is required, whatever [mfa_required] says in the
    assessment.  Every session is recorded for this user and without an
    IP address; the response repeats the score and level of the
    assessment; and when every [AuthService] call succeeds a response is
    returned. *)
Theorem login_response_spec
    (auth : AdaptiveMFARouter.AuthService) (a : RiskBasedAdaptiveMFA.Assessment)
    (u : user.User) :
  let calls := fst (AdaptiveMFARouter.get_login_response auth a u) in
  let result := snd (AdaptiveMFARouter.get_login_response auth a u) in
  let direct := RiskBasedAdaptiveMFA.a_risk_level a = "low" /\ user.mfa_enabled u = false in
  (forall r, result = Ok r ->
     ((exists t, AdaptiveMFARouter.access_token r = Some t) <-> direct)
     /\ ((exists t, AdaptiveMFARouter.mfa_token r = Some t) <-> ~ direct)
     /\ AdaptiveMFARouter.risk_score r = RiskBasedAdaptiveMFA.a_risk_score a
     /\ AdaptiveMFARouter.risk_level r = RiskBasedAdaptiveMFA.a_risk_level a)
  /\ (forall r, result = Ok r -> direct ->
        (exists t, AdaptiveMFARouter.refresh_token r = Some t)
        /\ AdaptiveMFARouter.mfa_required r = false
        /\ AdaptiveMFARouter.r_blocked r = None
        /\ map AdaptiveMFARouter.s_token_type calls = ["access"; "refresh"])
  /\ (forall r, result = Ok r -> ~ direct ->
        AdaptiveMFARouter.refresh_token r = None
        /\ AdaptiveMFARouter.mfa_required r = true
        /\ AdaptiveMFARouter.instructions r = AdaptiveMFARouter._get_instructions a
        /\ map AdaptiveMFARouter.s_token_type calls = ["mfa"])
  /\ Forall (fun c => AdaptiveMFARouter.s_user_id c = user.id u
                      /\ AdaptiveMFARouter.without_ip c) calls
  /\ (AdaptiveMFARouter.succeeds auth -> exists r, result = Ok r).
Proof.
  cbn zeta. split; [|split; [|split; [|split]]].
  - intros r Hr.
    destruct (classic_direct a u) as [[Hl Hm]|Hn].
    + destruct (login_response_direct auth a u r Hl Hm Hr)
        as (Hacc & _ & Hmfa & _).
      split; [tauto|]. split.
      * split; [|tauto]. intros [t Ht]. congruence.
      * now apply (login_response_fields auth a u).
    + destruct (login_response_mfa auth a u r Hn Hr) as (Hacc & _ & Hmfa & _).
      split; [|split].
      * split; [|tauto]. intros [t Ht]. congruence.
      * tauto.
      * now apply (login_response_fields auth a u).
  - intros r Hr [Hl Hm].
    destruct (login_response_direct auth a u r Hl Hm Hr)
      as (_ & Href & _ & Hreq & Hb & _ & _ & Hcalls). auto.
  - intros r Hr Hn.
    destruct (login_response_mfa auth a u r Hn Hr)
      as (_ & Href & _ & Hreq & _ & _ & Hins & Hcalls). auto.
  - apply login_response_calls.
  - apply login_response_succeeds.
Qed.

Lemma login_response_spec_witness :
  exists r,
    snd (AdaptiveMFARouter.get_login_response more_samples.auth
           RiskBasedAdaptiveMFA._error_response samples.bob) = Ok r
    /\ AdaptiveMFARouter.mfa_required r = true
    /\ AdaptiveMFARouter.instructions r = "Standard MFA verification required.".
Proof.
  destruct (login_response_spec more_samples.auth RiskBasedAdaptiveMFA._error_response
              samples.bob) as (_ & _ & Hmfa & _ & Hsucc).
  destruct Hsucc as [r Hr].
  { repeat split; intros; eexists; reflexivity. }
  exists r. split; [exact Hr|].
  destruct (Hmfa r Hr) as (_ & Hreq & Hins & _).
  { intros [Hl _]. discriminate. }
  split; [exact Hreq | exact Hins].
Defined.

Lemma map_score_low cfg score :
  RiskAssessmentService._map_score_to_level cfg score = "low"
  <-> (score < RISK_THRESHOLD_LOW cfg)%Q.
Proof.
  unfold RiskAssessmentService._map_score_to_level.
  destruct (Qltb score (RISK_THRESHOLD_LOW cfg)) eqn:E1;
    [apply Qltb_lt in E1 | apply Qltb_ge in E1].
  - tauto.
  - split; [|intros; exfalso; lra].
    destruct (Qltb score (RISK_THRESHOLD_HIGH cfg)); discriminate.
Qed.

(** X19. For a login the engine has blocked, the response carries no
    access token and reports the block and its reason whenever the user
    has MFA enabled or RISK_THRESHOLD_LOW is at most 0.95.  But when the
    score lies below RISK_THRESHOLD_LOW (a threshold above 0.95) and the
    user has not enabled MFA, the blocked login is answered with an
    access and a refresh token, and the response does not mention the
    block. *)
Theorem blocked_login_response
    (py_str : pyval -> string) (format_0f : Q -> string) (cfg : Settings)
    (login_event : gmap string pyval) (device_fingerprint : string)
    (device_known : bool) (last_seen : option Z)
    (deviation ml_score : Q) (ml_explanation : string) (location_metric : Q)
    (db : RiskBasedAdaptiveMFA.Database) (user_id : string) (u : user.User)
    (auth : AdaptiveMFARouter.AuthService) (resp : AdaptiveMFARouter.Response) :
  let r := risk_service.assess_login_result py_str format_0f cfg login_event
             device_fingerprint device_known last_seen deviation ml_score
             ml_explanation location_metric in
  let a := RiskBasedAdaptiveMFA.assess_login (fun _ => Ok r) db user_id in
  let score := RiskAssessmentService._combine_signals
                 device_known deviation ml_score location_metric in
  RiskBasedAdaptiveMFA.query_user db user_id = Ok (Some u) ->
  RiskBasedAdaptiveMFA.blocked a = true ->
  snd (AdaptiveMFARouter.get_login_response auth a u) = Ok resp ->
  ((user.mfa_enabled u = true \/ (RISK_THRESHOLD_LOW cfg <= 0.95)%Q) ->
   AdaptiveMFARouter.access_token resp = None
   /\ AdaptiveMFARouter.refresh_token resp = None
   /\ AdaptiveMFARouter.mfa_required resp = true
   /\ AdaptiveMFARouter.r_blocked resp = Some true
   /\ AdaptiveMFARouter.r_block_reason resp
      = Some (Some "Critical risk: Unknown device with anomalous behavior"))
  /\ (user.mfa_enabled u = false -> (score < RISK_THRESHOLD_LOW cfg)%Q ->
      (exists t, AdaptiveMFARouter.access_token resp = Some t)
      /\ (exists t, AdaptiveMFARouter.refresh_token resp = Some t)
      /\ AdaptiveMFARouter.mfa_required resp = false
      /\ AdaptiveMFARouter.r_blocked resp = None
      /\ AdaptiveMFARouter.r_block_reason resp = None).
Proof.
  intros r a score Hq Hb Hresp.
  assert (Hlevel : RiskBasedAdaptiveMFA.a_risk_level a
                   = RiskAssessmentService._map_score_to_level cfg score).
  { unfold a, RiskBasedAdaptiveMFA.assess_login. rewrite Hq. reflexivity. }
  assert (Hreason : RiskBasedAdaptiveMFA.block_reason a
                    = Some "Critical risk: Unknown device with anomalous behavior").
  { revert Hb. unfold a, RiskBasedAdaptiveMFA.assess_login. rewrite Hq. cbn.
    now intros ->. }
  assert (Hscore : (0.95 < score)%Q).
  { revert Hb. unfold a, RiskBasedAdaptiveMFA.assess_login. rewrite Hq. cbn.
    rewrite !andb_true_iff. intros [[H _] _]. now apply Qgtb_gt. }
  split.
  - intros Hcase.
    destruct (login_response_mfa auth a u resp) as (Hacc & Href & _ & Hreq & Hbl & Hwhy & _).
    + intros [Hlow Hm]. rewrite Hlevel in Hlow. apply map_score_low in Hlow.
      destruct Hcase as [Hen | Hthr]; [congruence | lra].
    + exact Hresp.
    + rewrite Hb in Hbl, Hwhy. rewrite Hreason in Hwhy. auto.
  - intros Hm Hlow.
    destruct (login_response_direct auth a u resp) as (Hacc & Href & _ & Hreq & Hbl & Hwhy & _).
    + rewrite Hlevel. now apply map_score_low.
    + exact Hm.
    + exact Hresp.
    + auto.
Qed.

Lemma blocked_login_response_witness :
  let r := risk_service.assess_login_result (fun _ => "?") (fun _ => "?")
             more_samples.lenient_cfg ∅ "fp" false None 0.95 0.95
             "High anomaly detected" 1000 in
  let a := RiskBasedAdaptiveMFA.assess_login (fun _ => Ok r) more_samples.bobs_db "u-2" in
  exists resp,
    snd (AdaptiveMFARouter.get_login_response more_samples.auth a samples.bob) = Ok resp
    /\ RiskBasedAdaptiveMFA.blocked a = true
    /\ (exists t, AdaptiveMFARouter.access_token resp = Some t)
    /\ AdaptiveMFARouter.r_blocked resp = None.
Proof.
  cbn zeta.
  destruct (login_response_succeeds more_samples.auth
              (RiskBasedAdaptiveMFA.assess_login
                 (fun _ => Ok (risk_service.assess_login_result (fun _ => "?") (fun _ => "?")
                                 more_samples.lenient_cfg ∅ "fp" false None 0.95 0.95
                                 "High anomaly detected" 1000))
                 more_samples.bobs_db "u-2")
              samples.bob) as [resp Hresp].
  { repeat split; intros; eexists; reflexivity. }
  exists resp. split; [exact Hresp|].
  assert (Hb : RiskBasedAdaptiveMFA.blocked
                 (RiskBasedAdaptiveMFA.assess_login
                    (fun _ => Ok (risk_service.assess_login_result (fun _ => "?") (fun _ => "?")
                                    more_samples.lenient_cfg ∅ "fp" false None 0.95 0.95
                                    "High anomaly detected" 1000))
                    more_samples.bobs_db "u-2") = true)
    by (vm_compute; reflexivity).
  split; [exact Hb|].
  destruct (blocked_login_response (fun _ => "?") (fun _ => "?")
              more_samples.lenient_cfg ∅ "fp" false None 0.95 0.95
              "High anomaly detected" 1000 more_samples.bobs_db "u-2" samples.bob
              more_samples.auth resp eq_refl Hb Hresp) as [_ Hdirect].
  destruct Hdirect as (Hacc & _ & _ & Hbl & _); [reflexivity | vm_compute; reflexivity|].
  split; [exact Hacc | exact Hbl].
Defined.

(** ** X20: sanitising user input *)

Section sanitize.
Import helpers_text.

Lemma lstrip_suffix s : exists spaces, s = spaces ++ lstrip s.
Proof.
  induction s as [|c rest [spaces IH]]; cbn.
  - now exists [].
  - destruct (isspace c); [|now exists []].
    exists (c :: spaces). cbn. now f_equal.
Qed.

Lemma lstrip_length s : (length (lstrip s) <= length s)%nat.
Proof.
  destruct (lstrip_suffix s) as [spaces H]. rewrite H at 2.
  rewrite length_app. lia.
Qed.

Lemma lstrip_Forall (P : N -> Prop) s : Forall P s -> Forall P (lstrip s).
Proof.
  destruct (lstrip_suffix s) as [spaces H]. intros HP. rewrite H in HP.
  now apply Forall_app in HP as [_ HP].
Qed.

(** What [lstrip] leaves does not start with a space. *)
Lemma lstrip_head s c rest : lstrip s = c :: rest -> isspace c = false.
Proof.
  induction s as [|d s IH]; cbn; [discriminate|].
  destruct (isspace d) eqn:E; [exact IH|]. now intros [= <- _].
Qed.

Lemma lstrip_fixed s :
  (forall c rest, s = c :: rest -> isspace c = false) -> lstrip s = s.
Proof.
  destruct s as [|c rest]; [reflexivity|]. intros H. cbn.
  now rewrite (H c rest eq_refl).
Qed.

Lemma lstrip_idempotent s : lstrip (lstrip s) = lstrip s.
Proof. apply lstrip_fixed. intros c rest. apply lstrip_head. Qed.

Lemma lstrip_snoc s c : isspace c = false -> lstrip (s ++ [c]) = lstrip s ++ [c].
Proof.
  intros Hc. induction s as [|d s IH]; cbn.
  - now rewrite Hc.
  - now destruct (isspace d).
Qed.

Lemma rstrip_cons c s : isspace c = false -> rstrip (c :: s) = c :: rstrip s.
Proof.
  intros Hc. unfold rstrip. cbn [rev].
  now rewrite lstrip_snoc, rev_app_distr.
Qed.

Lemma rstrip_length s : (length (rstrip s) <= length s)%nat.
Proof.
  unfold rstrip. rewrite length_rev.
  etransitivity; [apply lstrip_length|]. now rewrite length_rev.
Qed.

Lemma rstrip_Forall (P : N -> Prop) s : Forall P s -> Forall P (rstrip s).
Proof.
  intros HP. unfold rstrip.
  apply List.Forall_forall. intros x Hx. apply in_rev in Hx.
  assert (HF : Forall P (lstrip (rev s))).
  { apply lstrip_Forall, List.Forall_forall. intros y Hy. apply in_rev in Hy.
    rewrite List.Forall_forall in HP. now apply HP. }
  rewrite List.Forall_forall in HF. now apply HF.
Qed.

Lemma rstrip_last s init c : rstrip s = init ++ [c] -> isspace c = false.
Proof.
  unfold rstrip. intros H. apply (f_equal (@rev N)) in H.
  rewrite rev_involutive, rev_app_distr in H. cbn in H.
  now apply lstrip_head in H.
Qed.

Lemma rstrip_idempotent s : rstrip (rstrip s) = rstrip s.
Proof. unfold rstrip. now rewrite rev_involutive, lstrip_idempotent. Qed.

Lemma strip_head s c rest : strip s = c :: rest -> isspace c = false.
Proof.
  unfold strip. destruct (lstrip s) as [|d t] eqn:E.
  - discriminate.
  - pose proof (lstrip_head _ _ _ E) as Hd.
    rewrite rstrip_cons by exact Hd. now intros [= <- _].
Qed.

Lemma strip_idempotent s : strip (strip s) = strip s.
Proof.
  unfold strip at 1.
  rewrite (lstrip_fixed (strip s)) by (intros c rest; apply strip_head).
  unfold strip. apply rstrip_idempotent.
Qed.

Lemma strip_length s : (length (strip s) <= length s)%nat.
Proof.
  unfold strip. etransitivity; [apply rstrip_length | apply lstrip_length].
Qed.

Lemma strip_Forall (P : N -> Prop) s : Forall P s -> Forall P (strip s).
Proof. intros H. now apply rstrip_Forall, lstrip_Forall. Qed.

Lemma slice_Forall {A} (P : A -> Prop) (items : list A) i j :
  Forall P items -> Forall P (helpers.slice items i j).
Proof. intros H. unfold helpers.slice. now apply Forall_take, Forall_drop. Qed.

Lemma slice_prefix_length {A} (items : list A) (n : Z) :
  0 <= n -> Z.of_nat (length (helpers.slice items 0 n)) <= n.
Proof.
  intros Hn. unfold helpers.slice, helpers.slice_index. rewrite Z.ltb_irrefl.
  rewrite length_take, length_drop.
  destruct (n <? 0) eqn:E; lia.
Qed.

Lemma slice_prefix_negative {A} (items : list A) (n : Z) :
  n < 0 ->
  Z.of_nat (length (helpers.slice items 0 n)) = Z.max 0 (Z.of_nat (length items) + n).
Proof.
  intros Hn. unfold helpers.slice, helpers.slice_index. rewrite Z.ltb_irrefl.
  rewrite length_take, length_drop.
  destruct (n <? 0) eqn:E; lia.
Qed.

Lemma slice_prefix_short {A} (items : list A) (n : Z) :
  Z.of_nat (length items) <= n -> helpers.slice items 0 n = items.
Proof.
  intros Hn. unfold helpers.slice, helpers.slice_index. rewrite Z.ltb_irrefl.
  destruct (n <? 0) eqn:E; [lia|].
  replace (Z.to_nat (Z.max 0 (Z.min (Z.of_nat (length items)) 0))) with 0%nat by lia.
  rewrite drop_0. apply take_ge. lia.
Qed.

Lemma filter_kept_fixed s : Forall (fun c => kept c = true) s -> List.filter kept s = s.
Proof.
  induction 1 as [|c s Hc _ IH]; cbn; [reflexivity|]. now rewrite Hc, IH.
Qed.

Lemma filter_kept_Forall s : Forall (fun c => kept c = true) (List.filter kept s).
Proof. apply List.Forall_forall. intros c Hc. now apply filter_In in Hc. Qed.
End sanitize.

(** X20. [sanitize_input] returns the empty string for anything that
    is not a string.  Its result holds no control character below 32
    other than the line feed, and neither starts nor ends with white
    space.  With a limit [max_length >= 0] the result has at most
    [max_length] characters and sanitising it again changes nothing;
    with a negative limit nothing is refused: the last [-max_length]
    characters that survived the filter are cut off instead. *)
Theorem sanitize_input_spec (text : option helpers_text.pystr) (max_length : Z) :
  let result := helpers_text.sanitize_input text max_length in
  (text = None -> result = [])
  /\ Forall (fun c => (32 <= c)%N \/ c = 10%N) result
  /\ (forall c rest, result = c :: rest -> helpers_text.isspace c = false)
  /\ (forall init c, result = init ++ [c] -> helpers_text.isspace c = false)
  /\ (0 <= max_length ->
      Z.of_nat (length result) <= max_length
      /\ helpers_text.sanitize_input (Some result) max_length = result)
  /\ (forall s, text = Some s -> max_length < 0 ->
        Z.of_nat (length result)
        <= Z.max 0 (Z.of_nat (length (List.filter helpers_text.kept s)) + max_length)).
Proof.
  cbn zeta.
  assert (Hkept : Forall (fun c => helpers_text.kept c = true)
                         (helpers_text.sanitize_input text max_length)).
  { destruct text as [s|]; cbn; [|constructor].
    apply strip_Forall, slice_Forall, filter_kept_Forall. }
  split; [now intros ->|]. split; [|split; [|split; [|split]]].
  - eapply Forall_impl; [exact Hkept|]. cbn. intros c Hc.
    unfold helpers_text.kept in Hc. apply orb_true_iff in Hc as [Hc | Hc].
    + left. now apply N.leb_le.
    + right. now apply N.eqb_eq.
  - destruct text as [s|]; cbn; [|discriminate]. intros c rest. apply strip_head.
  - destruct text as [s|]; cbn.
    + intros init c. apply rstrip_last.
    + intros [|? ?] c; discriminate.
  - intros Hm.
    assert (Hlen : Z.of_nat (length (helpers_text.sanitize_input text max_length))
                   <= max_length).
    { destruct text as [s|]; cbn; [|lia].
      pose proof (strip_length (helpers.slice (List.filter helpers_text.kept s) 0 max_length)).
      pose proof (slice_prefix_length (List.filter helpers_text.kept s) max_length Hm).
      lia. }
    split; [exact Hlen|].
    unfold helpers_text.sanitize_input at 1.
    rewrite filter_kept_fixed by exact Hkept.
    rewrite slice_prefix_short by exact Hlen.
    destruct text as [s|]; cbn; [apply strip_idempotent | reflexivity].
  - intros s -> Hm. cbn.
    pose proof (strip_length (helpers.slice (List.filter helpers_text.kept s) 0 max_length)).
    pose proof (slice_prefix_negative (List.filter helpers_text.kept s) max_length Hm).
    lia.
Qed.

Lemma sanitize_input_spec_witness :
  (* " a\tb\n" with the limit 4 *)
  Z.of_nat (length (helpers_text.sanitize_input (Some [32; 97; 9; 98; 10]%N) 4)) <= 4
  /\ helpers_text.sanitize_input (Some [97; 98; 99]%N) (-1) <> [97; 98; 99]%N.
Proof.
  split.
  - destruct (sanitize_input_spec (Some [32; 97; 9; 98; 10]%N) 4)
      as (_ & _ & _ & _ & Hlimit & _).
    apply Hlimit. lia.
  - destruct (sanitize_input_spec (Some [97; 98; 99]%N) (-1))
      as (_ & _ & _ & _ & _ & Hneg).
    specialize (Hneg [97; 98; 99]%N eq_refl ltac:(lia)).
    intros Heq. rewrite Heq in Hneg. cbn in Hneg. lia.
Defined.

(** ** X21: the fingerprint helper of utils/helpers.py *)

(** X21. [generate_device_fingerprint] returns the SHA-256 hex digest
    of user agent and language joined by ':', 64 lowercase hexadecimal
    characters, which [validate_device_fingerprint] (32 characters)
    refuses for every input.  The separator is not escaped, so moving a
    ':' from the end of the user agent to the start of the language
    leaves the fingerprint unchanged. *)
Theorem generated_fingerprint_rejected (user_agent accept_language : string) :
  let fp := helpers_text.generate_device_fingerprint in
  fp user_agent accept_language
  = sha256.sha256_hex (user_agent ++ ":" ++ accept_language)%string
  /\ String.length (fp user_agent accept_language) = 64%nat
  /\ Forall (fun c => Spec.lower_hex c = true)
            (list_ascii_of_string (fp user_agent accept_language))
  /\ validators.validate_device_fingerprint (VStr (fp user_agent accept_language)) = false
  /\ (forall middle,
        fp (user_agent ++ ":" ++ middle)%string accept_language
        = fp user_agent (middle ++ ":" ++ accept_language)%string).
Proof.
  cbn zeta. unfold helpers_text.generate_device_fingerprint, try_except.
  assert (Hlen : String.length (sha256.sha256_hex (user_agent ++ ":" ++ accept_language))
                 = 64%nat) by (unfold sha256.sha256_hex; apply hexdigest_length).
  split; [reflexivity|]. split; [exact Hlen|]. split; [|split].
  - unfold sha256.sha256_hex. apply hexdigest_lower.
  - apply not_true_iff_false. intros Hv.
    apply validate_device_fingerprint_length in Hv. rewrite Hlen in Hv.
    destruct Hv; discriminate.
  - intros middle. apply (f_equal sha256.sha256_hex). now rewrite !string_app_assoc.
Qed.

(** ** X22: the security score of the dashboard *)

Lemma recent_high_spec uid now e :
  dashboard.recent_high uid now e = true
  <-> dashboard.r_user_id e = uid
      /\ now - dashboard.seven_days <= dashboard.r_timestamp e
      /\ dashboard.r_risk_level e = Some "high".
Proof.
  unfold dashboard.recent_high.
  rewrite !andb_true_iff, String.eqb_eq, Z.leb_le.
  destruct (dashboard.r_risk_level e) as [level|].
  - rewrite String.eqb_eq. split.
    + now intros [[-> ?] ->].
    + now intros (-> & ? & [= ->]).
  - split; [intros [_ ?] | intros (_ & _ & ?)]; discriminate.
Qed.

Lemma no_recent_high uid now events :
  (length (List.filter (dashboard.recent_high uid now) events) =? 0)%nat = true
  <-> forall e, In e events -> dashboard.recent_high uid now e = false.
Proof.
  rewrite Nat.eqb_eq. induction events as [|e rest IH]; cbn.
  - tauto.
  - destruct (dashboard.recent_high uid now e) eqn:E; cbn.
    + split; [discriminate|]. intros H. specialize (H e (or_introl eq_refl)). congruence.
    + rewrite IH. split.
      * intros H x [<- | Hx]; auto.
      * intros H x Hx. apply H. now right.
Qed.

(** X22. The security score is one of 50, 60, ..., 100, so the cap at
    100 never changes it.  It is 100 exactly when the user has MFA
    enabled, is verified and has no login event of the last seven days
    (the bound included) with risk level "high"; without MFA it never
    exceeds 70.  Events of other users, events older than seven days and
    events whose level is not exactly "high" do not count. *)
Theorem security_score_spec
    (u : user.User) (is_verified : bool) (now : Z) (events : list dashboard.RiskRow) :
  let score := dashboard.calculate_security_score u is_verified now events in
  let counted e :=
    dashboard.r_user_id e = user.id u
    /\ now - 7 * 86400 <= dashboard.r_timestamp e
    /\ dashboard.r_risk_level e = Some "high" in
  score = 50 + (if user.mfa_enabled u then 30 else 0)
             + (if is_verified then 10 else 0)
             + (if existsb (dashboard.recent_high (user.id u) now) events then 0 else 10)
  /\ 50 <= score <= 100 /\ score mod 10 = 0
  /\ (score = 100 <->
      user.mfa_enabled u = true /\ is_verified = true
      /\ forall e, In e events -> ~ counted e)
  /\ (user.mfa_enabled u = false -> score <= 70)
  /\ (forall e, ~ counted e ->
        dashboard.calculate_security_score u is_verified now (e :: events) = score)
  /\ (forall e, counted e ->
        dashboard.calculate_security_score u is_verified now (e :: events)
        = dashboard.calculate_security_score u is_verified now [] - 10).
Proof.
  cbn zeta. unfold dashboard.calculate_security_score.
  change (7 * 86400) with dashboard.seven_days.
  cbn [List.filter length Nat.eqb].
  pose proof (no_recent_high (user.id u) now events) as Hnone.
  split; [|split; [|split; [|split; [|split; [|split]]]]].
  - assert (Hex : existsb (dashboard.recent_high (user.id u) now) events
                  = negb (length (List.filter (dashboard.recent_high (user.id u) now) events)
                          =? 0)%nat).
    { clear Hnone. induction events as [|e rest IH]; cbn; [reflexivity|].
      destruct (dashboard.recent_high (user.id u) now e); cbn; [reflexivity | exact IH]. }
    rewrite Hex.
    destruct (user.mfa_enabled u), is_verified, (_ =? _)%nat; reflexivity.
  - destruct (user.mfa_enabled u), is_verified, (_ =? _)%nat; lia.
  - destruct (user.mfa_enabled u), is_verified, (_ =? _)%nat; reflexivity.
  - destruct (length _ =? 0)%nat eqn:E.
    + assert (Hall : forall e, In e events ->
                ~ (dashboard.r_user_id e = user.id u
                   /\ now - dashboard.seven_days <= dashboard.r_timestamp e
                   /\ dashboard.r_risk_level e = Some "high")).
      { intros e He Hc. apply recent_high_spec in Hc.
        rewrite (proj1 Hnone eq_refl e He) in Hc. discriminate. }
      destruct (user.mfa_enabled u), is_verified; split;
        try (intros H; exfalso; lia); try (intros (? & ? & _); discriminate); auto.
    + split; [destruct (user.mfa_enabled u), is_verified; intros H; exfalso; lia|].
      intros (_ & _ & Hall). exfalso.
      assert (Hf : forall e, In e events -> dashboard.recent_high (user.id u) now e = false).
      { intros e He. apply not_true_iff_false. intros Hc. apply recent_high_spec in Hc.
        now apply (Hall e He). }
      apply Hnone in Hf. congruence.
  - intros ->. destruct is_verified, (_ =? _)%nat; lia.
  - intros e Hn.
    assert (Hf : dashboard.recent_high (user.id u) now e = false).
    { apply not_true_iff_false. intros Hc. now apply recent_high_spec in Hc. }
    now rewrite Hf.
  - intros e Hc. apply recent_high_spec in Hc. rewrite Hc. cbn [length Nat.eqb].
    destruct (user.mfa_enabled u), is_verified; reflexivity.
Qed.

Lemma security_score_spec_witness :
  dashboard.calculate_security_score samples.bob true 1000000 [] <= 70
  /\ dashboard.calculate_security_score samples.alice true 1000000
       [{| dashboard.r_user_id := "u-1"; dashboard.r_timestamp := 395200;
           dashboard.r_risk_level := Some "high" |}] = 90.
Proof.
  split.
  - destruct (security_score_spec samples.bob true 1000000 []) as (_ & _ & _ & _ & H & _).
    now apply H.
  - destruct (security_score_spec samples.alice true 1000000 []) as (_ & _ & _ & _ & _ & _ & H).
    rewrite H; [reflexivity|]. repeat split. cbn. lia.
Defined.

(** ** X23: the sign of the behavioural deviation *)

Section deviation_sign.
Local Open Scope Q_scope.



End deviation_sign.


